(** * School records manager: relationship-integrity protocol

    A shallow embedding of the data-access code of the repository
    ([database.py], [utils.py], [database_pyqt.py], [classes.py]), of the
    methods of [classes.py] that link students, courses and instructors,
    of the JSON export and import of [utils.py], and of the form handlers
    that create students, create courses, enroll and assign
    ([tkinter-ui.py], [PyQt.py]), followed by the properties of the
    enrollment / assignment protocol and of the code around it.

    Conventions.
    - A Python [str] is a [string]; its characters are the code points
      below 256.
    - A Python [int] is a [Z]; a text of more than 4300 digits is not
      converted to one (the interpreter's default limit).
    - A SQLite table is the list of its rows in insertion (rowid) order.
    - A function that talks to the database and to the console is a state
      transformer over [world] (database file + standard output).
    - A Python object that is compared by identity is its address; the
      attributes that methods mutate are kept per address ([Objects.heap]). *)

From Stdlib Require Import String Ascii List ZArith NArith Lia Bool Permutation.
Import ListNotations.
Local Open Scope string_scope.
Local Open Scope Z_scope.

Set Implicit Arguments.

(* ===================================================================== *)
(** * Python run-time helpers                                             *)
(* ===================================================================== *)

Module Py.

(** Exceptions that the modelled code raises or catches.
    [IntegrityError] is a subclass of [sqlite3.Error]; [OverflowError] and
    [ValueError] are not. *)
Inductive exception : Type :=
| IntegrityError
| OverflowError
| ValueError (msg : string).

Definition is_sqlite3_Error (e : exception) : bool :=
  match e with
  | IntegrityError => true
  | OverflowError | ValueError _ => false
  end.

(** Outcome of evaluating a Python expression: a value or a raised
    exception. *)
Inductive result (A : Type) : Type :=
| Return (a : A)
| Raise (e : exception).

Arguments Return {A} a.
Arguments Raise {A} e.

Definition bind {A B : Type} (r : result A) (k : A -> result B) : result B :=
  match r with
  | Return a => k a
  | Raise e => Raise e
  end.

(** A line written by [print]: literal text, or a prefix followed by the
    text of a caught exception (the text itself comes from the sqlite3
    module and is not spelled out). *)
Inductive output : Type :=
| Text (line : string)
| TextExc (prefix : string) (e : exception).

(** [str.isspace] on one character, for code points below 256:
    TAB..CR, FS..US, SPACE, NEL and NBSP. It is also what [\s] matches in a
    [str] pattern of the [re] module. *)
Definition isspace (c : ascii) : bool :=
  let n := N_of_ascii c in
  ((9 <=? n) && (n <=? 13) || (28 <=? n) && (n <=? 32)
   || (n =? 133) || (n =? 160))%N.

(** [s.lstrip()], [s.rstrip()] and [s.strip()] without argument. *)
Fixpoint lstrip (s : string) : string :=
  match s with
  | EmptyString => EmptyString
  | String c s' => if isspace c then lstrip s' else s
  end.

Fixpoint rstrip (s : string) : string :=
  match s with
  | EmptyString => EmptyString
  | String c s' =>
      match rstrip s' with
      | EmptyString => if isspace c then EmptyString else String c EmptyString
      | t => String c t
      end
  end.

Definition strip (s : string) : string := rstrip (lstrip s).

(** Truth value of a [str]: the empty string is falsy. *)
Definition truthy (s : string) : bool := negb (String.eqb s "").

(** ** [int(x)]

    [int] applied to a [str] accepts: optional white space, an optional
    sign, decimal digits in which single underscores may separate digits,
    optional white space. White space here is TAB..CR and SPACE, plus the
    non-ASCII white space NEL and NBSP (the control characters FS..US are
    [isspace] but are not skipped by the integer parser). The limit on the
    number of digits of recent interpreters is not modelled. *)
Definition int_space (c : ascii) : bool :=
  let n := N_of_ascii c in
  ((9 <=? n) && (n <=? 13) || (n =? 32) || (n =? 133) || (n =? 160))%N.

Definition digit_value (c : ascii) : option Z :=
  let n := N_of_ascii c in
  if ((48 <=? n) && (n <=? 57))%N then Some (Z.of_N n - 48) else None.

Definition is_underscore (c : ascii) : bool := (N_of_ascii c =? 95)%N.

Fixpoint skip_int_space (s : string) : string :=
  match s with
  | EmptyString => EmptyString
  | String c s' => if int_space c then skip_int_space s' else s
  end.

Fixpoint all_int_space (s : string) : bool :=
  match s with
  | EmptyString => true
  | String c s' => int_space c && all_int_space s'
  end.

(** [digits acc prev_us s]: the digits read so far have value [acc];
    [prev_us] tells whether the previous character was an underscore. The
    caller has already consumed the first digit. *)
Fixpoint digits (acc : Z) (prev_us : bool) (s : string) : option Z :=
  match s with
  | EmptyString => if prev_us then None else Some acc
  | String c s' =>
      match digit_value c with
      | Some d => digits (10 * acc + d) false s'
      | None =>
          if is_underscore c then
            if prev_us then None else digits acc true s'
          else if prev_us then None
          else if all_int_space s then Some acc else None
      end
  end.

Definition unsigned_literal (s : string) : option Z :=
  match s with
  | EmptyString => None
  | String c s' =>
      match digit_value c with
      | Some d => digits d false s'
      | None => None
      end
  end.

(** The text as an integer literal: white space, an optional sign, the
    digits, white space. *)
Definition int_literal (s : string) : option Z :=
  match skip_int_space s with
  | EmptyString => None
  | String c s' =>
      if (N_of_ascii c =? 43)%N then unsigned_literal s'
      else if (N_of_ascii c =? 45)%N then option_map Z.opp (unsigned_literal s')
      else unsigned_literal (String c s')
  end.

(** [sys.get_int_max_str_digits()], at its default. *)
Definition int_max_str_digits : N := 4300.

(** Number of digit characters of a text; the sign, the underscores and
    the white space do not count, leading zeros do. *)
Fixpoint count_digits (s : string) : N :=
  match s with
  | EmptyString => 0
  | String c s' =>
      ((match digit_value c with Some _ => 1 | None => 0 end) + count_digits s')%N
  end.

(** [int(s)] for a [str]: [None] stands for the raised [ValueError], which
    is raised for a text that is not a literal and also for a literal of
    more than [int_max_str_digits] digits. *)
Definition int_of_str (s : string) : option Z :=
  if (int_max_str_digits <? count_digits s)%N then None else int_literal s.

(** The values that reach an [age] parameter: an [int], a [str] (form
    text, JSON string) or [None] (missing JSON key). Floats are not
    modelled. *)
Inductive value : Type :=
| PyInt (z : Z)
| PyStr (s : string)
| PyNone.

(** [int(x)]: [None] stands for the raised [ValueError] / [TypeError]. *)
Definition int (x : value) : option Z :=
  match x with
  | PyInt z => Some z
  | PyStr s => int_of_str s
  | PyNone => None
  end.

End Py.


(* ===================================================================== *)
(** * The fragment of the [re] module used by the validators              *)
(* ===================================================================== *)

Module Re.

(** Regular expressions over character classes. *)
Inductive regex : Type :=
| Nothing
| Epsilon
| Chars (cls : ascii -> bool)
| Seq (r1 r2 : regex)
| Alt (r1 r2 : regex)
| Star (r : regex).

Fixpoint nullable (r : regex) : bool :=
  match r with
  | Nothing => false
  | Epsilon => true
  | Chars _ => false
  | Seq r1 r2 => nullable r1 && nullable r2
  | Alt r1 r2 => nullable r1 || nullable r2
  | Star _ => true
  end.

(** Derivative with respect to one character. *)
Fixpoint derive (c : ascii) (r : regex) : regex :=
  match r with
  | Nothing => Nothing
  | Epsilon => Nothing
  | Chars cls => if cls c then Epsilon else Nothing
  | Seq r1 r2 =>
      Alt (Seq (derive c r1) r2) (if nullable r1 then derive c r2 else Nothing)
  | Alt r1 r2 => Alt (derive c r1) (derive c r2)
  | Star r1 => Seq (derive c r1) (Star r1)
  end.

(** [matches r s]: the whole of [s] belongs to the language of [r]. *)
Fixpoint matches (r : regex) (s : string) : bool :=
  match s with
  | EmptyString => nullable r
  | String c s' => matches (derive c r) s'
  end.

(** [r+] and [r{2,}]. *)
Definition plus (r : regex) : regex := Seq r (Star r).
Definition at_least_2 (r : regex) : regex := Seq r (Seq r (Star r)).

Definition lit (c : ascii) : regex := Chars (Ascii.eqb c).

Definition in_range (lo hi : N) (c : ascii) : bool :=
  ((lo <=? N_of_ascii c) && (N_of_ascii c <=? hi))%N.

(** [[a-zA-Z]] *)
Definition letter (c : ascii) : bool :=
  in_range 97 122 c || in_range 65 90 c.

(** [[a-zA-Z0-9._%+-]] *)
Definition local_char (c : ascii) : bool :=
  letter c || in_range 48 57 c
  || Ascii.eqb c "." || Ascii.eqb c "_" || Ascii.eqb c "%"
  || Ascii.eqb c "+" || Ascii.eqb c "-".

(** [[a-zA-Z0-9.-]] *)
Definition domain_char (c : ascii) : bool :=
  letter c || in_range 48 57 c || Ascii.eqb c "." || Ascii.eqb c "-".

(** [[^@\s]] *)
Definition not_at_not_space (c : ascii) : bool :=
  negb (Ascii.eqb c "@" || Py.isspace c).

Definition newline : ascii := ascii_of_N 10.

(** [s] without its last character, when that character is a newline. *)
Fixpoint without_final_newline (s : string) : option string :=
  match s with
  | EmptyString => None
  | String c EmptyString => if Ascii.eqb c newline then Some EmptyString else None
  | String c s' => option_map (String c) (without_final_newline s')
  end.

(** [re.match("^r$", s)] is not [None]: [$] matches at the end of the
    string and also just before a newline that ends the string. *)
Definition match_ (r : regex) (s : string) : bool :=
  matches r s
  || match without_final_newline s with
     | Some s' => matches r s'
     | None => false
     end.

(** [refines r1 r2]: the two expressions have the same shape, up to
    [Nothing] on the left, and every character class of [r1] is included
    in the class of [r2] at the same place. *)
Inductive refines : regex -> regex -> Prop :=
| refines_Nothing r : refines Nothing r
| refines_Epsilon : refines Epsilon Epsilon
| refines_Chars (p q : ascii -> bool) :
    (forall c, p c = true -> q c = true) -> refines (Chars p) (Chars q)
| refines_Seq r1 r2 s1 s2 :
    refines r1 s1 -> refines r2 s2 -> refines (Seq r1 r2) (Seq s1 s2)
| refines_Alt r1 r2 s1 s2 :
    refines r1 s1 -> refines r2 s2 -> refines (Alt r1 r2) (Alt s1 s2)
| refines_Star r s : refines r s -> refines (Star r) (Star s).

(** The language of an expression, stated without derivatives. *)
Inductive language : regex -> string -> Prop :=
| language_Epsilon : language Epsilon ""
| language_Chars (cls : ascii -> bool) (c : ascii) :
    cls c = true -> language (Chars cls) (String c "")
| language_Seq (r1 r2 : regex) (s1 s2 : string) :
    language r1 s1 -> language r2 s2 -> language (Seq r1 r2) (s1 ++ s2)
| language_Alt_l (r1 r2 : regex) (s : string) :
    language r1 s -> language (Alt r1 r2) s
| language_Alt_r (r1 r2 : regex) (s : string) :
    language r2 s -> language (Alt r1 r2) s
| language_Star_nil (r : regex) : language (Star r) ""
| language_Star_app (r : regex) (s1 s2 : string) :
    language r s1 -> language (Star r) s2 -> language (Star r) (s1 ++ s2).

(** Every character of [s] is in the class. *)
Fixpoint all_chars (cls : ascii -> bool) (s : string) : bool :=
  match s with
  | EmptyString => true
  | String c s' => cls c && all_chars cls s'
  end.

(** A non-empty text over one character class. *)
Definition word (cls : ascii -> bool) (s : string) : Prop :=
  s <> "" /\ all_chars cls s = true.

End Re.

(* ===================================================================== *)
(** * The SQLite store                                                    *)
(* ===================================================================== *)

(** Both data-access modules create the same four tables (the enrollment
    table is called [registrations] in [database.py] and [student_courses]
    in [database_pyqt.py]; the [created_at] / [enrolled_at] time stamps of
    the latter are never read and are left out). The two schemas differ in
    the [CHECK(age >= 0)] constraint and in the action attached to
    [courses.instructor_id]; the two modules differ in whether the
    connection enforces foreign keys. *)

Module Sqlite.

(** A row of [students] or of [instructors]; [person_id] is the
    [student_id], respectively the [instructor_id], column. *)
Record person_row : Type := mk_person_row {
  person_id : string;
  name : string;
  age : Z;
  email : string
}.

(** A row of [courses]; [None] is SQL [NULL]. *)
Record course_row : Type := mk_course_row {
  course_id : string;
  course_name : string;
  instructor_id : option string
}.

(** A row [(student_id, course_id)] of the enrollment table. *)
Definition registration : Type := (string * string)%type.

Record database : Type := mk_database {
  students : list person_row;
  instructors : list person_row;
  courses : list course_row;
  registrations : list registration
}.

Definition empty : database := mk_database [] [] [] [].

Inductive fk_action : Type := SET_NULL | NO_ACTION.

Record schema : Type := mk_schema {
  age_check : bool;                    (* CHECK(age >= 0) *)
  instructor_on_delete : fk_action     (* courses.instructor_id ... ON DELETE *)
}.

(** State of [PRAGMA foreign_keys] on a connection. *)
Record connection : Type := mk_connection { foreign_keys : bool }.

(** A fresh connection of a stock SQLite library does not enforce foreign
    keys until the pragma is issued. *)
Definition sqlite3_connect : connection := mk_connection false.

Definition PRAGMA_foreign_keys_ON (c : connection) : connection :=
  mk_connection true.

(** The statements issued by the modelled functions, with their bound
    parameters. *)
Inductive statement : Type :=
| INSERT_student (student_id name : string) (age : Z) (email : string)
| UPDATE_student (name : string) (age : Z) (email : string) (student_id : string)
| DELETE_student (student_id : string)
| INSERT_instructor (instructor_id name : string) (age : Z) (email : string)
| UPDATE_instructor (name : string) (age : Z) (email : string) (instructor_id : string)
| DELETE_instructor (instructor_id : string)
| INSERT_course (course_id course_name : string) (instructor_id : option string)
| UPDATE_course (course_name : string) (instructor_id : option string) (course_id : string)
| UPDATE_course_SET_instructor (instructor_id : option string) (course_id : string)
| UPDATE_courses_SET_NULL_WHERE_instructor (instructor_id : string)
| DELETE_course (course_id : string)
| INSERT_OR_IGNORE_registration (student_id course_id : string)
| DELETE_registration (student_id course_id : string)
| DELETE_registrations_WHERE_student (student_id : string)
| DELETE_registrations_WHERE_course (course_id : string).

(** A Python [int] binds to a SQLite INTEGER only if it fits in 64 bits;
    otherwise the sqlite3 module raises [OverflowError]. *)
Definition fits_int64 (z : Z) : bool :=
  (- 2 ^ 63 <=? z) && (z <? 2 ^ 63).

Definition has_person (id : string) (t : list person_row) : bool :=
  existsb (fun r => String.eqb (person_id r) id) t.

Definition has_course (id : string) (t : list course_row) : bool :=
  existsb (fun r => String.eqb (course_id r) id) t.

Definition has_email (e : string) (t : list person_row) : bool :=
  existsb (fun r => String.eqb (email r) e) t.

Definition has_email_elsewhere (e id : string) (t : list person_row) : bool :=
  existsb (fun r => String.eqb (email r) e && negb (String.eqb (person_id r) id)) t.

Definition same_registration (sid cid : string) (r : registration) : bool :=
  String.eqb (fst r) sid && String.eqb (snd r) cid.

Definition has_registration (sid cid : string) (t : list registration) : bool :=
  existsb (same_registration sid cid) t.

Definition teaches (iid : string) (r : course_row) : bool :=
  match instructor_id r with
  | Some i => String.eqb i iid
  | None => false
  end.

Definition rowcount_of {A : Type} (p : A -> bool) (t : list A) : Z :=
  Z.of_nat (List.length (filter p t)).

Definition delete_where {A : Type} (p : A -> bool) (t : list A) : list A :=
  filter (fun r => negb (p r)) t.

Definition update_where {A : Type} (p : A -> bool) (f : A -> A) (t : list A) : list A :=
  map (fun r => if p r then f r else r) t.

(** INSERT into [students] or [instructors]: CHECK, PRIMARY KEY, UNIQUE. *)
Definition insert_person (sch : schema) (id nm : string) (ag : Z) (em : string)
    (t : list person_row) : Py.exception + list person_row :=
  if negb (fits_int64 ag) then inl Py.OverflowError
  else if age_check sch && (ag <? 0) then inl Py.IntegrityError
  else if has_person id t then inl Py.IntegrityError
  else if has_email em t then inl Py.IntegrityError
  else inr (t ++ [mk_person_row id nm ag em])%list.

(** UPDATE ... SET name, age, email WHERE id: constraints are evaluated
    only for a row that is actually updated. *)
Definition update_person (sch : schema) (nm : string) (ag : Z) (em id : string)
    (t : list person_row) : Py.exception + (list person_row * Z) :=
  if negb (fits_int64 ag) then inl Py.OverflowError
  else if negb (has_person id t) then inr (t, 0)
  else if age_check sch && (ag <? 0) then inl Py.IntegrityError
  else if has_email_elsewhere em id t then inl Py.IntegrityError
  else inr (update_where (fun r => String.eqb (person_id r) id)
                         (fun r => mk_person_row (person_id r) nm ag em) t,
            rowcount_of (fun r => String.eqb (person_id r) id) t).

(** Foreign key [courses.instructor_id -> instructors]: satisfied by NULL
    or by an existing instructor. *)
Definition instructor_fk_ok (conn : connection) (iid : option string)
    (d : database) : bool :=
  match iid with
  | None => true
  | Some i => negb (foreign_keys conn) || has_person i (instructors d)
  end.

Definition set_instructor (iid : option string) (r : course_row) : course_row :=
  mk_course_row (course_id r) (course_name r) iid.

(** [execute sch conn q d]: run one statement on a connection; the result
    is the raised exception, or the new database with the cursor's
    [rowcount]. *)
Definition execute (sch : schema) (conn : connection) (q : statement)
    (d : database) : Py.exception + (database * Z) :=
  match q with
  | INSERT_student sid nm ag em =>
      match insert_person sch sid nm ag em (students d) with
      | inl e => inl e
      | inr t => inr (mk_database t (instructors d) (courses d) (registrations d), 1)
      end
  | UPDATE_student nm ag em sid =>
      match update_person sch nm ag em sid (students d) with
      | inl e => inl e
      | inr (t, n) => inr (mk_database t (instructors d) (courses d) (registrations d), n)
      end
  | DELETE_student sid =>
      (* ON DELETE CASCADE from the enrollment table *)
      let is_s := fun r => String.eqb (person_id r) sid in
      inr (mk_database (delete_where is_s (students d)) (instructors d) (courses d)
             (if foreign_keys conn && has_person sid (students d)
              then delete_where (fun r => String.eqb (fst r) sid) (registrations d)
              else registrations d),
           rowcount_of is_s (students d))
  | INSERT_instructor iid nm ag em =>
      match insert_person sch iid nm ag em (instructors d) with
      | inl e => inl e
      | inr t => inr (mk_database (students d) t (courses d) (registrations d), 1)
      end
  | UPDATE_instructor nm ag em iid =>
      match update_person sch nm ag em iid (instructors d) with
      | inl e => inl e
      | inr (t, n) => inr (mk_database (students d) t (courses d) (registrations d), n)
      end
  | DELETE_instructor iid =>
      let is_i := fun r => String.eqb (person_id r) iid in
      let referenced := existsb (teaches iid) (courses d) in
      if foreign_keys conn && has_person iid (instructors d) && referenced then
        match instructor_on_delete sch with
        | NO_ACTION => inl Py.IntegrityError
        | SET_NULL =>
            inr (mk_database (students d) (delete_where is_i (instructors d))
                   (update_where (teaches iid) (set_instructor None) (courses d))
                   (registrations d),
                 rowcount_of is_i (instructors d))
        end
      else
        inr (mk_database (students d) (delete_where is_i (instructors d))
               (courses d) (registrations d),
             rowcount_of is_i (instructors d))
  | INSERT_course cid cname iid =>
      if has_course cid (courses d) then inl Py.IntegrityError
      else if negb (instructor_fk_ok conn iid d) then inl Py.IntegrityError
      else inr (mk_database (students d) (instructors d)
                  (courses d ++ [mk_course_row cid cname iid])%list (registrations d), 1)
  | UPDATE_course cname iid cid =>
      if negb (has_course cid (courses d)) then inr (d, 0)
      else if negb (instructor_fk_ok conn iid d) then inl Py.IntegrityError
      else
        let is_c := fun r => String.eqb (course_id r) cid in
        inr (mk_database (students d) (instructors d)
               (update_where is_c (fun r => mk_course_row (course_id r) cname iid) (courses d))
               (registrations d),
             rowcount_of is_c (courses d))
  | UPDATE_course_SET_instructor iid cid =>
      if negb (has_course cid (courses d)) then inr (d, 0)
      else if negb (instructor_fk_ok conn iid d) then inl Py.IntegrityError
      else
        let is_c := fun r => String.eqb (course_id r) cid in
        inr (mk_database (students d) (instructors d)
               (update_where is_c (set_instructor iid) (courses d))
               (registrations d),
             rowcount_of is_c (courses d))
  | UPDATE_courses_SET_NULL_WHERE_instructor iid =>
      inr (mk_database (students d) (instructors d)
             (update_where (teaches iid) (set_instructor None) (courses d))
             (registrations d),
           rowcount_of (teaches iid) (courses d))
  | DELETE_course cid =>
      let is_c := fun r => String.eqb (course_id r) cid in
      inr (mk_database (students d) (instructors d) (delete_where is_c (courses d))
             (if foreign_keys conn && has_course cid (courses d)
              then delete_where (fun r => String.eqb (snd r) cid) (registrations d)
              else registrations d),
           rowcount_of is_c (courses d))
  | INSERT_OR_IGNORE_registration sid cid =>
      (* a PRIMARY KEY conflict skips the row; a foreign-key violation is
         not ignored *)
      if has_registration sid cid (registrations d) then inr (d, 0)
      else if foreign_keys conn
              && negb (has_person sid (students d) && has_course cid (courses d))
      then inl Py.IntegrityError
      else inr (mk_database (students d) (instructors d) (courses d)
                  (registrations d ++ [(sid, cid)])%list, 1)
  | DELETE_registration sid cid =>
      inr (mk_database (students d) (instructors d) (courses d)
             (delete_where (same_registration sid cid) (registrations d)),
           rowcount_of (same_registration sid cid) (registrations d))
  | DELETE_registrations_WHERE_student sid =>
      inr (mk_database (students d) (instructors d) (courses d)
             (delete_where (fun r => String.eqb (fst r) sid) (registrations d)),
           rowcount_of (fun r => String.eqb (fst r) sid) (registrations d))
  | DELETE_registrations_WHERE_course cid =>
      inr (mk_database (students d) (instructors d) (courses d)
             (delete_where (fun r => String.eqb (snd r) cid) (registrations d)),
           rowcount_of (fun r => String.eqb (snd r) cid) (registrations d))
  end.

(** [ORDER BY] a text column: ascending code-point order (BINARY
    collation); rows with equal keys keep their order. *)
Fixpoint insert_by {A : Type} (key : A -> string) (x : A) (l : list A) : list A :=
  match l with
  | [] => [x]
  | y :: l' => if String.ltb (key y) (key x) then y :: insert_by key x l' else x :: l
  end.

Fixpoint order_by {A : Type} (key : A -> string) (l : list A) : list A :=
  match l with
  | [] => []
  | x :: l' => insert_by key x (order_by key l')
  end.

(** The console and the database file. *)
Record world : Type := mk_world {
  db : database;
  stdout : list Py.output
}.

Definition print (o : Py.output) (w : world) : world :=
  mk_world (db w) (stdout w ++ [o])%list.

Definition commit (d : database) (w : world) : world :=
  mk_world d (stdout w).

End Sqlite.

(* ===================================================================== *)
(** * [database.py]: connection helpers of the repository layer           *)
(* ===================================================================== *)

Module Database.
Import Sqlite.

(** Schema created by [init_db]: [CHECK(age >= 0)] on both person tables,
    [ON DELETE SET NULL] on [courses.instructor_id], [ON DELETE CASCADE]
    on both columns of [registrations]. *)
Definition init_db : schema := mk_schema true SET_NULL.

(** [_connect()]: a new connection with [PRAGMA foreign_keys = ON]. *)
Definition _connect : connection := PRAGMA_foreign_keys_ON sqlite3_connect.

Record cursor : Type := mk_cursor { rowcount : Z }.

(** [run(query, params, commit)]: the cursor on success, [None] after an
    exception (which is printed, and the transaction rolled back). Without
    [commit] the changes are lost when the connection is closed. *)
Definition run (query : statement) (commit : bool) (w : world)
    : option cursor * world :=
  match execute init_db _connect query (db w) with
  | inr (d', n) => (Some (mk_cursor n), if commit then Sqlite.commit d' w else w)
  | inl e => (None, print (Py.TextExc "db run error:" e) w)
  end.

End Database.

(* ===================================================================== *)
(** * [utils.py]: the repository layer used by the tkinter front-end      *)
(* ===================================================================== *)

Module Utils.
Import Sqlite.
Import Database.

Definition is_not_None {A : Type} (o : option A) : bool :=
  match o with Some _ => true | None => false end.

(** The pattern of [valid_email]: [^[^@\s]+@[^@\s]+\.[^@\s]+$]. *)
Definition email_pattern : Re.regex :=
  Re.Seq (Re.plus (Re.Chars Re.not_at_not_space))
    (Re.Seq (Re.lit "@")
       (Re.Seq (Re.plus (Re.Chars Re.not_at_not_space))
          (Re.Seq (Re.lit ".") (Re.plus (Re.Chars Re.not_at_not_space))))).

(** [valid_email(x)]: the stripped text matches the pattern. *)
Definition valid_email (x : string) : bool :=
  Re.match_ email_pattern (Py.strip x).

(** [valid_age(x)]: [x] parses as an int that is at least 0. *)
Definition valid_age (x : Py.value) : bool :=
  match Py.int x with
  | Some a => 0 <=? a
  | None => false
  end.

(** SQL [lower()]: folds the ASCII letters only. *)
Definition sql_lower_char (c : ascii) : ascii :=
  let n := N_of_ascii c in
  if ((65 <=? n) && (n <=? 90))%N then ascii_of_N (n + 32) else c.

Fixpoint sql_lower (s : string) : string :=
  match s with
  | EmptyString => EmptyString
  | String c s' => String (sql_lower_char c) (sql_lower s')
  end.

(** [student_email_exists(email, exclude_id)]. *)
Definition student_email_exists (email : string) (exclude_id : option string)
    (d : database) : bool :=
  match exclude_id with
  | Some x =>
      if Py.truthy x then
        existsb (fun r => String.eqb (sql_lower (Sqlite.email r)) (sql_lower email)
                          && negb (String.eqb (person_id r) x)) (students d)
      else
        existsb (fun r => String.eqb (sql_lower (Sqlite.email r)) (sql_lower email))
                (students d)
  | None =>
      existsb (fun r => String.eqb (sql_lower (Sqlite.email r)) (sql_lower email))
              (students d)
  end.

(** [try: age = int(age) except: age = 0]. *)
Definition int_or_0 (age : Py.value) : Z :=
  match Py.int age with
  | Some a => a
  | None => 0
  end.

Definition add_student (name : string) (age : Py.value) (email student_id : string)
    (w : world) : bool * world :=
  let age := int_or_0 age in
  let (ok, w) := run (INSERT_student student_id name age email) true w in
  (is_not_None ok, w).

Definition update_student (student_id name : string) (age : Py.value) (email : string)
    (w : world) : bool * world :=
  let age := int_or_0 age in
  let (ok, w) := run (UPDATE_student name age email student_id) true w in
  (is_not_None ok, w).

Definition delete_student (student_id : string) (w : world) : bool * world :=
  let (ok, w) := run (DELETE_student student_id) true w in
  (is_not_None ok, w).

(** [get_student(student_id)]: the row as a dict, or [None]. *)
Definition get_student (student_id : string) (d : database) : option person_row :=
  find (fun r => String.eqb (person_id r) student_id) (students d).

Definition get_student_by_id := get_student.

(** [student_courses(student_id)]: course ids, ordered. *)
Definition student_courses (student_id : string) (d : database) : list string :=
  order_by (fun c => c)
    (map snd (filter (fun r => String.eqb (fst r) student_id) (registrations d))).

Definition add_instructor (name : string) (age : Py.value) (email instructor_id : string)
    (w : world) : bool * world :=
  let age := int_or_0 age in
  let (ok, w) := run (INSERT_instructor instructor_id name age email) true w in
  (is_not_None ok, w).

Definition update_instructor (instructor_id name : string) (age : Py.value)
    (email : string) (w : world) : bool * world :=
  let age := int_or_0 age in
  let (ok, w) := run (UPDATE_instructor name age email instructor_id) true w in
  (is_not_None ok, w).

Definition delete_instructor (instructor_id : string) (w : world) : bool * world :=
  let (ok, w) := run (DELETE_instructor instructor_id) true w in
  (is_not_None ok, w).

Definition get_instructor (instructor_id : string) (d : database) : option person_row :=
  find (fun r => String.eqb (person_id r) instructor_id) (instructors d).

(** [instructor_courses(instructor_id)]: ids of the courses taught. *)
Definition instructor_courses (instructor_id : string) (d : database) : list string :=
  order_by (fun c => c)
    (map course_id (filter (teaches instructor_id) (courses d))).

Definition add_course (course_id course_name : string)
    (instructor_id_or_none : option string) (w : world) : bool * world :=
  let (ok, w) := run (INSERT_course course_id course_name instructor_id_or_none) true w in
  (is_not_None ok, w).

Definition update_course (course_id course_name : string)
    (instructor_id_or_none : option string) (w : world) : bool * world :=
  let (ok, w) := run (UPDATE_course course_name instructor_id_or_none course_id) true w in
  (is_not_None ok, w).

Definition delete_course (course_id : string) (w : world) : bool * world :=
  let (ok, w) := run (DELETE_course course_id) true w in
  (is_not_None ok, w).

Definition get_course (course_id : string) (d : database) : option course_row :=
  find (fun r => String.eqb (Sqlite.course_id r) course_id) (courses d).

(** [course_students(course_id)]: [(student_id, name)] of the students
    registered in the course (registrations joined with students), ordered
    by student id. *)
Definition course_students (course_id : string) (d : database)
    : list (string * string) :=
  order_by fst
    (flat_map
       (fun r =>
          if String.eqb (snd r) course_id then
            map (fun s => (person_id s, name s))
                (filter (fun s => String.eqb (person_id s) (fst r)) (students d))
          else [])
       (registrations d)).

(** The [student_ids] list of a course, as [export_to_json] builds it. *)
Definition course_student_ids (course_id : string) (d : database) : list string :=
  map fst (course_students course_id d).

Definition register_student_to_course (student_id course_id : string) (w : world)
    : bool * world :=
  let (ok, w) := run (INSERT_OR_IGNORE_registration student_id course_id) true w in
  (is_not_None ok, w).

Definition unregister_student_from_course (student_id course_id : string) (w : world)
    : bool * world :=
  let (ok, w) := run (DELETE_registration student_id course_id) true w in
  (is_not_None ok, w).

Definition assign_instructor_to_course (instructor_id course_id : string) (w : world)
    : bool * world :=
  let (ok, w) := run (UPDATE_course_SET_instructor (Some instructor_id) course_id) true w in
  (is_not_None ok, w).

End Utils.

(** * utils.py: JSON export and import

    The file written by [export_to_json] and read by [import_from_json] is
    represented by the document it holds. Only well-typed documents are
    represented: every entry gives its id, its name and its email as
    strings, its age as an integer and its lists as lists of strings (an
    absent list is the empty list, as [.get(key, [])] reads it). Every
    document that [export_to_json] writes is of this kind. For the other
    documents [import_from_json] binds [None] where a key is missing and
    may stop half-way and answer [False]; they are outside this model, and
    nothing below is claimed about them. *)
Module Json.
Import Sqlite.

Record student_entry : Type := mk_student_entry {
  s_student_id : string;
  s_name : string;
  s_age : Z;
  s_email : string;
  registered_course_ids : list string
}.

Record instructor_entry : Type := mk_instructor_entry {
  i_instructor_id : string;
  i_name : string;
  i_age : Z;
  i_email : string;
  assigned_course_ids : list string
}.

Record course_entry : Type := mk_course_entry {
  c_course_id : string;
  c_course_name : string;
  c_instructor_id : option string;
  student_ids : list string
}.

Record document : Type := mk_document {
  doc_students : list student_entry;
  doc_instructors : list instructor_entry;
  doc_courses : list course_entry
}.

(** [export_to_json]: the three lists, each in the order of its
    identifiers, as [list_students()], [list_instructors()] and
    [list_courses()] return them. *)
Definition export_to_json (d : database) : document :=
  mk_document
    (map (fun r => mk_student_entry (person_id r) (name r) (age r) (email r)
                     (Utils.student_courses (person_id r) d))
         (order_by person_id (students d)))
    (map (fun r => mk_instructor_entry (person_id r) (name r) (age r) (email r)
                     (Utils.instructor_courses (person_id r) d))
         (order_by person_id (instructors d)))
    (map (fun c => mk_course_entry (course_id c) (course_name c) (instructor_id c)
                     (Utils.course_student_ids (course_id c) d))
         (order_by course_id (courses d))).

(** A [for] loop whose body changes the world. *)
Definition for_loop {A : Type} (body : A -> world -> world) (l : list A) (w : world)
    : world :=
  fold_left (fun w x => body x w) l w.

(** [ok = add_...(...)] followed by [if not ok: update_...(...)]. *)
Definition import_instructor (i : instructor_entry) (w : world) : world :=
  let (ok, w) := Utils.add_instructor (i_name i) (Py.PyInt (i_age i)) (i_email i)
                   (i_instructor_id i) w in
  if negb ok then
    snd (Utils.update_instructor (i_instructor_id i) (i_name i) (Py.PyInt (i_age i))
           (i_email i) w)
  else w.

Definition import_student (s : student_entry) (w : world) : world :=
  let (ok, w) := Utils.add_student (s_name s) (Py.PyInt (s_age s)) (s_email s)
                   (s_student_id s) w in
  if negb ok then
    snd (Utils.update_student (s_student_id s) (s_name s) (Py.PyInt (s_age s))
           (s_email s) w)
  else w.

Definition import_course (c : course_entry) (w : world) : world :=
  let (ok, w) := Utils.add_course (c_course_id c) (c_course_name c) (c_instructor_id c) w in
  if negb ok then
    snd (Utils.update_course (c_course_id c) (c_course_name c) (c_instructor_id c) w)
  else w.

(** [import_from_json], after the file has been read: instructors,
    students and courses first, then the enrollments listed by the
    students, then those listed by the courses. On a well-typed document
    no statement of the body raises (the functions it calls catch their
    own exceptions), so the answer is [True]. *)
Definition import_from_json (data : document) (w : world) : bool * world :=
  let w := for_loop import_instructor (doc_instructors data) w in
  let w := for_loop import_student (doc_students data) w in
  let w := for_loop import_course (doc_courses data) w in
  let w := for_loop
             (fun s =>
                for_loop (fun cid w =>
                            snd (Utils.register_student_to_course (s_student_id s) cid w))
                         (registered_course_ids s))
             (doc_students data) w in
  let w := for_loop
             (fun c =>
                for_loop (fun sid w =>
                            snd (Utils.register_student_to_course sid (c_course_id c) w))
                         (student_ids c))
             (doc_courses data) w in
  (true, w).

End Json.

(* ===================================================================== *)
(** * [classes.py]: the validated domain objects                          *)
(* ===================================================================== *)

Module Classes.
Import Py.

(** The object graph: a student lists courses, a course refers to its
    instructor and lists students, an instructor lists courses. *)
Inductive Student : Type :=
| mk_Student (name : string) (age : Z) (email : string) (student_id : string)
             (registered_courses : list Course)
with Instructor : Type :=
| mk_Instructor (name : string) (age : Z) (email : string) (instructor_id : string)
                (assigned_courses : list Course)
with Course : Type :=
| mk_Course (course_id course_name : string) (instructor : option Instructor)
            (enrolled_students : list Student).

Definition student_name (s : Student) : string :=
  match s with mk_Student n _ _ _ _ => n end.
Definition student_age (s : Student) : Z :=
  match s with mk_Student _ a _ _ _ => a end.
Definition student_email (s : Student) : string :=
  match s with mk_Student _ _ e _ _ => e end.
Definition student_id (s : Student) : string :=
  match s with mk_Student _ _ _ i _ => i end.
Definition registered_courses (s : Student) : list Course :=
  match s with mk_Student _ _ _ _ l => l end.

Definition instructor_name (i : Instructor) : string :=
  match i with mk_Instructor n _ _ _ _ => n end.
Definition instructor_age (i : Instructor) : Z :=
  match i with mk_Instructor _ a _ _ _ => a end.
Definition instructor_email (i : Instructor) : string :=
  match i with mk_Instructor _ _ e _ _ => e end.
Definition instructor_id (i : Instructor) : string :=
  match i with mk_Instructor _ _ _ x _ => x end.
Definition assigned_courses (i : Instructor) : list Course :=
  match i with mk_Instructor _ _ _ _ l => l end.

Definition course_id (c : Course) : string :=
  match c with mk_Course x _ _ _ => x end.
Definition course_name (c : Course) : string :=
  match c with mk_Course _ n _ _ => n end.
Definition instructor (c : Course) : option Instructor :=
  match c with mk_Course _ _ i _ => i end.
Definition enrolled_students (c : Course) : list Student :=
  match c with mk_Course _ _ _ l => l end.

(** Attribute assignments used when objects are loaded. *)
Definition set_registered_courses (s : Student) (l : list Course) : Student :=
  mk_Student (student_name s) (student_age s) (student_email s) (student_id s) l.
Definition set_assigned_courses (i : Instructor) (l : list Course) : Instructor :=
  mk_Instructor (instructor_name i) (instructor_age i) (instructor_email i)
                (instructor_id i) l.
Definition set_enrolled_students (c : Course) (l : list Student) : Course :=
  mk_Course (course_id c) (course_name c) (instructor c) l.

(** [Person.valid_name]: non-blank, returned stripped. (The arguments are
    typed, so the [isinstance] tests hold.) *)
Definition non_empty (msg : string) (x : string) : result string :=
  if Py.truthy (Py.strip x) then Return (Py.strip x) else Raise (ValueError msg).

Definition valid_name : string -> result string :=
  non_empty "Name must be a non-empty string".

(** [Person.valid_age]. *)
Definition valid_age (age : Z) : result Z :=
  if age <? 0 then Raise (ValueError "Age must be a non-negative integer")
  else Return age.

(** [email_pattern] of [Person.valid_email]:
    [^[a-zA-Z0-9._%+-]+@[a-zA-Z0-9.-]+\.[a-zA-Z]{2,}$]. *)
Definition email_pattern : Re.regex :=
  Re.Seq (Re.plus (Re.Chars Re.local_char))
    (Re.Seq (Re.lit "@")
       (Re.Seq (Re.plus (Re.Chars Re.domain_char))
          (Re.Seq (Re.lit ".") (Re.at_least_2 (Re.Chars Re.letter))))).

(** [Person.valid_email]. *)
Definition valid_email (email : string) : result string :=
  if Re.match_ email_pattern email then Return email
  else Raise (ValueError "Invalid email format").

Definition valid_student_id : string -> result string :=
  non_empty "Student ID must be a non-empty string".
Definition valid_instructor_id : string -> result string :=
  non_empty "Instructor ID must be a non-empty string".
Definition valid_course_id : string -> result string :=
  non_empty "Course ID must be a non-empty string".
Definition valid_course_name : string -> result string :=
  non_empty "Course name must be a non-empty string".

(** [Student(name, age, email, student_id)]: the checks run in the order
    name, age, email, id; the first failure raises. *)
Definition Student_init (name : string) (age : Z) (email student_id : string)
    : result Student :=
  bind (valid_name name) (fun n =>
  bind (valid_age age) (fun a =>
  bind (valid_email email) (fun e =>
  bind (valid_student_id student_id) (fun i =>
  Return (mk_Student n a e i []))))).

(** [Instructor(name, age, email, instructor_id)]. *)
Definition Instructor_init (name : string) (age : Z) (email instructor_id : string)
    : result Instructor :=
  bind (valid_name name) (fun n =>
  bind (valid_age age) (fun a =>
  bind (valid_email email) (fun e =>
  bind (valid_instructor_id instructor_id) (fun i =>
  Return (mk_Instructor n a e i []))))).

(** [Course(course_id, course_name, instructor)]. *)
Definition Course_init (course_id course_name : string) (instructor : option Instructor)
    : result Course :=
  bind (valid_course_id course_id) (fun c =>
  bind (valid_course_name course_name) (fun n =>
  Return (mk_Course c n instructor []))).

End Classes.

(** * classes.py: the methods that link the objects

    [classes.py] defines no [__eq__], so [in] and [list.remove] compare
    objects by identity. An object is therefore represented by its
    address, and the attributes that the methods mutate are kept per
    address; a change made through one reference is seen through every
    other reference to the same object. *)
Module Objects.
Import Py.

Definition ref : Type := nat.

(** The lines printed by the methods. The texts contain the default
    representation of an object, which is determined by its address. *)
Inductive message : Type :=
| Successfully_registered (student course : ref)
| Already_registered (course : ref)
| Successfully_unregistered (student course : ref)
| Not_registered (course : ref)
| Already_assigned_to (course instructor : ref)
| Successfully_assigned (course instructor : ref)
| Successfully_unassigned (course instructor : ref)
| Not_assigned_to (course instructor : ref)
| Successfully_enrolled (student course : ref)
| Already_enrolled (student course : ref).

Record heap : Type := mk_heap {
  registered_courses : ref -> list ref;
  enrolled_students : ref -> list ref;
  instructor : ref -> option ref;
  assigned_courses : ref -> list ref;
  stdout : list message }.

Definition upd {A : Type} (f : ref -> A) (k : ref) (v : A) : ref -> A :=
  fun x => if Nat.eqb x k then v else f x.

Definition set_registered_courses (self : ref) (l : list ref) (h : heap) : heap :=
  mk_heap (upd (registered_courses h) self l) (enrolled_students h) (instructor h)
          (assigned_courses h) (stdout h).
Definition set_enrolled_students (self : ref) (l : list ref) (h : heap) : heap :=
  mk_heap (registered_courses h) (upd (enrolled_students h) self l) (instructor h)
          (assigned_courses h) (stdout h).
Definition set_instructor (self : ref) (i : option ref) (h : heap) : heap :=
  mk_heap (registered_courses h) (enrolled_students h) (upd (instructor h) self i)
          (assigned_courses h) (stdout h).
Definition set_assigned_courses (self : ref) (l : list ref) (h : heap) : heap :=
  mk_heap (registered_courses h) (enrolled_students h) (instructor h)
          (upd (assigned_courses h) self l) (stdout h).
Definition print (m : message) (h : heap) : heap :=
  mk_heap (registered_courses h) (enrolled_students h) (instructor h)
          (assigned_courses h) (stdout h ++ [m]).

(** [x in l]. *)
Definition contains (x : ref) (l : list ref) : bool := existsb (Nat.eqb x) l.

(** [l.remove(x)]: drops the first occurrence; [None] stands for the
    [ValueError] raised when there is none. *)
Fixpoint remove (x : ref) (l : list ref) : option (list ref) :=
  match l with
  | [] => None
  | y :: t => if Nat.eqb y x then Some t else option_map (cons y) (remove x t)
  end.

Definition not_in_list : exception := ValueError "list.remove(x): x not in list".

(** [Student.register_course]. *)
Definition register_course (self course : ref) (h : heap) : heap :=
  if negb (contains course (registered_courses h self)) then
    let h1 := set_registered_courses self (registered_courses h self ++ [course]) h in
    let h2 := set_enrolled_students course (enrolled_students h1 course ++ [self]) h1 in
    print (Successfully_registered self course) h2
  else print (Already_registered course) h.

(** [Student.unregister_course]. An exception leaves the heap as it was
    when it was raised. *)
Definition unregister_course (self course : ref) (h : heap) : result unit * heap :=
  if contains course (registered_courses h self) then
    match remove course (registered_courses h self) with
    | None => (Raise not_in_list, h)
    | Some l =>
        let h1 := set_registered_courses self l h in
        match remove self (enrolled_students h1 course) with
        | None => (Raise not_in_list, h1)
        | Some m =>
            let h2 := set_enrolled_students course m h1 in
            (Return tt, print (Successfully_unregistered self course) h2)
        end
    end
  else (Return tt, print (Not_registered course) h).

(** [Instructor.assign_course]. *)
Definition assign_course (self course : ref) (h : heap) : heap :=
  match instructor h course with
  | Some i => print (Already_assigned_to course i) h
  | None =>
      if negb (contains course (assigned_courses h self)) then
        let h1 := set_assigned_courses self (assigned_courses h self ++ [course]) h in
        let h2 := set_instructor course (Some self) h1 in
        print (Successfully_assigned course self) h2
      else print (Already_assigned_to course self) h
  end.

(** [Instructor.unassign_course]. *)
Definition unassign_course (self course : ref) (h : heap) : result unit * heap :=
  if contains course (assigned_courses h self) then
    match remove course (assigned_courses h self) with
    | None => (Raise not_in_list, h)
    | Some l =>
        let h1 := set_assigned_courses self l h in
        let h2 := set_instructor course None h1 in
        (Return tt, print (Successfully_unassigned course self) h2)
    end
  else (Return tt, print (Not_assigned_to course self) h).

(** [Course.add_student], called with a [Student]. *)
Definition add_student (self student : ref) (h : heap) : heap :=
  if negb (contains student (enrolled_students h self)) then
    let h1 := set_enrolled_students self (enrolled_students h self ++ [student]) h in
    print (Successfully_enrolled student self) h1
  else print (Already_enrolled student self) h.

(** A heap of freshly constructed objects: every list is empty; the
    instructor of a course is the one given to its constructor. *)
Definition fresh (instructor_of : ref -> option ref) : heap :=
  mk_heap (fun _ => []) (fun _ => []) instructor_of (fun _ => []) [].

(** The two sides of an enrollment agree: a course is in a student's list
    exactly when the student is in the course's list, once each. *)
Definition enrollments_linked (h : heap) : Prop :=
  (forall s, NoDup (registered_courses h s)) /\
  (forall c, NoDup (enrolled_students h c)) /\
  (forall s c, In c (registered_courses h s) <-> In s (enrolled_students h c)).

(** The two sides of an assignment agree: the courses in an instructor's
    list, each once, are exactly the courses whose instructor it is. *)
Definition assignments_linked (h : heap) : Prop :=
  (forall i, NoDup (assigned_courses h i)) /\
  (forall i c, In c (assigned_courses h i) <-> instructor h c = Some i).

End Objects.

(* ===================================================================== *)
(** * [database_pyqt.py]: the [DatabaseManager] of the PyQt front-end     *)
(* ===================================================================== *)

Module DatabasePyqt.
Import Py.
Import Sqlite.
Import Classes.

(** Schema created by [init_database]: no [CHECK] on [age], no action on
    [courses.instructor_id], [ON DELETE CASCADE] on both columns of
    [student_courses]. *)
Definition init_database : schema := mk_schema false NO_ACTION.

(** [get_connection()]: [sqlite3.connect(self.db_path)], and nothing else. *)
Definition get_connection : connection := sqlite3_connect.

Definition student_courses (d : database) : list registration := registrations d.

(** The statements of one [with self.get_connection() as conn:] block, run
    in order on the same connection; the result carries the [rowcount] of
    the last one. An exception leaves the block before [conn.commit()]. *)
Fixpoint execute_all (qs : list statement) (d : database) (n : Z)
    : exception + (database * Z) :=
  match qs with
  | [] => inr (d, n)
  | q :: qs' =>
      match execute init_database get_connection q d with
      | inl e => inl e
      | inr (d', n') => execute_all qs' d' n'
      end
  end.

(** [try: with conn: ...; conn.commit(); return <value>
     except sqlite3.Error as e: print(label, e); return False]:
    an exception that is not a [sqlite3.Error] propagates; either way
    nothing of the block is committed. *)
Definition transaction (label : string) (qs : list statement) (value : Z -> bool)
    (w : world) : result bool * world :=
  match execute_all qs (db w) 0 with
  | inr (d', n) => (Return (value n), commit d' w)
  | inl e =>
      if is_sqlite3_Error e then (Return false, print (TextExc label e) w)
      else (Raise e, w)
  end.

Definition always_True (n : Z) : bool := true.
Definition rowcount_positive (n : Z) : bool := 0 <? n.

Definition add_student (student : Student) : world -> result bool * world :=
  transaction "Error adding student: "
    [INSERT_student (student_id student) (student_name student)
                    (student_age student) (student_email student)]
    always_True.

Definition edit_student (student : Student) : world -> result bool * world :=
  transaction "Error updating student: "
    [UPDATE_student (student_name student) (student_age student)
                    (student_email student) (student_id student)]
    rowcount_positive.

(** [delete_student]: the enrollment rows first, then the student; the
    returned flag is the [rowcount] of the second statement. *)
Definition delete_student (student_id : string) : world -> result bool * world :=
  transaction "Error deleting student: "
    [DELETE_registrations_WHERE_student student_id; DELETE_student student_id]
    rowcount_positive.

Definition add_instructor (i : Instructor) : world -> result bool * world :=
  transaction "Error adding instructor: "
    [INSERT_instructor (instructor_id i) (instructor_name i)
                       (instructor_age i) (instructor_email i)]
    always_True.

Definition edit_instructor (i : Instructor) : world -> result bool * world :=
  transaction "Error updating instructor: "
    [UPDATE_instructor (instructor_name i) (instructor_age i)
                       (instructor_email i) (instructor_id i)]
    rowcount_positive.

(** [delete_instructor]: unassign the instructor's courses, then delete. *)
Definition delete_instructor (instructor_id : string) : world -> result bool * world :=
  transaction "Error deleting instructor: "
    [UPDATE_courses_SET_NULL_WHERE_instructor instructor_id;
     DELETE_instructor instructor_id]
    rowcount_positive.

Definition add_course (course : Course) : world -> result bool * world :=
  let instructor_id := option_map Classes.instructor_id (instructor course) in
  transaction "Error adding course: "
    [INSERT_course (Classes.course_id course) (Classes.course_name course) instructor_id]
    always_True.

Definition edit_course (course : Course) : world -> result bool * world :=
  let instructor_id := option_map Classes.instructor_id (instructor course) in
  transaction "Error updating course: "
    [UPDATE_course (Classes.course_name course) instructor_id (Classes.course_id course)]
    rowcount_positive.

Definition delete_course (course_id : string) : world -> result bool * world :=
  transaction "Error deleting course: "
    [DELETE_registrations_WHERE_course course_id; DELETE_course course_id]
    rowcount_positive.

Definition register_student_in_course (student_id course_id : string)
    : world -> result bool * world :=
  transaction "Error enrolling student in course: "
    [INSERT_OR_IGNORE_registration student_id course_id]
    rowcount_positive.

Definition unregister_student_from_course (student_id course_id : string)
    : world -> result bool * world :=
  transaction "Error unenrolling student from course: "
    [DELETE_registration student_id course_id]
    rowcount_positive.

(** [SELECT course_id FROM courses WHERE instructor_id = ? AND course_id != ?],
    first row. *)
Definition course_of_instructor_other_than (instructor_id course_id : string)
    (d : database) : option string :=
  option_map Sqlite.course_id
    (find (fun r => teaches instructor_id r
                    && negb (String.eqb (Sqlite.course_id r) course_id))
          (courses d)).

(** [SELECT instructor_id FROM courses WHERE course_id = ? AND instructor_id
    IS NOT NULL], first row. *)
Definition instructor_of_course (course_id : string) (d : database) : option string :=
  match find (fun r => String.eqb (Sqlite.course_id r) course_id
                       && Utils.is_not_None (Sqlite.instructor_id r))
             (courses d) with
  | Some r => Sqlite.instructor_id r
  | None => None
  end.

(** [assign_instructor_to_course]: two guards, each printing its reason
    and returning [False], then the update. *)
Definition assign_instructor_to_course (instructor_id course_id : string) (w : world)
    : result bool * world :=
  match course_of_instructor_other_than instructor_id course_id (db w) with
  | Some existing_course =>
      (Return false,
       print (Text ("Instructor " ++ instructor_id
                    ++ " is already assigned to course " ++ existing_course)) w)
  | None =>
      match instructor_of_course course_id (db w) with
      | Some existing_instructor =>
          (Return false,
           print (Text ("Course " ++ course_id ++ " already has instructor "
                        ++ existing_instructor)) w)
      | None =>
          transaction "Error assigning instructor to course: "
            [UPDATE_course_SET_instructor (Some instructor_id) course_id]
            rowcount_positive w
      end
  end.

Definition unassign_instructor_from_course (course_id : string)
    : world -> result bool * world :=
  transaction "Error unassigning instructor from course: "
    [UPDATE_course_SET_instructor None course_id]
    rowcount_positive.

(** Evaluate [f] on each element in turn; the first exception propagates. *)
Fixpoint for_each {A B : Type} (f : A -> result B) (l : list A) : result (list B) :=
  match l with
  | [] => Return []
  | x :: l' => bind (f x) (fun y => bind (for_each f l') (fun ys => Return (y :: ys)))
  end.

(** [Student(row[1], row[2], row[3], row[0])]. *)
Definition student_of_row (r : person_row) : result Student :=
  Student_init (name r) (age r) (email r) (person_id r).

Definition instructor_of_row (r : person_row) : result Instructor :=
  Instructor_init (name r) (age r) (email r) (person_id r).

(** One row of [courses c LEFT JOIN instructors i]: when [c.instructor_id]
    is truthy the instructor is rebuilt from the [i] columns, which are all
    [None] if no instructor row matched (the constructor then raises). *)
Definition course_of_row (d : database) (c : course_row) : result Course :=
  bind
    (match Sqlite.instructor_id c with
     | Some x =>
         if Py.truthy x then
           match find (fun i => String.eqb (person_id i) x) (instructors d) with
           | Some i => bind (instructor_of_row i) (fun o => Return (Some o))
           | None => Raise (ValueError "Name must be a non-empty string")
           end
         else Return None
     | None => Return None
     end)
    (fun instructor => Course_init (Sqlite.course_id c) (Sqlite.course_name c) instructor).

(** The rows selected by [get_student_courses]: courses joined with the
    student's enrollment rows. The query has no [ORDER BY]; SQLite answers
    it by walking the primary-key index [(student_id, course_id)] of the
    enrollment table for the given student, so the rows come in ascending
    order of course id. *)
Definition student_course_rows (student_id : string) (d : database) : list course_row :=
  order_by Sqlite.course_id
    (flat_map
       (fun c => map (fun _ => c)
                   (filter (same_registration student_id (Sqlite.course_id c))
                           (student_courses d)))
       (courses d)).

(** [get_student_courses]: one [Course] per selected row. *)
Definition get_student_courses (student_id : string) (d : database)
    : result (list Course) :=
  for_each (course_of_row d) (student_course_rows student_id d).

(** [get_instructor_courses]: [Course(row[0], row[1], None)] per course. *)
Definition get_instructor_courses (instructor_id : string) (d : database)
    : result (list Course) :=
  for_each (fun c => Course_init (Sqlite.course_id c) (Sqlite.course_name c) None)
    (filter (teaches instructor_id) (courses d)).

(** The rows selected by [get_course_students]: students joined with the
    course's enrollment rows. Again there is no [ORDER BY]; SQLite scans
    the same primary-key index from end to end, so the rows come in
    ascending order of student id. *)
Definition course_student_rows (course_id : string) (d : database) : list person_row :=
  order_by person_id
    (flat_map
       (fun s => map (fun _ => s)
                   (filter (same_registration (person_id s) course_id)
                           (student_courses d)))
       (students d)).

(** [get_course_students]: one [Student] per selected row. *)
Definition get_course_students (course_id : string) (d : database)
    : result (list Student) :=
  for_each student_of_row (course_student_rows course_id d).

Definition get_student (student_id : string) (d : database) : result (option Student) :=
  match find (fun r => String.eqb (person_id r) student_id) (students d) with
  | Some row =>
      bind (student_of_row row) (fun student =>
      bind (get_student_courses student_id d) (fun cs =>
      Return (Some (set_registered_courses student cs))))
  | None => Return None
  end.

Definition get_instructor (instructor_id : string) (d : database)
    : result (option Instructor) :=
  match find (fun r => String.eqb (person_id r) instructor_id) (instructors d) with
  | Some row =>
      bind (instructor_of_row row) (fun i =>
      bind (get_instructor_courses instructor_id d) (fun cs =>
      Return (Some (set_assigned_courses i cs))))
  | None => Return None
  end.

Definition get_course (course_id : string) (d : database) : result (option Course) :=
  match find (fun r => String.eqb (Sqlite.course_id r) course_id) (courses d) with
  | Some row =>
      bind (course_of_row d row) (fun course =>
      bind (get_course_students course_id d) (fun ss =>
      Return (Some (set_enrolled_students course ss))))
  | None => Return None
  end.

End DatabasePyqt.

(* ===================================================================== *)
(** * [tkinter-ui.py]: the student form handler                           *)
(* ===================================================================== *)

Module TkinterUi.
Import Sqlite.

(** The widgets and the module-level selection that the handler reads and
    writes: the four entries of the student form, the message label and
    [selected_student_id]. *)
Record gui : Type := mk_gui {
  stu_name_e : string;
  stu_age_e : string;
  stu_email_e : string;
  stu_id_e : string;
  stu_msg : string;
  selected_student_id : option string
}.

(** [stu_msg.config(text=...)]. *)
Definition config_stu_msg (text : string) (g : gui) : gui :=
  mk_gui (stu_name_e g) (stu_age_e g) (stu_email_e g) (stu_id_e g) text
         (selected_student_id g).

Definition clear_student_form (g : gui) : gui :=
  mk_gui "" "" "" "" "" None.

Definition email_taken_in_students (email : string) (exclude_sid : option string)
    (d : database) : bool :=
  Utils.student_email_exists email exclude_sid d.

(** [add_or_save_student()]. The table and drop-down refreshes that end a
    successful run only read the database and are left out. *)
Definition add_or_save_student (g : gui) (w : world) : gui * world :=
  let name := Py.strip (stu_name_e g) in
  let age := Py.strip (stu_age_e g) in
  let email := Py.strip (stu_email_e g) in
  let sid := Py.strip (stu_id_e g) in
  if negb (Py.truthy name) || negb (Py.truthy sid) then
    (config_stu_msg "Brooo fill name and student id pls" g, w)
  else if negb (Utils.valid_age (Py.PyStr age)) then
    (config_stu_msg "Age looks sus. Non-negative integer pls" g, w)
  else if negb (Utils.valid_email email) then
    (config_stu_msg "Brooo u should have a valid email" g, w)
  else
    match selected_student_id g with
    | None =>
        if email_taken_in_students email None (db w) then
          (config_stu_msg "Email already used by another student" g, w)
        else
          let (ok, w') := Utils.add_student name (Py.PyStr age) email sid w in
          if ok then (clear_student_form g, w')
          else (config_stu_msg "Could not add student. maybe duplicate id?" g, w')
    | Some selected =>
        if negb (String.eqb sid selected) then
          (config_stu_msg "ID change not allowed here" g, w)
        else if email_taken_in_students email (Some selected) (db w) then
          (config_stu_msg "Email already used by another student" g, w)
        else
          match Utils.get_student_by_id selected (db w) with
          | None => (config_stu_msg "Selected vanished lol try again" g, w)
          | Some _ =>
              let (ok, w') := Utils.update_student selected name (Py.PyStr age) email w in
              if ok then (clear_student_form g, w')
              else (config_stu_msg "DB said nope while updating" g, w')
          end
    end.

(** The text a handler leaves in its message label. The two messages that
    end with a check mark are constructors of their own
    ("Registered" and "Assigned", each followed by the mark). *)
Inductive notice : Type :=
| Label (text : string)
| Registered_mark
| Assigned_mark
| Form_cleared.

(** [register_student_to_course()]: the handler of the "Register" button;
    [stu_id_e] and [stu_course_dd] are the texts of the id entry and of the
    course drop-down. The result of the repository call is not looked at. *)
Definition register_student_to_course (stu_id_e stu_course_dd : string) (w : world)
    : notice * world :=
  let sid := Py.strip stu_id_e in
  let cid := Py.strip stu_course_dd in
  match Utils.get_student_by_id sid (db w), Utils.get_course cid (db w) with
  | Some _, Some _ =>
      if existsb (String.eqb cid) (Utils.student_courses sid (db w)) then
        (Label "Already registered, chill", w)
      else
        let (_, w') := Utils.register_student_to_course sid cid w in
        (Registered_mark, w')
  | _, _ => (Label "Pick a real student and course first", w)
  end.

(** [x or ""] for a text column that may be NULL. *)
Definition or_empty (x : option string) : string :=
  match x with
  | Some t => if Py.truthy t then t else ""
  | None => ""
  end.

(** [assign_instructor_to_course()]: the handler of the "Assign" button. *)
Definition assign_instructor_to_course (ins_id_e ins_course_dd : string) (w : world)
    : notice * world :=
  let iid := Py.strip ins_id_e in
  let cid := Py.strip ins_course_dd in
  match Utils.get_instructor iid (db w), Utils.get_course cid (db w) with
  | Some _, Some c =>
      if String.eqb (or_empty (instructor_id c)) iid then
        (Label "Already assigned, my dude", w)
      else
        let (_, w') := Utils.assign_instructor_to_course iid cid w in
        (Assigned_mark, w')
  | _, _ => (Label "Pick a real instructor and course", w)
  end.

(** [add_or_save_course()]: [crs_name_e], [crs_id_e] and [crs_inst_dd] are
    the texts of the form, [selected_course_id] the module-level selection.
    An instructor id that is not stored is replaced by [None]. *)
Definition add_or_save_course (crs_name_e crs_id_e crs_inst_dd : string)
    (selected_course_id : option string) (w : world) : notice * world :=
  let name := Py.strip crs_name_e in
  let cid := Py.strip crs_id_e in
  let inst_id := Py.strip crs_inst_dd in
  let inst := if Py.truthy inst_id then Utils.get_instructor inst_id (db w) else None in
  let inst_id_or_none :=
    match inst with Some _ => Some inst_id | None => None end in
  if negb (Py.truthy name) || negb (Py.truthy cid) then
    (Label "Need course name + id", w)
  else
    match selected_course_id with
    | None =>
        let (ok, w') := Utils.add_course cid name inst_id_or_none w in
        if ok then (Form_cleared, w')
        else (Label "Could not add course (duplicate id?)", w')
    | Some selected =>
        match Utils.get_course selected (db w) with
        | None => (Label "Selection gone. reopen tab maybe", w)
        | Some _ =>
            if negb (String.eqb cid selected) then
              (Label "ID change not allowed here", w)
            else
              let (ok, w') := Utils.update_course selected name inst_id_or_none w in
              if ok then (Form_cleared, w')
              else (Label "DB said nope while updating", w')
        end
    end.

End TkinterUi.

(* ===================================================================== *)
(** * [PyQt.py]: the student creation handler                             *)
(* ===================================================================== *)

Module PyQt.
Import Py.
Import Sqlite.

(** The message box a handler ends with: [info(self, text)],
    [err(self, text)], or [err] with the text of a caught exception. *)
Inductive dialog : Type :=
| info (text : string)
| err (text : string)
| err_exception (prefix : string) (e : exception).

Module StudentsTab.

(** [StudentsTab._create]: build a [Student] from the form texts and hand
    it to the database manager; any exception ends in an error box. The
    refresh of the tabs after a success only reads the store and is left
    out. *)
Definition _create (s_name s_age s_email s_id : string) (w : world) : dialog * world :=
  match Py.int_of_str s_age with
  | None =>
      (err_exception "Create failed: "
         (ValueError "invalid literal for int() with base 10"), w)
  | Some age =>
      match Classes.Student_init (Py.strip s_name) age (Py.strip s_email)
                                 (Py.strip s_id) with
      | Raise e => (err_exception "Create failed: " e, w)
      | Return s =>
          match DatabasePyqt.add_student s w with
          | (Return true, w') => (info "Student created", w')
          | (Return false, w') => (err "Could not create student (DB said False)", w')
          | (Raise e, w') => (err_exception "Create failed: " e, w')
          end
      end
  end.

End StudentsTab.
End PyQt.

(* ===================================================================== *)
(** * Vocabulary of the specification                                     *)
(* ===================================================================== *)

Module Spec.
Import Sqlite.

(** The email shape in the words of the specification: one or more
    characters that are neither white space nor [@], an [@], one or more
    such characters, a dot, two or more letters. *)
Definition email_shape_pattern : Re.regex :=
  Re.Seq (Re.plus (Re.Chars Re.not_at_not_space))
    (Re.Seq (Re.lit "@")
       (Re.Seq (Re.plus (Re.Chars Re.not_at_not_space))
          (Re.Seq (Re.lit ".") (Re.at_least_2 (Re.Chars Re.letter))))).

Definition email_shape (e : string) : bool := Re.matches email_shape_pattern e.

(** Number of rows [(S, C)] in an enrollment table. *)
Definition enrollment_count (S C : string) (t : list registration) : nat :=
  List.length (filter (same_registration S C) t).

(** The store after a row [(S, C)] has been appended to the enrollment
    table. *)
Definition add_registration (S C : string) (d : database) : database :=
  mk_database (students d) (instructors d) (courses d)
              (registrations d ++ [(S, C)])%list.

(** The instructor slot of course [C]: [None] if the course is absent,
    otherwise the content of its [instructor_id] column. *)
Definition instructor_slot (C : string) (d : database) : option (option string) :=
  option_map instructor_id
    (find (fun r => String.eqb (course_id r) C) (courses d)).

(** The store after student [S] and the enrollment rows of [S] have been
    deleted. *)
Definition without_student (S : string) (d : database) : database :=
  mk_database (delete_where (fun r => String.eqb (person_id r) S) (students d))
              (instructors d) (courses d)
              (delete_where (fun r => String.eqb (fst r) S) (registrations d)).

(** The store after instructor [I] has been deleted and every course that
    referred to [I] has had its [instructor_id] set to NULL. *)
Definition without_instructor (I : string) (d : database) : database :=
  mk_database (students d)
              (delete_where (fun r => String.eqb (person_id r) I) (instructors d))
              (update_where (teaches I) (set_instructor None) (courses d))
              (registrations d).

(** Primary keys hold: no identifier and no enrollment row is repeated. *)
Definition keys_unique (d : database) : Prop :=
  NoDup (map person_id (students d)) /\
  NoDup (map person_id (instructors d)) /\
  NoDup (map course_id (courses d)) /\
  NoDup (registrations d).

(** Identifiers are stored in stripped form, as the constructors of
    [classes.py] leave them. *)
Definition student_ids_stripped (d : database) : Prop :=
  forall r, In r (students d) -> Py.strip (person_id r) = person_id r.

(** The store after course [C] and the enrollment rows of [C] have been
    deleted. *)
Definition without_course (C : string) (d : database) : database :=
  mk_database (students d) (instructors d)
              (delete_where (fun r => String.eqb (course_id r) C) (courses d))
              (delete_where (fun r => String.eqb (snd r) C) (registrations d)).

(** The store after the row of a person has been appended to [students]. *)
Definition add_student_row (r : person_row) (d : database) : database :=
  mk_database (students d ++ [r])%list (instructors d) (courses d) (registrations d).

(** No dangling reference: every enrollment row names a stored student and
    a stored course, and every instructor slot is empty or names a stored
    instructor. *)
Definition referential_integrity (d : database) : Prop :=
  (forall r, In r (registrations d) ->
     has_person (fst r) (students d) = true /\ has_course (snd r) (courses d) = true) /\
  (forall c i, In c (courses d) -> instructor_id c = Some i ->
     has_person i (instructors d) = true).

(** Number of courses whose slot holds instructor [I]. *)
Definition courses_taught (I : string) (d : database) : nat :=
  List.length (filter (teaches I) (courses d)).

(** The assignment rule: nobody teaches more than one course. *)
Definition one_course_per_instructor (d : database) : Prop :=
  forall I, (courses_taught I d <= 1)%nat.

End Spec.

(* ===================================================================== *)
(** * Sample stores                                                       *)
(* ===================================================================== *)

Module Scenario.
Import Sqlite.

Definition ann : person_row := mk_person_row "S1" "Ann" 20 "ann@x.com".
Definition ira : person_row := mk_person_row "I1" "Ira" 41 "ira@x.com".
Definition algo : course_row := mk_course_row "C1" "Algo" None.
Definition data : course_row := mk_course_row "C2" "Data" None.

Definition blank : world := mk_world empty [].

(** One student, one instructor, two courses, nobody enrolled or
    assigned. *)
Definition school : world :=
  mk_world (mk_database [ann] [ira] [algo; data] []) [].

(** As [school], with Ira teaching Algo. *)
Definition school_assigned : world :=
  mk_world (mk_database [ann] [ira] [set_instructor (Some "I1") algo; data] []) [].

(** As [school_assigned], with Ann enrolled in Algo. *)
Definition school_enrolled : world :=
  mk_world (mk_database [ann] [ira] [set_instructor (Some "I1") algo; data]
                        [("S1", "C1")]) [].

(** A text of [n] copies of one character. *)
Fixpoint replicate (n : nat) (c : ascii) : string :=
  match n with
  | O => EmptyString
  | S n' => String c (replicate n' c)
  end.

(** Three students and three courses, created out of order, and seven
    enrollments made out of order. *)
Definition shuffled : database :=
  mk_database
    [mk_person_row "S3" "Cy" 22 "cy@x.com"; ann; mk_person_row "S2" "Bo" 21 "bo@x.com"]
    []
    [mk_course_row "C3" "Logic" None; algo; data]
    [("S3", "C2"); ("S1", "C3"); ("S3", "C3"); ("S2", "C1"); ("S3", "C1"); ("S1", "C1");
     ("S2", "C3")].

End Scenario.

(* ===================================================================== *)
(** * Properties                                                          *)
(* ===================================================================== *)

Import Sqlite.

Unset Implicit Arguments.

(** ** Lists and tables *)

Section Tables.
Context {A : Type}.
Implicit Types (p : A -> bool) (t : list A).

Lemma existsb_false_filter p t :
  existsb p t = false -> filter p t = [].
Proof.
  induction t as [|x t IH]; simpl; intros H; [reflexivity|].
  apply orb_false_iff in H as [Hx Ht]. rewrite Hx. auto.
Qed.

Lemma delete_where_absent p t :
  existsb p t = false -> delete_where p t = t.
Proof.
  unfold delete_where.
  induction t as [|x t IH]; simpl; intros H; [reflexivity|].
  apply orb_false_iff in H as [Hx Ht]. rewrite Hx. simpl. f_equal. auto.
Qed.

Lemma rowcount_of_absent p t :
  existsb p t = false -> rowcount_of p t = 0.
Proof.
  intros H. unfold rowcount_of. rewrite existsb_false_filter by assumption.
  reflexivity.
Qed.

Lemma rowcount_of_present p t :
  existsb p t = true -> 0 < rowcount_of p t.
Proof.
  unfold rowcount_of.
  induction t as [|x t IH]; simpl; intros H; [discriminate|].
  destruct (p x); simpl; [lia|]. auto.
Qed.

Lemma delete_where_spec p t x :
  In x (delete_where p t) <-> In x t /\ p x = false.
Proof.
  unfold delete_where. rewrite filter_In.
  destruct (p x); simpl; intuition congruence.
Qed.

Lemma existsb_delete_where p t :
  existsb p (delete_where p t) = false.
Proof.
  unfold delete_where.
  induction t as [|x t IH]; simpl; [reflexivity|].
  destruct (p x) eqn:E; simpl; [assumption|]. rewrite E. assumption.
Qed.

Lemma update_where_absent p (f : A -> A) t :
  existsb p t = false -> update_where p f t = t.
Proof.
  unfold update_where.
  induction t as [|x t IH]; simpl; intros H; [reflexivity|].
  apply orb_false_iff in H as [Hx Ht]. rewrite Hx. f_equal. auto.
Qed.

Lemma find_app_absent p t x :
  existsb p t = false -> find p (t ++ [x])%list = if p x then Some x else None.
Proof.
  induction t as [|y t IH]; simpl; intros H; [reflexivity|].
  apply orb_false_iff in H as [Hy Ht]. rewrite Hy. auto.
Qed.

Lemma filter_app_absent p t x :
  existsb p t = false -> filter p (t ++ [x])%list = if p x then [x] else [].
Proof.
  intros H. rewrite filter_app, existsb_false_filter by assumption. reflexivity.
Qed.

End Tables.

(** [ORDER BY] keeps the rows and only rearranges them. *)
Lemma insert_by_In {A : Type} (key : A -> string) (x y : A) (l : list A) :
  In y (insert_by key x l) <-> y = x \/ In y l.
Proof.
  induction l as [|z l IH]; simpl.
  - intuition.
  - destruct (String.ltb (key z) (key x)); simpl; rewrite ?IH; intuition.
Qed.

Lemma order_by_In {A : Type} (key : A -> string) (y : A) (l : list A) :
  In y (order_by key l) <-> In y l.
Proof.
  induction l as [|x l IH]; simpl; [tauto|].
  rewrite insert_by_In, IH. intuition.
Qed.

(** ** Enrollment rows *)

Lemma same_registration_iff (S C : string) (r : registration) :
  same_registration S C r = true <-> r = (S, C).
Proof.
  unfold same_registration. destruct r as [s c]. simpl.
  rewrite andb_true_iff, !String.eqb_eq. split.
  - intros [-> ->]. reflexivity.
  - intros H. inversion H. auto.
Qed.

Lemma has_registration_In (S C : string) (t : list registration) :
  has_registration S C t = true <-> In (S, C) t.
Proof.
  unfold has_registration. rewrite existsb_exists. split.
  - intros [r [Hin Hr]]. apply same_registration_iff in Hr. now subst.
  - intros H. exists (S, C). split; [assumption|]. now apply same_registration_iff.
Qed.

Lemma enrollment_count_absent (S C : string) (t : list registration) :
  has_registration S C t = false -> Spec.enrollment_count S C t = 0%nat.
Proof.
  intros H. unfold Spec.enrollment_count.
  rewrite existsb_false_filter; [reflexivity | exact H].
Qed.

Lemma enrollment_count_NoDup (S C : string) (t : list registration) :
  NoDup t -> In (S, C) t -> Spec.enrollment_count S C t = 1%nat.
Proof.
  unfold Spec.enrollment_count.
  induction 1 as [|r t Hnotin Hnd IH]; simpl; [contradiction|].
  intros [-> | Hin].
  - assert (E : same_registration S C (S, C) = true) by now apply same_registration_iff.
    rewrite E. simpl. f_equal.
    apply (enrollment_count_absent S C t).
    destruct (has_registration S C t) eqn:H; [|reflexivity].
    apply has_registration_In in H. contradiction.
  - destruct (same_registration S C r) eqn:E.
    + apply same_registration_iff in E. subst. contradiction.
    + auto.
Qed.

Lemma enrollment_count_add (S C : string) (t : list registration) :
  has_registration S C t = false ->
  Spec.enrollment_count S C (t ++ [(S, C)])%list = 1%nat.
Proof.
  intros H. unfold Spec.enrollment_count.
  rewrite filter_app_absent by exact H.
  assert (E : same_registration S C (S, C) = true) by now apply same_registration_iff.
  now rewrite E.
Qed.

Lemma has_registration_add (S C : string) (t : list registration) :
  has_registration S C (t ++ [(S, C)])%list = true.
Proof. apply has_registration_In, in_or_app. right. now left. Qed.

Lemma commit_same (w : world) : commit (db w) w = w.
Proof. now destruct w. Qed.

(** ** [register_student_to_course] of [utils.py] *)

Lemma utils_register_present (S C : string) (w : world) :
  has_registration S C (registrations (db w)) = true ->
  Utils.register_student_to_course S C w = (true, w).
Proof.
  intros H. unfold Utils.register_student_to_course, Database.run. simpl.
  rewrite H. simpl. now rewrite commit_same.
Qed.

Lemma utils_register_new (S C : string) (w : world) :
  has_registration S C (registrations (db w)) = false ->
  has_person S (students (db w)) = true ->
  has_course C (courses (db w)) = true ->
  Utils.register_student_to_course S C w
  = (true, commit (Spec.add_registration S C (db w)) w).
Proof.
  intros H HS HC. unfold Utils.register_student_to_course, Database.run. simpl.
  rewrite H, HS, HC. reflexivity.
Qed.

Lemma utils_register_missing (S C : string) (w : world) :
  has_registration S C (registrations (db w)) = false ->
  has_person S (students (db w)) = false \/ has_course C (courses (db w)) = false ->
  Utils.register_student_to_course S C w
  = (false, print (Py.TextExc "db run error:" Py.IntegrityError) w).
Proof.
  intros H Hmiss. unfold Utils.register_student_to_course, Database.run. simpl.
  rewrite H.
  destruct Hmiss as [E | E]; rewrite E; simpl;
    [|rewrite andb_false_r]; reflexivity.
Qed.

(** ** [register_student_in_course] of [database_pyqt.py] *)

Lemma pyqt_register_present (S C : string) (w : world) :
  has_registration S C (registrations (db w)) = true ->
  DatabasePyqt.register_student_in_course S C w = (Py.Return false, w).
Proof.
  intros H. unfold DatabasePyqt.register_student_in_course, DatabasePyqt.transaction.
  simpl. rewrite H. simpl. now rewrite commit_same.
Qed.

Lemma pyqt_register_new (S C : string) (w : world) :
  has_registration S C (registrations (db w)) = false ->
  DatabasePyqt.register_student_in_course S C w
  = (Py.Return true, commit (Spec.add_registration S C (db w)) w).
Proof.
  intros H. unfold DatabasePyqt.register_student_in_course, DatabasePyqt.transaction.
  simpl. rewrite H. reflexivity.
Qed.

(** C1. Enrolling the same stored student in the same stored course twice
    leaves exactly one enrollment row, in both data-access modules. The
    repository function of [utils.py] answers [True] both times. The
    [DatabaseManager] method answers [False] the second time (its result is
    [rowcount > 0], and an ignored insert changes no row), although both
    were written to be idempotent through [INSERT OR IGNORE]. *)
Theorem C1_enroll_twice (w : world) (S C : string) :
  has_person S (students (db w)) = true ->
  has_course C (courses (db w)) = true ->
  NoDup (registrations (db w)) ->
  (let (ok1, w1) := Utils.register_student_to_course S C w in
   let (ok2, w2) := Utils.register_student_to_course S C w1 in
   ok1 = true /\ ok2 = true /\
   Spec.enrollment_count S C (registrations (db w2)) = 1%nat)
  /\
  (let (r1, w1) := DatabasePyqt.register_student_in_course S C w in
   let (r2, w2) := DatabasePyqt.register_student_in_course S C w1 in
   r2 = Py.Return false /\
   (has_registration S C (registrations (db w)) = false -> r1 = Py.Return true) /\
   Spec.enrollment_count S C (registrations (db w2)) = 1%nat).
Proof.
  intros HS HC Hnd.
  destruct (has_registration S C (registrations (db w))) eqn:Hreg.
  - (* already enrolled *)
    rewrite (utils_register_present _ _ _ Hreg), (utils_register_present _ _ _ Hreg).
    rewrite (pyqt_register_present _ _ _ Hreg), (pyqt_register_present _ _ _ Hreg).
    apply has_registration_In in Hreg.
    repeat split; try discriminate; now apply enrollment_count_NoDup.
  - rewrite (utils_register_new _ _ _ Hreg HS HC), (pyqt_register_new _ _ _ Hreg).
    rewrite utils_register_present, pyqt_register_present
      by (simpl; apply has_registration_add).
    simpl. repeat split; now apply enrollment_count_add.
Qed.

Lemma C1_enroll_twice_witness :
  (let (ok1, w1) := Utils.register_student_to_course "S1" "C1" Scenario.school in
   let (ok2, w2) := Utils.register_student_to_course "S1" "C1" w1 in
   ok1 = true /\ ok2 = true /\
   Spec.enrollment_count "S1" "C1" (registrations (db w2)) = 1%nat)
  /\
  (let (r1, w1) := DatabasePyqt.register_student_in_course "S1" "C1" Scenario.school in
   let (r2, w2) := DatabasePyqt.register_student_in_course "S1" "C1" w1 in
   r2 = Py.Return false /\
   (has_registration "S1" "C1" (registrations (db Scenario.school)) = false ->
    r1 = Py.Return true) /\
   Spec.enrollment_count "S1" "C1" (registrations (db w2)) = 1%nat).
Proof.
  apply (C1_enroll_twice Scenario.school "S1" "C1");
    [reflexivity | reflexivity | constructor].
Defined.

(** C7. Enrolling with a student id or a course id that is not in the
    store. Through [utils.py], whose connection enforces foreign keys, the
    insert is refused: the function answers [False] and the store is
    unchanged. Through [DatabaseManager], whose connection never turns
    foreign keys on, the row is inserted and the method answers [True]. *)
Theorem C7_enroll_absent (w : world) (S C : string) :
  has_person S (students (db w)) = false \/ has_course C (courses (db w)) = false ->
  has_registration S C (registrations (db w)) = false ->
  (fst (Utils.register_student_to_course S C w) = false /\
   db (snd (Utils.register_student_to_course S C w)) = db w)
  /\
  (fst (DatabasePyqt.register_student_in_course S C w) = Py.Return true /\
   registrations (db (snd (DatabasePyqt.register_student_in_course S C w)))
   = (registrations (db w) ++ [(S, C)])%list).
Proof.
  intros Hmiss Hreg.
  rewrite (utils_register_missing _ _ _ Hreg Hmiss), (pyqt_register_new _ _ _ Hreg).
  repeat split.
Qed.

Lemma C7_enroll_absent_witness :
  (fst (Utils.register_student_to_course "S9" "C1" Scenario.school) = false /\
   db (snd (Utils.register_student_to_course "S9" "C1" Scenario.school))
   = db Scenario.school)
  /\
  (fst (DatabasePyqt.register_student_in_course "S9" "C1" Scenario.school)
   = Py.Return true /\
   registrations (db (snd (DatabasePyqt.register_student_in_course "S9" "C1"
                             Scenario.school)))
   = (registrations (db Scenario.school) ++ [("S9", "C1")])%list).
Proof.
  apply (C7_enroll_absent Scenario.school "S9" "C1"); [left|]; reflexivity.
Defined.

(** ** Removing an enrollment row *)

Lemma database_eta (d : database) :
  mk_database (students d) (instructors d) (courses d) (registrations d) = d.
Proof. now destruct d. Qed.

(** C8 as stated fails for [utils.py]: with no row [("S1", "C1")] in the
    store, [unregister_student_from_course] answers [True]. *)
Lemma C8_counterexample :
  has_registration "S1" "C1" (registrations (db Scenario.school)) = false /\
  Utils.unregister_student_from_course "S1" "C1" Scenario.school
  = (true, Scenario.school).
Proof. split; reflexivity. Qed.

(** C8, amended. Removing a pair that is not in the enrollment relation
    changes nothing in either module. [DatabaseManager] answers [False]
    (no row was deleted); [utils.py] answers [True], because its result
    only tells whether the statement ran without an exception. *)
Theorem C8_unenroll_absent (w : world) (S C : string) :
  has_registration S C (registrations (db w)) = false ->
  DatabasePyqt.unregister_student_from_course S C w = (Py.Return false, w) /\
  Utils.unregister_student_from_course S C w = (true, w).
Proof.
  intros H. unfold has_registration in H.
  unfold DatabasePyqt.unregister_student_from_course, DatabasePyqt.transaction,
    Utils.unregister_student_from_course, Database.run.
  simpl.
  rewrite (delete_where_absent _ _ H), (rowcount_of_absent _ _ H), database_eta.
  simpl. now rewrite commit_same.
Qed.

Lemma C8_unenroll_absent_witness :
  DatabasePyqt.unregister_student_from_course "S1" "C2" Scenario.school_enrolled
  = (Py.Return false, Scenario.school_enrolled) /\
  Utils.unregister_student_from_course "S1" "C2" Scenario.school_enrolled
  = (true, Scenario.school_enrolled).
Proof.
  apply (C8_unenroll_absent Scenario.school_enrolled "S1" "C2"). reflexivity.
Defined.

(** ** Instructor slots *)

Lemma find_update_where {A : Type} (q p : A -> bool) (f : A -> A) (t : list A) :
  (forall r, q (f r) = q r) ->
  find q (update_where p f t) = option_map (fun r => if p r then f r else r) (find q t).
Proof.
  intros Hq. unfold update_where.
  induction t as [|x t IH]; simpl; [reflexivity|].
  destruct (p x) eqn:Ep; rewrite ?Hq; destruct (q x); simpl; rewrite ?Ep; auto.
Qed.

Lemma find_conj {A : Type} (p q : A -> bool) (t : list A) (r : A) :
  find p t = Some r -> q r = true -> find (fun x => p x && q x) t = Some r.
Proof.
  induction t as [|x t IH]; simpl; [discriminate|].
  destruct (p x) eqn:E; simpl.
  - intros [= ->] Hq. now rewrite Hq.
  - auto.
Qed.

Lemma existsb_find_some {A : Type} (p : A -> bool) (t : list A) :
  existsb p t = true -> exists r, find p t = Some r /\ p r = true.
Proof.
  induction t as [|x t IH]; simpl; [discriminate|].
  destruct (p x) eqn:E; simpl; eauto.
Qed.

Lemma instructor_slot_row (C : string) (d : database) (i : option string) :
  Spec.instructor_slot C d = Some i ->
  exists r, find (fun r => String.eqb (course_id r) C) (courses d) = Some r /\
            In r (courses d) /\ course_id r = C /\ instructor_id r = i.
Proof.
  unfold Spec.instructor_slot.
  destruct (find _ (courses d)) as [r|] eqn:E; simpl; [|discriminate].
  intros [= <-]. exists r. apply find_some in E as H. destruct H as [Hin Hid].
  apply String.eqb_eq in Hid. auto.
Qed.

Lemma instructor_slot_has_course (C : string) (d : database) (i : option string) :
  Spec.instructor_slot C d = Some i -> has_course C (courses d) = true.
Proof.
  intros H. apply instructor_slot_row in H as (r & _ & Hin & Hid & _).
  unfold has_course. apply existsb_exists. exists r. split; [assumption|].
  now apply String.eqb_eq.
Qed.

(** The first guard of [DatabaseManager.assign_instructor_to_course]. *)
Lemma pyqt_assign_elsewhere (w : world) (I C1 C2 : string) :
  C1 <> C2 ->
  Spec.instructor_slot C1 (db w) = Some (Some I) ->
  exists c, c <> C2 /\
    DatabasePyqt.course_of_instructor_other_than I C2 (db w) = Some c.
Proof.
  intros Hneq Hslot.
  apply instructor_slot_row in Hslot as (r & _ & Hin & Hid & Hi).
  unfold DatabasePyqt.course_of_instructor_other_than.
  destruct (existsb_find_some
              (fun r => teaches I r && negb (String.eqb (course_id r) C2))
              (courses (db w))) as (r' & Hfind & Hp).
  - apply existsb_exists. exists r. split; [assumption|].
    unfold teaches. rewrite Hi, String.eqb_refl, Hid. simpl.
    apply negb_true_iff, String.eqb_neq. assumption.
  - rewrite Hfind. simpl. exists (course_id r'). split; [|reflexivity].
    apply andb_true_iff in Hp as [_ Hp].
    now apply negb_true_iff, String.eqb_neq in Hp.
Qed.

(** The second guard. *)
Lemma pyqt_course_has_instructor (d : database) (I C : string) :
  Spec.instructor_slot C d = Some (Some I) ->
  DatabasePyqt.instructor_of_course C d = Some I.
Proof.
  intros Hslot. apply instructor_slot_row in Hslot as (r & Hfind & _ & _ & Hi).
  unfold DatabasePyqt.instructor_of_course.
  rewrite (find_conj _ (fun r => Utils.is_not_None (instructor_id r)) _ _ Hfind).
  - assumption.
  - now rewrite Hi.
Qed.

(** The unguarded update of [utils.py]. *)
Lemma utils_assign_updates (w : world) (I C : string) :
  has_person I (instructors (db w)) = true ->
  has_course C (courses (db w)) = true ->
  Utils.assign_instructor_to_course I C w
  = (true,
     commit (mk_database (students (db w)) (instructors (db w))
               (update_where (fun r => String.eqb (course_id r) C)
                             (set_instructor (Some I)) (courses (db w)))
               (registrations (db w))) w).
Proof.
  intros HI HC. unfold Utils.assign_instructor_to_course, Database.run. simpl.
  rewrite HC, HI. reflexivity.
Qed.

(** C2 as stated fails for [utils.py]: Ira teaches Algo (C1); assigning
    her to Data (C2) answers [True] and fills the slot of C2. *)
Lemma C2_counterexample :
  Spec.instructor_slot "C1" (db Scenario.school_assigned) = Some (Some "I1") /\
  fst (Utils.assign_instructor_to_course "I1" "C2" Scenario.school_assigned) = true /\
  Spec.instructor_slot "C2"
    (db (snd (Utils.assign_instructor_to_course "I1" "C2" Scenario.school_assigned)))
  = Some (Some "I1").
Proof. repeat split; reflexivity. Qed.

(** C2, amended. With instructor [I] assigned to course [C1] and
    [C2 <> C1]: [DatabaseManager.assign_instructor_to_course I C2] answers
    [False], the only effect being the printed line that names a course
    other than [C2] which [I] already teaches; the store, and with it both
    slots, is unchanged. The function of the same name in [utils.py] has no
    such rule: for a stored instructor and course it answers [True], sets
    the slot of [C2] to [I] and leaves the slot of [C1] as it was. *)
Theorem C2_assign_elsewhere (w : world) (I C1 C2 : string) :
  C1 <> C2 ->
  has_person I (instructors (db w)) = true ->
  Spec.instructor_slot C1 (db w) = Some (Some I) ->
  has_course C2 (courses (db w)) = true ->
  (exists c, c <> C2 /\
     DatabasePyqt.assign_instructor_to_course I C2 w
     = (Py.Return false,
        print (Py.Text ("Instructor " ++ I ++ " is already assigned to course " ++ c)) w))
  /\ db (snd (DatabasePyqt.assign_instructor_to_course I C2 w)) = db w
  /\ (fst (Utils.assign_instructor_to_course I C2 w) = true /\
      Spec.instructor_slot C2 (db (snd (Utils.assign_instructor_to_course I C2 w)))
      = Some (Some I) /\
      Spec.instructor_slot C1 (db (snd (Utils.assign_instructor_to_course I C2 w)))
      = Some (Some I)).
Proof.
  intros Hneq HI Hslot HC2.
  destruct (pyqt_assign_elsewhere w I C1 C2 Hneq Hslot) as (c & Hc & Hfind).
  assert (E : DatabasePyqt.assign_instructor_to_course I C2 w
              = (Py.Return false,
                 print (Py.Text ("Instructor " ++ I
                                 ++ " is already assigned to course " ++ c)) w)).
  { unfold DatabasePyqt.assign_instructor_to_course. now rewrite Hfind. }
  split; [exists c; auto|]. split; [now rewrite E|].
  rewrite (utils_assign_updates w I C2 HI HC2). simpl.
  unfold Spec.instructor_slot. simpl.
  rewrite !find_update_where by reflexivity.
  split; [reflexivity|]. split.
  - apply existsb_find_some in HC2 as (r & -> & Hr). simpl. now rewrite Hr.
  - apply instructor_slot_row in Hslot as (r & -> & _ & Hid & Hi). simpl.
    assert (E2 : String.eqb (course_id r) C2 = false)
      by (apply String.eqb_neq; congruence).
    now rewrite E2, Hi.
Qed.

Lemma C2_assign_elsewhere_witness :
  (exists c, c <> "C2" /\
     DatabasePyqt.assign_instructor_to_course "I1" "C2" Scenario.school_assigned
     = (Py.Return false,
        print (Py.Text ("Instructor " ++ "I1" ++ " is already assigned to course " ++ c))
              Scenario.school_assigned))
  /\ db (snd (DatabasePyqt.assign_instructor_to_course "I1" "C2" Scenario.school_assigned))
     = db Scenario.school_assigned
  /\ (fst (Utils.assign_instructor_to_course "I1" "C2" Scenario.school_assigned) = true /\
      Spec.instructor_slot "C2"
        (db (snd (Utils.assign_instructor_to_course "I1" "C2" Scenario.school_assigned)))
      = Some (Some "I1") /\
      Spec.instructor_slot "C1"
        (db (snd (Utils.assign_instructor_to_course "I1" "C2" Scenario.school_assigned)))
      = Some (Some "I1")).
Proof.
  apply (C2_assign_elsewhere Scenario.school_assigned "I1" "C1" "C2");
    [discriminate | reflexivity | reflexivity | reflexivity].
Defined.

(** C3 as stated fails: Ira already teaches Algo; assigning her to Algo
    again is answered with [False]. *)
Lemma C3_counterexample :
  Spec.instructor_slot "C1" (db Scenario.school_assigned) = Some (Some "I1") /\
  DatabasePyqt.assign_instructor_to_course "I1" "C1" Scenario.school_assigned
  = (Py.Return false,
     print (Py.Text "Course C1 already has instructor I1") Scenario.school_assigned).
Proof. split; reflexivity. Qed.

(** C3, amended. If the slot of course [C] already holds instructor [I],
    [DatabaseManager.assign_instructor_to_course I C] leaves the store
    unchanged and raises nothing, but it answers [False]: unless the first
    guard fires, the second guard reports that the course already has
    instructor [I]. *)
Theorem C3_assign_again (w : world) (I C : string) :
  Spec.instructor_slot C (db w) = Some (Some I) ->
  fst (DatabasePyqt.assign_instructor_to_course I C w) = Py.Return false /\
  db (snd (DatabasePyqt.assign_instructor_to_course I C w)) = db w /\
  (DatabasePyqt.course_of_instructor_other_than I C (db w) = None ->
   DatabasePyqt.assign_instructor_to_course I C w
   = (Py.Return false,
      print (Py.Text ("Course " ++ C ++ " already has instructor " ++ I)) w)).
Proof.
  intros Hslot. unfold DatabasePyqt.assign_instructor_to_course.
  rewrite (pyqt_course_has_instructor (db w) I C Hslot).
  destruct (DatabasePyqt.course_of_instructor_other_than I C (db w));
    repeat split; intros; discriminate.
Qed.

Lemma C3_assign_again_witness :
  fst (DatabasePyqt.assign_instructor_to_course "I1" "C1" Scenario.school_assigned)
  = Py.Return false /\
  db (snd (DatabasePyqt.assign_instructor_to_course "I1" "C1" Scenario.school_assigned))
  = db Scenario.school_assigned /\
  (DatabasePyqt.course_of_instructor_other_than "I1" "C1" (db Scenario.school_assigned)
   = None ->
   DatabasePyqt.assign_instructor_to_course "I1" "C1" Scenario.school_assigned
   = (Py.Return false,
      print (Py.Text ("Course " ++ "C1" ++ " already has instructor " ++ "I1"))
            Scenario.school_assigned)).
Proof.
  apply (C3_assign_again Scenario.school_assigned "I1" "C1"). reflexivity.
Defined.

(** ** Deleting a student *)

Lemma pyqt_delete_student (S : string) (w : world) :
  DatabasePyqt.delete_student S w
  = (Py.Return (0 <? rowcount_of (fun r => String.eqb (person_id r) S) (students (db w))),
     commit (Spec.without_student S (db w)) w).
Proof. reflexivity. Qed.

Lemma utils_delete_student (S : string) (w : world) :
  has_person S (students (db w)) = true ->
  Utils.delete_student S w = (true, commit (Spec.without_student S (db w)) w).
Proof.
  intros H. unfold Utils.delete_student, Database.run. simpl. now rewrite H.
Qed.

Lemma without_student_no_rows (S C : string) (d : database) :
  has_registration S C (registrations (Spec.without_student S d)) = false.
Proof.
  destruct (has_registration S C (registrations (Spec.without_student S d))) eqn:H;
    [|reflexivity].
  apply has_registration_In in H. simpl in H.
  apply delete_where_spec in H as [_ H]. simpl in H.
  now rewrite String.eqb_refl in H.
Qed.

Lemma without_student_not_stored (S : string) (d : database) :
  has_person S (students (Spec.without_student S d)) = false.
Proof. apply (existsb_delete_where (fun r => String.eqb (person_id r) S)). Qed.

Lemma without_student_rows (S : string) (d : database) (r : person_row) :
  In r (students (Spec.without_student S d)) -> In r (students d) /\ person_id r <> S.
Proof.
  simpl. intros H. apply delete_where_spec in H as [Hin H].
  split; [assumption|]. now apply String.eqb_neq.
Qed.

(** Rows read by [course_students] of [utils.py] are students of the store. *)
Lemma utils_course_student_ids_stored (C x : string) (d : database) :
  In x (Utils.course_student_ids C d) ->
  exists r, In r (students d) /\ person_id r = x.
Proof.
  unfold Utils.course_student_ids, Utils.course_students.
  rewrite in_map_iff. intros [[sid nm] [Hx Hin]]. simpl in Hx. subst sid.
  apply order_by_In in Hin. apply in_flat_map in Hin as [reg [_ Hin]].
  destruct (String.eqb (snd reg) C); [|contradiction].
  apply in_map_iff in Hin as [s [Hs Hin]]. apply filter_In in Hin as [Hin _].
  exists s. split; [assumption|]. now inversion Hs.
Qed.

(** Rows read by [get_course_students] of [database_pyqt.py] are students
    of the store. *)
Lemma pyqt_course_student_rows_stored (C : string) (d : database) (r : person_row) :
  In r (DatabasePyqt.course_student_rows C d) -> In r (students d).
Proof.
  unfold DatabasePyqt.course_student_rows. intros H. apply order_by_In in H.
  apply in_flat_map in H as [s [Hs Hin]].
  apply in_map_iff in Hin as [_ [-> _]]. assumption.
Qed.

Lemma for_each_map {A B K : Type} (f : A -> Py.result B) (g : B -> K) (h : A -> K)
    (l : list A) (ys : list B) :
  (forall x y, f x = Py.Return y -> g y = h x) ->
  DatabasePyqt.for_each f l = Py.Return ys -> map g ys = map h l.
Proof.
  intros Hf. revert ys.
  induction l as [|x l IH]; simpl; intros ys H.
  - now inversion H.
  - destruct (f x) as [y|] eqn:Ex; simpl in H; [|discriminate].
    destruct (DatabasePyqt.for_each f l) as [ys'|]; simpl in H; [|discriminate].
    inversion H; subst. simpl. f_equal; auto.
Qed.

Lemma non_empty_Return (msg x y : string) :
  Classes.non_empty msg x = Py.Return y -> y = Py.strip x /\ Py.truthy (Py.strip x) = true.
Proof.
  unfold Classes.non_empty. destruct (Py.truthy (Py.strip x)); [|discriminate].
  intros [= <-]. auto.
Qed.

(** What a successful [Student(...)] call returns. *)
Lemma Student_init_Return (n : string) (a : Z) (e i : string) (s : Classes.Student) :
  Classes.Student_init n a e i = Py.Return s ->
  s = Classes.mk_Student (Py.strip n) a e (Py.strip i) [] /\
  Py.truthy (Py.strip n) = true /\ 0 <= a /\
  Re.match_ Classes.email_pattern e = true /\ Py.truthy (Py.strip i) = true.
Proof.
  unfold Classes.Student_init, Classes.valid_name, Classes.valid_student_id,
    Classes.valid_age, Classes.valid_email.
  destruct (Classes.non_empty _ n) as [n'|] eqn:En; simpl; [|discriminate].
  destruct (a <? 0) eqn:Ea; simpl; [discriminate|].
  destruct (Re.match_ Classes.email_pattern e) eqn:Ee; simpl; [|discriminate].
  destruct (Classes.non_empty _ i) as [i'|] eqn:Ei; simpl; [|discriminate].
  apply non_empty_Return in En as [-> Hn], Ei as [-> Hi].
  intros [= <-]. apply Z.ltb_ge in Ea. auto.
Qed.

Lemma pyqt_enrolled_student_ids (C : string) (d : database) (c : Classes.Course) :
  DatabasePyqt.get_course C d = Py.Return (Some c) ->
  map Classes.student_id (Classes.enrolled_students c)
  = map (fun r => Py.strip (person_id r)) (DatabasePyqt.course_student_rows C d).
Proof.
  unfold DatabasePyqt.get_course, DatabasePyqt.get_course_students.
  destruct (find _ (courses d)) as [row|]; [|discriminate].
  destruct (DatabasePyqt.course_of_row d row) as [course|]; simpl; [|discriminate].
  destruct (DatabasePyqt.for_each _ _) as [ss|] eqn:E; simpl; [|discriminate].
  intros [= <-]. simpl.
  refine (for_each_map _ _ _ _ _ _ E).
  intros r s H. apply Student_init_Return in H as [-> _]. reflexivity.
Qed.

(** C4. Deleting a stored student [S] succeeds in both data-access
    modules and commits, in one step, the store from which both the
    student row and every enrollment row of [S] are gone (in
    [DatabaseManager] by two statements of one transaction, in [utils.py]
    by the [ON DELETE CASCADE] of the schema); nothing else changes.
    Afterwards no enrollment row mentions [S] and no course lists [S] among
    its enrolled students, whether read through [utils.py], through the
    rows selected by [DatabaseManager], or through the [Course] objects it
    builds from them. *)
Theorem C4_delete_student_cascade (w : world) (S : string) :
  has_person S (students (db w)) = true ->
  let d' := Spec.without_student S (db w) in
  DatabasePyqt.delete_student S w = (Py.Return true, commit d' w) /\
  Utils.delete_student S w = (true, commit d' w) /\
  has_person S (students d') = false /\
  instructors d' = instructors (db w) /\ courses d' = courses (db w) /\
  (forall C, has_registration S C (registrations d') = false) /\
  (forall C, ~ In S (Utils.course_student_ids C d')) /\
  (forall C, ~ In S (map person_id (DatabasePyqt.course_student_rows C d'))) /\
  (Spec.student_ids_stripped (db w) ->
   forall C c, DatabasePyqt.get_course C d' = Py.Return (Some c) ->
               ~ In S (map Classes.student_id (Classes.enrolled_students c))).
Proof.
  intros HS d'. subst d'.
  split.
  { rewrite pyqt_delete_student.
    pose proof (rowcount_of_present _ _ HS) as Hpos.
    apply Z.ltb_lt in Hpos. now rewrite Hpos. }
  split; [now apply utils_delete_student|].
  split; [apply without_student_not_stored|].
  split; [reflexivity|]. split; [reflexivity|].
  split; [intros C; apply without_student_no_rows|].
  split.
  { intros C Hin. apply utils_course_student_ids_stored in Hin as (r & Hr & Hid).
    apply without_student_rows in Hr as [_ Hr]. contradiction. }
  split.
  { intros C Hin. apply in_map_iff in Hin as (r & Hid & Hr).
    apply pyqt_course_student_rows_stored, without_student_rows in Hr as [_ Hr].
    contradiction. }
  intros Hstripped C c Hget Hin.
  rewrite (pyqt_enrolled_student_ids _ _ _ Hget) in Hin.
  apply in_map_iff in Hin as (r & Hid & Hr).
  apply pyqt_course_student_rows_stored, without_student_rows in Hr as [Hr Hneq].
  rewrite (Hstripped r Hr) in Hid. contradiction.
Qed.

Lemma C4_delete_student_cascade_witness :
  let d' := Spec.without_student "S1" (db Scenario.school_enrolled) in
  DatabasePyqt.delete_student "S1" Scenario.school_enrolled
  = (Py.Return true, commit d' Scenario.school_enrolled) /\
  Utils.delete_student "S1" Scenario.school_enrolled
  = (true, commit d' Scenario.school_enrolled) /\
  has_person "S1" (students d') = false /\
  instructors d' = instructors (db Scenario.school_enrolled) /\
  courses d' = courses (db Scenario.school_enrolled) /\
  (forall C, has_registration "S1" C (registrations d') = false) /\
  (forall C, ~ In "S1" (Utils.course_student_ids C d')) /\
  (forall C, ~ In "S1" (map person_id (DatabasePyqt.course_student_rows C d'))) /\
  (Spec.student_ids_stripped (db Scenario.school_enrolled) ->
   forall C c, DatabasePyqt.get_course C d' = Py.Return (Some c) ->
               ~ In "S1" (map Classes.student_id (Classes.enrolled_students c))).
Proof.
  apply (C4_delete_student_cascade Scenario.school_enrolled "S1"). reflexivity.
Defined.

(** ** Deleting an instructor *)

Lemma pyqt_delete_instructor (I : string) (w : world) :
  DatabasePyqt.delete_instructor I w
  = (Py.Return (0 <? rowcount_of (fun r => String.eqb (person_id r) I)
                                 (instructors (db w))),
     commit (Spec.without_instructor I (db w)) w).
Proof. reflexivity. Qed.

Lemma utils_delete_instructor (I : string) (w : world) :
  has_person I (instructors (db w)) = true ->
  Utils.delete_instructor I w = (true, commit (Spec.without_instructor I (db w)) w).
Proof.
  intros H. unfold Utils.delete_instructor, Database.run. simpl. rewrite H. simpl.
  destruct (existsb (teaches I) (courses (db w))) eqn:E; simpl; [reflexivity|].
  unfold Spec.without_instructor. now rewrite (update_where_absent _ _ _ E).
Qed.

Lemma teaches_iff (I : string) (r : course_row) :
  teaches I r = true <-> instructor_id r = Some I.
Proof.
  unfold teaches. destruct (instructor_id r) as [i|].
  - rewrite String.eqb_eq. split; congruence.
  - split; discriminate.
Qed.

(** The rows of [courses] after the instructor is gone: the same courses
    in the same order, each with its slot emptied if it held [I] and
    untouched otherwise. *)
Lemma without_instructor_courses (I : string) (d : database) :
  courses (Spec.without_instructor I d)
  = map (fun r => if teaches I r then mk_course_row (course_id r) (course_name r) None
                  else r) (courses d).
Proof. reflexivity. Qed.

Lemma without_instructor_ids (I : string) (d : database) :
  map course_id (courses (Spec.without_instructor I d)) = map course_id (courses d) /\
  map course_name (courses (Spec.without_instructor I d)) = map course_name (courses d).
Proof.
  rewrite without_instructor_courses, !map_map.
  split; apply map_ext; intros r; now destruct (teaches I r).
Qed.

Lemma without_instructor_unreferenced (I : string) (d : database) (r : course_row) :
  In r (courses (Spec.without_instructor I d)) -> instructor_id r <> Some I.
Proof.
  rewrite without_instructor_courses, in_map_iff. intros (r0 & <- & _).
  destruct (teaches I r0) eqn:E; simpl; [discriminate|].
  intros H. apply teaches_iff in H. congruence.
Qed.

Lemma without_instructor_slot (I C : string) (d : database) :
  Spec.instructor_slot C (Spec.without_instructor I d)
  = match Spec.instructor_slot C d with
    | Some (Some i) => if String.eqb i I then Some None else Some (Some i)
    | other => other
    end.
Proof.
  unfold Spec.instructor_slot, Spec.without_instructor. simpl.
  rewrite find_update_where by reflexivity.
  destruct (find _ (courses d)) as [r|]; simpl; [|reflexivity].
  unfold teaches. destruct (instructor_id r) as [i|] eqn:E; simpl.
  - destruct (String.eqb i I); simpl; now rewrite ?E.
  - now rewrite E.
Qed.

(** C5. Deleting a stored instructor [I] succeeds in both data-access
    modules and commits the store in which the instructor row is gone and
    every course that referred to [I] has an empty instructor slot (in
    [DatabaseManager] by an explicit UPDATE in the same transaction, in
    [utils.py] by the [ON DELETE SET NULL] of the schema). The courses
    survive: same ids and names in the same order, slots of other
    instructors untouched, students and enrollment rows unchanged, hence
    the same enrollment list for every course. *)
Theorem C5_delete_instructor_unassigns (w : world) (I : string) :
  has_person I (instructors (db w)) = true ->
  let d' := Spec.without_instructor I (db w) in
  DatabasePyqt.delete_instructor I w = (Py.Return true, commit d' w) /\
  Utils.delete_instructor I w = (true, commit d' w) /\
  has_person I (instructors d') = false /\
  (forall r, In r (courses d') -> instructor_id r <> Some I) /\
  (forall C, Spec.instructor_slot C (db w) = Some (Some I) ->
             Spec.instructor_slot C d' = Some None) /\
  (forall C i, Spec.instructor_slot C (db w) = Some i -> i <> Some I ->
               Spec.instructor_slot C d' = Some i) /\
  map course_id (courses d') = map course_id (courses (db w)) /\
  map course_name (courses d') = map course_name (courses (db w)) /\
  students d' = students (db w) /\
  registrations d' = registrations (db w) /\
  (forall C, Utils.course_students C d' = Utils.course_students C (db w)) /\
  (forall C, DatabasePyqt.get_course_students C d'
             = DatabasePyqt.get_course_students C (db w)).
Proof.
  intros HI d'. subst d'.
  split.
  { rewrite pyqt_delete_instructor.
    pose proof (rowcount_of_present _ _ HI) as Hpos.
    apply Z.ltb_lt in Hpos. now rewrite Hpos. }
  split; [now apply utils_delete_instructor|].
  split; [apply (existsb_delete_where (fun r => String.eqb (person_id r) I))|].
  split; [apply without_instructor_unreferenced|].
  split.
  { intros C H. rewrite without_instructor_slot, H. now rewrite String.eqb_refl. }
  split.
  { intros C i H Hi. rewrite without_instructor_slot, H.
    destruct i as [i|]; [|reflexivity].
    destruct (String.eqb i I) eqn:E; [|reflexivity].
    apply String.eqb_eq in E. congruence. }
  split; [apply without_instructor_ids|].
  split; [apply without_instructor_ids|].
  repeat split.
Qed.

Lemma C5_delete_instructor_unassigns_witness :
  let w := Scenario.school_enrolled in
  let d' := Spec.without_instructor "I1" (db w) in
  DatabasePyqt.delete_instructor "I1" w = (Py.Return true, commit d' w) /\
  Utils.delete_instructor "I1" w = (true, commit d' w) /\
  has_person "I1" (instructors d') = false /\
  (forall r, In r (courses d') -> instructor_id r <> Some "I1") /\
  (forall C, Spec.instructor_slot C (db w) = Some (Some "I1") ->
             Spec.instructor_slot C d' = Some None) /\
  (forall C i, Spec.instructor_slot C (db w) = Some i -> i <> Some "I1" ->
               Spec.instructor_slot C d' = Some i) /\
  map course_id (courses d') = map course_id (courses (db w)) /\
  map course_name (courses d') = map course_name (courses (db w)) /\
  students d' = students (db w) /\
  registrations d' = registrations (db w) /\
  (forall C, Utils.course_students C d' = Utils.course_students C (db w)) /\
  (forall C, DatabasePyqt.get_course_students C d'
             = DatabasePyqt.get_course_students C (db w)).
Proof.
  apply (C5_delete_instructor_unassigns Scenario.school_enrolled "I1"). reflexivity.
Defined.

(** ** Inserting and updating person rows *)

Lemma insert_person_inr (sch : schema) (id nm : string) (ag : Z) (em : string)
    (t t' : list person_row) :
  insert_person sch id nm ag em t = inr t' ->
  t' = (t ++ [mk_person_row id nm ag em])%list /\
  has_person id t = false /\ has_email em t = false /\
  fits_int64 ag = true /\ (age_check sch = true -> 0 <= ag).
Proof.
  unfold insert_person.
  destruct (fits_int64 ag); simpl; [|discriminate].
  destruct (age_check sch && (ag <? 0)) eqn:Ec; [discriminate|].
  destruct (has_person id t); [discriminate|].
  destruct (has_email em t); [discriminate|].
  intros [= <-]. repeat split.
  intros Hc. rewrite Hc in Ec. simpl in Ec. now apply Z.ltb_ge in Ec.
Qed.

Lemma insert_person_fresh (sch : schema) (id nm : string) (ag : Z) (em : string)
    (t : list person_row) :
  fits_int64 ag = true -> 0 <= ag ->
  has_person id t = false -> has_email em t = false ->
  insert_person sch id nm ag em t = inr (t ++ [mk_person_row id nm ag em])%list.
Proof.
  intros Hfit Hage Hid Hem. unfold insert_person.
  rewrite Hfit, Hid, Hem. simpl.
  apply Z.ltb_ge in Hage. rewrite Hage, andb_false_r. reflexivity.
Qed.

Lemma find_person_added (id nm : string) (ag : Z) (em : string) (t : list person_row) :
  has_person id t = false ->
  find (fun r => String.eqb (person_id r) id) (t ++ [mk_person_row id nm ag em])%list
  = Some (mk_person_row id nm ag em).
Proof.
  intros H. rewrite (find_app_absent _ _ _ H). simpl. now rewrite String.eqb_refl.
Qed.

Lemma fits_int64_iff (z : Z) : fits_int64 z = true <-> - 2 ^ 63 <= z < 2 ^ 63.
Proof. unfold fits_int64. rewrite andb_true_iff, Z.leb_le, Z.ltb_lt. tauto. Qed.

(** [add_student] of [utils.py], when it answers [True]. *)
Lemma utils_add_student_True (name : string) (age : Py.value) (email sid : string)
    (w : world) :
  fst (Utils.add_student name age email sid w) = true ->
  Utils.get_student sid (db (snd (Utils.add_student name age email sid w)))
  = Some (mk_person_row sid name (Utils.int_or_0 age) email).
Proof.
  unfold Utils.add_student, Database.run. simpl.
  destruct (insert_person _ sid name (Utils.int_or_0 age) email (students (db w)))
    as [e|t'] eqn:E; simpl; [discriminate|].
  intros _. apply insert_person_inr in E as (-> & Hid & _).
  unfold Utils.get_student. simpl. now apply find_person_added.
Qed.

Lemma utils_add_student_fresh (name : string) (age : Py.value) (email sid : string)
    (w : world) :
  0 <= Utils.int_or_0 age < 2 ^ 63 ->
  has_person sid (students (db w)) = false ->
  has_email email (students (db w)) = false ->
  fst (Utils.add_student name age email sid w) = true.
Proof.
  intros Hage Hid Hem. unfold Utils.add_student, Database.run. simpl.
  rewrite insert_person_fresh; try assumption; [reflexivity| |lia].
  apply fits_int64_iff. lia.
Qed.





(** [update_student] of [utils.py] on a stored student whose new email is
    not used by another student. *)
Lemma utils_update_student_stored (sid name : string) (age : Py.value) (email : string)
    (w : world) :
  0 <= Utils.int_or_0 age < 2 ^ 63 ->
  has_person sid (students (db w)) = true ->
  has_email_elsewhere email sid (students (db w)) = false ->
  fst (Utils.update_student sid name age email w) = true /\
  Utils.get_student sid (db (snd (Utils.update_student sid name age email w)))
  = Some (mk_person_row sid name (Utils.int_or_0 age) email).
Proof.
  intros Hage Hid Hem. unfold Utils.update_student, Database.run. simpl.
  unfold update_person.
  assert (Hfit : fits_int64 (Utils.int_or_0 age) = true) by (apply fits_int64_iff; lia).
  assert (Hpos : (Utils.int_or_0 age <? 0) = false) by (apply Z.ltb_ge; lia).
  rewrite Hfit, Hid, Hem, Hpos. simpl. split; [reflexivity|].
  unfold Utils.get_student. simpl.
  rewrite find_update_where by reflexivity.
  apply existsb_find_some in Hid as (r & -> & Hr). simpl. rewrite Hr.
  apply String.eqb_eq in Hr. now rewrite Hr.
Qed.

(** C10. An [age] that does not parse as an integer is rejected by
    [valid_age], yet [add_student] and [update_student] of [utils.py] never
    consult [valid_age]: they behave exactly as if the age were 0. Hence a
    new student with fresh id and email is inserted with age 0, and a
    stored student whose new email is free is updated to age 0; both
    answer [True]. *)
Theorem C10_unparsable_age_becomes_0 (w : world) (name : string) (age : Py.value)
    (email sid : string) :
  Py.int age = None ->
  Utils.valid_age age = false /\
  Utils.add_student name age email sid w
  = Utils.add_student name (Py.PyInt 0) email sid w /\
  Utils.update_student sid name age email w
  = Utils.update_student sid name (Py.PyInt 0) email w /\
  (has_person sid (students (db w)) = false ->
   has_email email (students (db w)) = false ->
   fst (Utils.add_student name age email sid w) = true /\
   Utils.get_student sid (db (snd (Utils.add_student name age email sid w)))
   = Some (mk_person_row sid name 0 email)) /\
  (has_person sid (students (db w)) = true ->
   has_email_elsewhere email sid (students (db w)) = false ->
   fst (Utils.update_student sid name age email w) = true /\
   Utils.get_student sid (db (snd (Utils.update_student sid name age email w)))
   = Some (mk_person_row sid name 0 email)).
Proof.
  intros Hint.
  assert (H0 : Utils.int_or_0 age = 0) by (unfold Utils.int_or_0; now rewrite Hint).
  split; [unfold Utils.valid_age; now rewrite Hint|].
  split; [unfold Utils.add_student; now rewrite H0|].
  split; [unfold Utils.update_student; now rewrite H0|].
  split.
  - intros Hid Hem.
    assert (Hok : fst (Utils.add_student name age email sid w) = true)
      by (apply utils_add_student_fresh; rewrite ?H0; try assumption; lia).
    split; [assumption|].
    rewrite (utils_add_student_True _ _ _ _ _ Hok). now rewrite H0.
  - intros Hid Hem.
    rewrite <- H0. apply utils_update_student_stored; rewrite ?H0; try assumption; lia.
Qed.

Lemma C10_unparsable_age_becomes_0_witness :
  Utils.valid_age (Py.PyStr "abc") = false /\
  Utils.add_student "Bob" (Py.PyStr "abc") "bob@x.com" "S2" Scenario.school
  = Utils.add_student "Bob" (Py.PyInt 0) "bob@x.com" "S2" Scenario.school /\
  Utils.update_student "S2" "Bob" (Py.PyStr "abc") "bob@x.com" Scenario.school
  = Utils.update_student "S2" "Bob" (Py.PyInt 0) "bob@x.com" Scenario.school /\
  (has_person "S2" (students (db Scenario.school)) = false ->
   has_email "bob@x.com" (students (db Scenario.school)) = false ->
   fst (Utils.add_student "Bob" (Py.PyStr "abc") "bob@x.com" "S2" Scenario.school) = true /\
   Utils.get_student "S2"
     (db (snd (Utils.add_student "Bob" (Py.PyStr "abc") "bob@x.com" "S2" Scenario.school)))
   = Some (mk_person_row "S2" "Bob" 0 "bob@x.com")) /\
  (has_person "S2" (students (db Scenario.school)) = true ->
   has_email_elsewhere "bob@x.com" "S2" (students (db Scenario.school)) = false ->
   fst (Utils.update_student "S2" "Bob" (Py.PyStr "abc") "bob@x.com" Scenario.school) = true /\
   Utils.get_student "S2"
     (db (snd (Utils.update_student "S2" "Bob" (Py.PyStr "abc") "bob@x.com" Scenario.school)))
   = Some (mk_person_row "S2" "Bob" 0 "bob@x.com")).
Proof.
  apply (C10_unparsable_age_becomes_0 Scenario.school "Bob" (Py.PyStr "abc")
           "bob@x.com" "S2").
  reflexivity.
Defined.

(** ** [str.strip] *)

Lemma rstrip_idempotent (s : string) : Py.rstrip (Py.rstrip s) = Py.rstrip s.
Proof.
  induction s as [|c s IH]; simpl; [reflexivity|].
  destruct (Py.rstrip s) as [|a t] eqn:E.
  - destruct (Py.isspace c) eqn:Ec; simpl; [reflexivity|]. now rewrite Ec.
  - change (Py.rstrip (String c (String a t)))
      with (match Py.rstrip (String a t) with
            | EmptyString => if Py.isspace c then EmptyString else String c EmptyString
            | u => String c u
            end).
    now rewrite IH.
Qed.

Lemma rstrip_head (c : ascii) (s : string) :
  Py.isspace c = false -> exists t, Py.rstrip (String c s) = String c t.
Proof.
  intros Hc. simpl. destruct (Py.rstrip s) as [|a t].
  - rewrite Hc. now exists EmptyString.
  - now exists (String a t).
Qed.

Lemma lstrip_head (s : string) :
  Py.lstrip s = EmptyString \/
  exists c t, Py.lstrip s = String c t /\ Py.isspace c = false.
Proof.
  induction s as [|c s IH]; simpl; [now left|].
  destruct (Py.isspace c) eqn:Ec; [assumption|]. right. now exists c, s.
Qed.

Lemma lstrip_strip (s : string) : Py.lstrip (Py.strip s) = Py.strip s.
Proof.
  unfold Py.strip. destruct (lstrip_head s) as [-> | (c & t & -> & Hc)]; [reflexivity|].
  destruct (rstrip_head c t Hc) as [u ->]. simpl. now rewrite Hc.
Qed.

Lemma strip_idempotent (s : string) : Py.strip (Py.strip s) = Py.strip s.
Proof.
  unfold Py.strip at 1. rewrite lstrip_strip. unfold Py.strip.
  apply rstrip_idempotent.
Qed.

Lemma isspace_newline : Py.isspace Re.newline = true.
Proof. reflexivity. Qed.

(** A stripped string does not end with a newline. *)
Lemma rstrip_no_final_newline (s : string) :
  Re.without_final_newline (Py.rstrip s) = None.
Proof.
  induction s as [|c s IH]; simpl; [reflexivity|].
  destruct (Py.rstrip s) as [|a t] eqn:E.
  - destruct (Py.isspace c) eqn:Ec; simpl; [reflexivity|].
    destruct (Ascii.eqb c Re.newline) eqn:En; [|reflexivity].
    apply Ascii.eqb_eq in En. subst c. rewrite isspace_newline in Ec. discriminate.
  - change (Re.without_final_newline (String c (String a t)))
      with (option_map (String c) (Re.without_final_newline (String a t))).
    now rewrite IH.
Qed.

Lemma strip_no_final_newline (s : string) :
  Re.without_final_newline (Py.strip s) = None.
Proof. apply rstrip_no_final_newline. Qed.

(** On a stripped string [re.match] with a final [$] is a full match. *)
Lemma match_strip (r : Re.regex) (s : string) :
  Re.match_ r (Py.strip s) = Re.matches r (Py.strip s).
Proof.
  unfold Re.match_. rewrite strip_no_final_newline. apply orb_false_r.
Qed.

(** ** Comparing patterns *)

Create HintDb regex.
#[local] Hint Constructors Re.refines : regex.

Lemma refines_refl (r : Re.regex) : Re.refines r r.
Proof. induction r; auto with regex. Qed.

Lemma refines_nullable (r s : Re.regex) :
  Re.refines r s -> Re.nullable r = true -> Re.nullable s = true.
Proof.
  induction 1; simpl; auto; try discriminate.
  - rewrite !andb_true_iff. tauto.
  - rewrite !orb_true_iff. tauto.
Qed.

Lemma refines_derive (c : ascii) (r s : Re.regex) :
  Re.refines r s -> Re.refines (Re.derive c r) (Re.derive c s).
Proof.
  induction 1 as [r | | p q Hpq | r1 r2 s1 s2 H1 IH1 H2 IH2
                 | r1 r2 s1 s2 H1 IH1 H2 IH2 | r s H IH]; simpl; auto with regex.
  - destruct (p c) eqn:Ep; [rewrite (Hpq c Ep)|]; auto with regex.
  - constructor; [auto with regex|].
    destruct (Re.nullable r1) eqn:En; [|auto with regex].
    now rewrite (refines_nullable _ _ H1 En).
Qed.

Lemma refines_matches (s : string) :
  forall r1 r2, Re.refines r1 r2 -> Re.matches r1 s = true -> Re.matches r2 s = true.
Proof.
  induction s as [|c s IH]; simpl; intros r1 r2 H.
  - now apply refines_nullable.
  - apply IH. now apply refines_derive.
Qed.

Lemma letter_not_space (c : ascii) : Re.letter c = true -> Py.isspace c = false.
Proof.
  destruct c as [[] [] [] [] [] [] [] []]; vm_compute; congruence.
Qed.

Lemma local_char_ok (c : ascii) : Re.local_char c = true -> Re.not_at_not_space c = true.
Proof.
  destruct c as [[] [] [] [] [] [] [] []]; vm_compute; congruence.
Qed.

Lemma domain_char_ok (c : ascii) : Re.domain_char c = true -> Re.not_at_not_space c = true.
Proof.
  destruct c as [[] [] [] [] [] [] [] []]; vm_compute; congruence.
Qed.

(** Every string accepted by the pattern of [Person.valid_email] has the
    shape that the specification describes. *)
Lemma person_pattern_in_shape (e : string) :
  Re.matches Classes.email_pattern e = true -> Spec.email_shape e = true.
Proof.
  apply refines_matches.
  unfold Classes.email_pattern, Spec.email_shape_pattern, Re.plus, Re.at_least_2, Re.lit.
  repeat first
    [ apply Re.refines_Seq | apply Re.refines_Star | apply Re.refines_Chars
    | apply local_char_ok | apply domain_char_ok | tauto ].
Qed.

(** ** Email validation *)

Lemma Student_init_bad_email (n : string) (a : Z) (e i : string) :
  Re.match_ Classes.email_pattern e = false ->
  exists m, Classes.Student_init n a e i = Py.Raise (Py.ValueError m).
Proof.
  intros He. unfold Classes.Student_init, Classes.valid_name, Classes.valid_age,
    Classes.valid_email, Classes.non_empty.
  destruct (Py.truthy (Py.strip n)); simpl; [|eauto].
  destruct (a <? 0); simpl; [eauto|].
  rewrite He. simpl. eauto.
Qed.

(** An email accepted by the [Student] constructor has the specified
    shape, provided it does not end with a newline. *)
Lemma shape_of_valid_email (e : string) :
  Re.without_final_newline e = None ->
  Spec.email_shape e = false ->
  Re.match_ Classes.email_pattern e = false.
Proof.
  intros Hnl Hshape. unfold Re.match_. rewrite Hnl, orb_false_r.
  destruct (Re.matches Classes.email_pattern e) eqn:E; [|reflexivity].
  apply person_pattern_in_shape in E. congruence.
Qed.

(** Because [$] also matches before a final newline, the constructor
    accepts an address followed by a newline. *)
Example valid_email_final_newline :
  let e := "ann@x.com" ++ String Re.newline "" in
  Spec.email_shape e = false /\ Classes.valid_email e = Py.Return e.
Proof. split; reflexivity. Qed.

(** The pattern of [utils.valid_email] is wider than the specified shape:
    any top-level domain of one character passes. *)
Example utils_valid_email_short_tld :
  Spec.email_shape "a@b.c" = false /\ Utils.valid_email "a@b.c" = true.
Proof. split; reflexivity. Qed.

(** C6 as stated fails for [utils.py]: [add_student] checks nothing about
    the email and stores the row. *)
Lemma C6_counterexample :
  Spec.email_shape "bad-email" = false /\
  Utils.add_student "Ann" (Py.PyInt 20) "bad-email" "S1" Scenario.blank
  = (true,
     mk_world (mk_database [mk_person_row "S1" "Ann" 20 "bad-email"] [] [] []) []).
Proof. split; reflexivity. Qed.

(** C6, amended. A student creation whose trimmed email does not have the
    shape [local@domain.tld] fails wherever the [Student] constructor is
    involved: the constructor raises [ValueError], and the PyQt handler
    [StudentsTab._create] ends in an error box with the store and the
    console untouched. In the tkinter handler [add_or_save_student] the
    creation is refused, with the store untouched, whenever
    [utils.valid_email] rejects the trimmed email, which it does for
    ["bad-email"]. The repository function [utils.add_student] itself
    performs no check of the email. *)
Theorem C6_invalid_email_not_persisted (w : world) (s_name s_age s_email s_id : string) :
  Spec.email_shape (Py.strip s_email) = false ->
  (forall a, exists m,
     Classes.Student_init s_name a (Py.strip s_email) s_id = Py.Raise (Py.ValueError m)) /\
  (exists m,
     PyQt.StudentsTab._create s_name s_age s_email s_id w
     = (PyQt.err_exception "Create failed: " (Py.ValueError m), w)) /\
  (forall msg sel,
     Utils.valid_email (Py.strip s_email) = false ->
     exists text,
       TkinterUi.add_or_save_student
         (TkinterUi.mk_gui s_name s_age s_email s_id msg sel) w
       = (TkinterUi.mk_gui s_name s_age s_email s_id text sel, w)) /\
  Spec.email_shape "bad-email" = false /\
  Utils.valid_email "bad-email" = false.
Proof.
  intros Hshape.
  assert (Hbad : Re.match_ Classes.email_pattern (Py.strip s_email) = false)
    by (apply shape_of_valid_email; [apply strip_no_final_newline | assumption]).
  split; [intros a; now apply Student_init_bad_email|].
  split.
  { unfold PyQt.StudentsTab._create.
    destruct (Py.int_of_str s_age) as [a|]; [|eauto].
    destruct (Student_init_bad_email (Py.strip s_name) a _ (Py.strip s_id) Hbad)
      as [m ->]. eauto. }
  split; [|split; reflexivity].
  intros msg sel Hv. unfold TkinterUi.add_or_save_student. simpl.
  destruct (negb (Py.truthy (Py.strip s_name)) || negb (Py.truthy (Py.strip s_id)));
    [eexists; reflexivity|].
  destruct (negb (Utils.valid_age (Py.PyStr (Py.strip s_age))));
    [eexists; reflexivity|].
  rewrite Hv. simpl. eexists; reflexivity.
Qed.

Lemma C6_invalid_email_not_persisted_witness :
  (forall a, exists m,
     Classes.Student_init "Ann" a (Py.strip "bad-email") "S1" = Py.Raise (Py.ValueError m)) /\
  (exists m,
     PyQt.StudentsTab._create "Ann" "20" "bad-email" "S1" Scenario.blank
     = (PyQt.err_exception "Create failed: " (Py.ValueError m), Scenario.blank)) /\
  (forall msg sel,
     Utils.valid_email (Py.strip "bad-email") = false ->
     exists text,
       TkinterUi.add_or_save_student
         (TkinterUi.mk_gui "Ann" "20" "bad-email" "S1" msg sel) Scenario.blank
       = (TkinterUi.mk_gui "Ann" "20" "bad-email" "S1" text sel, Scenario.blank)) /\
  Spec.email_shape "bad-email" = false /\
  Utils.valid_email "bad-email" = false.
Proof.
  apply (C6_invalid_email_not_persisted Scenario.blank "Ann" "20" "bad-email" "S1").
  reflexivity.
Defined.

(** ** Creating and reading back through [DatabaseManager] *)




Lemma Instructor_init_Return (n : string) (a : Z) (e i : string) (o : Classes.Instructor) :
  Classes.Instructor_init n a e i = Py.Return o ->
  o = Classes.mk_Instructor (Py.strip n) a e (Py.strip i) [] /\
  Py.truthy (Py.strip n) = true /\ 0 <= a /\
  Re.match_ Classes.email_pattern e = true /\ Py.truthy (Py.strip i) = true.
Proof.
  unfold Classes.Instructor_init, Classes.valid_name, Classes.valid_instructor_id,
    Classes.valid_age, Classes.valid_email.
  destruct (Classes.non_empty _ n) as [n'|] eqn:En; simpl; [|discriminate].
  destruct (a <? 0) eqn:Ea; simpl; [discriminate|].
  destruct (Re.match_ Classes.email_pattern e) eqn:Ee; simpl; [|discriminate].
  destruct (Classes.non_empty _ i) as [i'|] eqn:Ei; simpl; [|discriminate].
  apply non_empty_Return in En as [-> Hn], Ei as [-> Hi].
  intros [= <-]. apply Z.ltb_ge in Ea. auto.
Qed.


Lemma Course_init_Return (cid cname : string) (io : option Classes.Instructor)
    (c : Classes.Course) :
  Classes.Course_init cid cname io = Py.Return c ->
  c = Classes.mk_Course (Py.strip cid) (Py.strip cname) io [] /\
  Py.truthy (Py.strip cid) = true /\ Py.truthy (Py.strip cname) = true.
Proof.
  unfold Classes.Course_init, Classes.valid_course_id, Classes.valid_course_name.
  destruct (Classes.non_empty _ cid) as [x|] eqn:Ec; simpl; [|discriminate].
  destruct (Classes.non_empty _ cname) as [y|] eqn:En; simpl; [|discriminate].
  apply non_empty_Return in Ec as [-> Hc], En as [-> Hn].
  intros [= <-]. auto.
Qed.















(** ** Invariants of the store *)

Lemma has_person_In (id : string) (t : list person_row) :
  has_person id t = true <-> In id (map person_id t).
Proof.
  unfold has_person. rewrite existsb_exists, in_map_iff.
  split; intros (r & H1 & H2).
  - apply String.eqb_eq in H2. eauto.
  - exists r. split; [assumption|]. now apply String.eqb_eq.
Qed.

Lemma has_course_In (id : string) (t : list course_row) :
  has_course id t = true <-> In id (map course_id t).
Proof.
  unfold has_course. rewrite existsb_exists, in_map_iff.
  split; intros (r & H1 & H2).
  - apply String.eqb_eq in H2. eauto.
  - exists r. split; [assumption|]. now apply String.eqb_eq.
Qed.

Lemma NoDup_snoc {A : Type} (l : list A) (x : A) :
  NoDup l -> ~ In x l -> NoDup (l ++ [x]).
Proof.
  intros Hl Hx. apply NoDup_app; [assumption | repeat constructor; auto |].
  intros y Hy [<- | []]. contradiction.
Qed.

Lemma NoDup_map_delete_where {A B : Type} (f : A -> B) (p : A -> bool) (l : list A) :
  NoDup (map f l) -> NoDup (map f (delete_where p l)).
Proof.
  unfold delete_where.
  induction l as [|x l IH]; simpl; intros H; [constructor|].
  inversion H as [|? ? Hx Hl]; subst.
  destruct (p x); simpl; [auto|].
  constructor; [|auto].
  rewrite in_map_iff in *. intros (y & Hy & Hin).
  apply filter_In in Hin as [Hin _]. eauto.
Qed.

Lemma map_update_where {A B : Type} (f : A -> B) (p : A -> bool) (g : A -> A)
    (l : list A) :
  (forall r, f (g r) = f r) -> map f (update_where p g l) = map f l.
Proof.
  intros H. unfold update_where. rewrite map_map. apply map_ext.
  intros r. now destruct (p r).
Qed.

Lemma NoDup_delete_where {A : Type} (p : A -> bool) (l : list A) :
  NoDup l -> NoDup (delete_where p l).
Proof. intros H. now apply NoDup_filter. Qed.

Lemma insert_person_keys (sch : schema) (id nm : string) (ag : Z) (em : string)
    (t t' : list person_row) :
  NoDup (map person_id t) ->
  insert_person sch id nm ag em t = inr t' -> NoDup (map person_id t').
Proof.
  intros Hnd H. apply insert_person_inr in H as (-> & Hid & _).
  rewrite map_app. simpl. apply NoDup_snoc; [assumption|].
  intros Hin. apply has_person_In in Hin. congruence.
Qed.

Lemma update_person_keys (sch : schema) (nm : string) (ag : Z) (em id : string)
    (t t' : list person_row) (n : Z) :
  NoDup (map person_id t) ->
  update_person sch nm ag em id t = inr (t', n) -> NoDup (map person_id t').
Proof.
  intros Hnd. unfold update_person.
  destruct (negb (fits_int64 ag)); [discriminate|].
  destruct (negb (has_person id t)); [now intros [= <- _]|].
  destruct (age_check sch && (ag <? 0)); [discriminate|].
  destruct (has_email_elsewhere em id t); [discriminate|].
  intros [= <- _]. now rewrite map_update_where.
Qed.

(** Every statement keeps the primary keys unique, whatever the schema
    options and the connection. *)
Lemma execute_keys_unique (sch : schema) (conn : connection) (q : statement)
    (d d' : database) (n : Z) :
  Spec.keys_unique d -> execute sch conn q d = inr (d', n) -> Spec.keys_unique d'.
Proof.
  intros (Hs & Hi & Hc & Hr).
  destruct q; simpl.
  - destruct (insert_person _ _ _ _ _ _) eqn:E; [discriminate|]. intros [= <- _].
    repeat split; simpl; eauto using insert_person_keys.
  - destruct (update_person _ _ _ _ _ _) as [|[t k]] eqn:E; [discriminate|].
    intros [= <- _]. repeat split; simpl; eauto using update_person_keys.
  - intros [= <- _]. repeat split; simpl; auto using NoDup_map_delete_where.
    destruct (_ && _); auto using NoDup_delete_where.
  - destruct (insert_person _ _ _ _ _ _) eqn:E; [discriminate|]. intros [= <- _].
    repeat split; simpl; eauto using insert_person_keys.
  - destruct (update_person _ _ _ _ _ _) as [|[t k]] eqn:E; [discriminate|].
    intros [= <- _]. repeat split; simpl; eauto using update_person_keys.
  - destruct (_ && _); [destruct (instructor_on_delete sch); [|discriminate]|];
      intros [= <- _]; repeat split; simpl; auto using NoDup_map_delete_where.
    now rewrite map_update_where.
  - destruct (has_course _ _) eqn:E; [discriminate|].
    destruct (negb _); [discriminate|]. intros [= <- _].
    repeat split; simpl; auto.
    rewrite map_app. simpl. apply NoDup_snoc; [assumption|].
    intros Hin. apply has_course_In in Hin. congruence.
  - destruct (negb (has_course _ _)); [now intros [= <- _]|].
    destruct (negb _); [discriminate|]. intros [= <- _].
    repeat split; simpl; auto. now rewrite map_update_where.
  - destruct (negb (has_course _ _)); [now intros [= <- _]|].
    destruct (negb _); [discriminate|]. intros [= <- _].
    repeat split; simpl; auto. now rewrite map_update_where.
  - intros [= <- _]. repeat split; simpl; auto. now rewrite map_update_where.
  - intros [= <- _]. repeat split; simpl; auto using NoDup_map_delete_where.
    destruct (_ && _); auto using NoDup_delete_where.
  - destruct (has_registration _ _ _) eqn:E; [now intros [= <- _]|].
    destruct (_ && _); [discriminate|]. intros [= <- _].
    repeat split; simpl; auto.
    apply NoDup_snoc; [assumption|].
    intros Hin. apply has_registration_In in Hin. congruence.
  - intros [= <- _]. repeat split; simpl; auto using NoDup_delete_where.
  - intros [= <- _]. repeat split; simpl; auto using NoDup_delete_where.
  - intros [= <- _]. repeat split; simpl; auto using NoDup_delete_where.
Qed.

Lemma empty_keys_unique : Spec.keys_unique empty.
Proof. repeat split; constructor. Qed.

(** [Database.run] and the transactions of [DatabaseManager] keep the keys
    unique. *)
Lemma run_keys_unique (q : statement) (c : bool) (w : world) :
  Spec.keys_unique (db w) -> Spec.keys_unique (db (snd (Database.run q c w))).
Proof.
  intros H. unfold Database.run.
  destruct (execute _ _ q (db w)) as [e|[d' n]] eqn:E; simpl; [assumption|].
  destruct c; simpl; [|assumption]. eapply execute_keys_unique; eassumption.
Qed.

Lemma execute_all_keys_unique (qs : list statement) (d d' : database) (n n' : Z) :
  Spec.keys_unique d -> DatabasePyqt.execute_all qs d n = inr (d', n') ->
  Spec.keys_unique d'.
Proof.
  revert d n. induction qs as [|q qs IH]; simpl; intros d n H.
  - now intros [= <- _].
  - destruct (execute _ _ q d) as [e|[d1 n1]] eqn:E; [discriminate|].
    apply IH. eapply execute_keys_unique; eassumption.
Qed.

(** A transaction is all or nothing: the store it leaves is either the
    one it found or the one reached by all of its statements. *)
Lemma transaction_atomic (label : string) (qs : list statement) (v : Z -> bool)
    (w : world) :
  db (snd (DatabasePyqt.transaction label qs v w)) = db w \/
  exists n, DatabasePyqt.execute_all qs (db w) 0
            = inr (db (snd (DatabasePyqt.transaction label qs v w)), n).
Proof.
  unfold DatabasePyqt.transaction.
  destruct (DatabasePyqt.execute_all qs (db w) 0) as [e|[d' n]]; simpl.
  - left. now destruct (Py.is_sqlite3_Error e).
  - right. now exists n.
Qed.

Lemma transaction_keys_unique (label : string) (qs : list statement) (v : Z -> bool)
    (w : world) :
  Spec.keys_unique (db w) ->
  Spec.keys_unique (db (snd (DatabasePyqt.transaction label qs v w))).
Proof.
  intros H. destruct (transaction_atomic label qs v w) as [-> | [n E]];
    [assumption|]. eapply execute_all_keys_unique; eassumption.
Qed.

(** Students added as constructed objects keep the stored ids stripped. *)
Lemma pyqt_add_student_ids_stripped (n : string) (a : Z) (e i : string)
    (s : Classes.Student) (w : world) :
  Classes.Student_init n a e i = Py.Return s ->
  Spec.student_ids_stripped (db w) ->
  Spec.student_ids_stripped (db (snd (DatabasePyqt.add_student s w))).
Proof.
  intros Hinit Hw. apply Student_init_Return in Hinit as (-> & _).
  unfold DatabasePyqt.add_student, DatabasePyqt.transaction. simpl.
  destruct (insert_person _ _ _ _ _ _) as [ex|t'] eqn:E; simpl.
  - now destruct (Py.is_sqlite3_Error ex).
  - apply insert_person_inr in E as (-> & _).
    intros r Hin. simpl in Hin. apply in_app_or in Hin as [Hin | [<- | []]].
    + now apply Hw.
    + simpl. apply strip_idempotent.
Qed.

(** ** Scenarios of the specification, run on both modules *)

(** Create Ann and Algo, enroll, read, delete Ann, read again:
    [utils.py]. *)
Example scenario_enroll_delete_utils :
  let w0 := Scenario.blank in
  let (a1, w1) := Utils.add_student "Ann" (Py.PyInt 20) "ann@x.com" "S1" w0 in
  let (a2, w2) := Utils.add_course "C1" "Algo" None w1 in
  let (a3, w3) := Utils.register_student_to_course "S1" "C1" w2 in
  let (a4, w4) := Utils.delete_student "S1" w3 in
  (a1, a2, a3, a4) = (true, true, true, true) /\
  Utils.course_student_ids "C1" (db w3) = ["S1"] /\
  Utils.course_student_ids "C1" (db w4) = [] /\
  registrations (db w4) = [].
Proof. vm_compute. repeat split. Qed.

(** The same scenario through [DatabaseManager]. *)
Example scenario_enroll_delete_pyqt :
  let w0 := Scenario.blank in
  let (a1, w1) :=
    DatabasePyqt.add_student (Classes.mk_Student "Ann" 20 "ann@x.com" "S1" []) w0 in
  let (a2, w2) := DatabasePyqt.add_course (Classes.mk_Course "C1" "Algo" None []) w1 in
  let (a3, w3) := DatabasePyqt.register_student_in_course "S1" "C1" w2 in
  let (a4, w4) := DatabasePyqt.delete_student "S1" w3 in
  (a1, a2, a3, a4) = (Py.Return true, Py.Return true, Py.Return true, Py.Return true) /\
  Py.bind (DatabasePyqt.get_course_students "C1" (db w3))
          (fun l => Py.Return (map Classes.student_id l)) = Py.Return ["S1"] /\
  DatabasePyqt.get_course_students "C1" (db w4) = Py.Return [] /\
  registrations (db w4) = [].
Proof. vm_compute. repeat split. Qed.

(** Create Ira and Algo, assign, assign again, unassign:
    [DatabaseManager] refuses the repeated assignment. *)
Example scenario_assign_pyqt :
  let w0 := Scenario.blank in
  let (a1, w1) :=
    DatabasePyqt.add_instructor (Classes.mk_Instructor "Ira" 41 "ira@x.com" "I1" []) w0 in
  let (a2, w2) := DatabasePyqt.add_course (Classes.mk_Course "C1" "Algo" None []) w1 in
  let (a3, w3) := DatabasePyqt.assign_instructor_to_course "I1" "C1" w2 in
  let (a4, w4) := DatabasePyqt.assign_instructor_to_course "I1" "C1" w3 in
  let (a5, w5) := DatabasePyqt.unassign_instructor_from_course "C1" w4 in
  (a1, a2, a3, a4, a5)
  = (Py.Return true, Py.Return true, Py.Return true, Py.Return false, Py.Return true) /\
  Spec.instructor_slot "C1" (db w3) = Some (Some "I1") /\
  db w4 = db w3 /\
  Spec.instructor_slot "C1" (db w5) = Some None.
Proof. vm_compute. repeat split. Qed.

(** The same assignments through [utils.py]: the repeated assignment is a
    successful no-op. *)
Example scenario_assign_utils :
  let w0 := Scenario.blank in
  let (a1, w1) := Utils.add_instructor "Ira" (Py.PyInt 41) "ira@x.com" "I1" w0 in
  let (a2, w2) := Utils.add_course "C1" "Algo" None w1 in
  let (a3, w3) := Utils.assign_instructor_to_course "I1" "C1" w2 in
  let (a4, w4) := Utils.assign_instructor_to_course "I1" "C1" w3 in
  (a1, a2, a3, a4) = (true, true, true, true) /\
  Spec.instructor_slot "C1" (db w3) = Some (Some "I1") /\
  w4 = w3.
Proof. vm_compute. repeat split. Qed.

(** An unparsable age on an update of a stored student. *)
Example update_student_unparsable_age :
  Utils.update_student "S1" "Ann" (Py.PyStr "twenty") "ann@x.com" Scenario.school
  = (true,
     mk_world (mk_database [mk_person_row "S1" "Ann" 0 "ann@x.com"]
                 [Scenario.ira] [Scenario.algo; Scenario.data] []) []).
Proof. reflexivity. Qed.

(** [int] and [strip] on sample texts. *)
Example int_of_str_samples :
  Py.int_of_str " 20 " = Some 20 /\ Py.int_of_str "-7" = Some (-7) /\
  Py.int_of_str "1_000" = Some 1000 /\ Py.int_of_str "1__0" = None /\
  Py.int_of_str "abc" = None /\ Py.int_of_str "" = None /\
  Py.int_of_str "12 3" = None /\ Py.int_of_str "+" = None /\
  Py.int_of_str "007" = Some 7 /\ Py.int_of_str "5_" = None.
Proof. repeat split; reflexivity. Qed.

Example strip_samples :
  Py.strip "  a b  " = "a b" /\ Py.strip "   " = "" /\ Py.strip "x" = "x".
Proof. repeat split; reflexivity. Qed.

Example valid_email_samples :
  Utils.valid_email " ann@x.com " = true /\ Utils.valid_email "a@@b.c" = false /\
  Utils.valid_email "a b@c.de" = false /\
  Classes.valid_email "ann@x.com" = Py.Return "ann@x.com" /\
  Classes.valid_email "a@b.c" = Py.Raise (Py.ValueError "Invalid email format").
Proof. repeat split; reflexivity. Qed.

(** [int] refuses a text of more than 4300 digits, whatever the digits. *)
Lemma int_of_str_over_limit (s : string) :
  (Py.int_max_str_digits < Py.count_digits s)%N -> Py.int_of_str s = None.
Proof.
  intros H. unfold Py.int_of_str. apply N.ltb_lt in H. now rewrite H.
Qed.

(** At the limit: 4300 digits are converted, 4301 are not, leading zeros
    count; such an age does not pass [valid_age], and [add_student] stores
    it as 0. *)
Example int_of_str_limit_samples :
  Py.int_of_str (Scenario.replicate 4300 "9") = Some (10 ^ 4300 - 1) /\
  Py.int_of_str (Scenario.replicate 4301 "9") = None /\
  Py.int_of_str (Scenario.replicate 4300 "0" ++ "7") = None /\
  Utils.valid_age (Py.PyStr (Scenario.replicate 4301 "9")) = false /\
  Utils.add_student "Ann" (Py.PyStr (Scenario.replicate 4301 "9")) "ann@x.com" "S1"
                    Scenario.blank
  = (true, mk_world (mk_database [mk_person_row "S1" "Ann" 0 "ann@x.com"] [] [] []) []).
Proof. repeat apply conj; vm_compute; reflexivity. Qed.

(** The joins of [DatabaseManager] answer in the order of the keys, not in
    the order in which the rows were created. *)
Example pyqt_join_order_samples :
  map course_id (DatabasePyqt.student_course_rows "S3" Scenario.shuffled)
  = ["C1"; "C2"; "C3"] /\
  map person_id (DatabasePyqt.course_student_rows "C3" Scenario.shuffled)
  = ["S1"; "S2"; "S3"] /\
  map person_id (DatabasePyqt.course_student_rows "C1" Scenario.shuffled)
  = ["S1"; "S2"; "S3"].
Proof. repeat split; reflexivity. Qed.

(* ===================================================================== *)
(** * Further properties of the data-access code                          *)
(* ===================================================================== *)

(** ** Deleting a course, deleting what is not there *)

Lemma existsb_delete_where_other {A : Type} (p q : A -> bool) (t : list A) :
  (forall x, p x = true -> q x = false) ->
  existsb p (delete_where q t) = existsb p t.
Proof.
  intros H. unfold delete_where.
  induction t as [|x t IH]; simpl; [reflexivity|].
  destruct (q x) eqn:Eq; simpl.
  - destruct (p x) eqn:Ep; [|assumption]. apply H in Ep. congruence.
  - now rewrite IH.
Qed.

Lemma pyqt_delete_course (C : string) (w : world) :
  DatabasePyqt.delete_course C w
  = (Py.Return (0 <? rowcount_of (fun r => String.eqb (course_id r) C) (courses (db w))),
     commit (Spec.without_course C (db w)) w).
Proof. reflexivity. Qed.

(** Deleting a stored course succeeds in both data-access modules and
    commits the same store: the course row and every enrollment row of the
    course are gone, the students, the instructors and the enrollments in
    other courses are as before. *)
Theorem delete_course_cascade (w : world) (C : string) :
  has_course C (courses (db w)) = true ->
  let d' := Spec.without_course C (db w) in
  DatabasePyqt.delete_course C w = (Py.Return true, commit d' w) /\
  Utils.delete_course C w = (true, commit d' w) /\
  has_course C (courses d') = false /\
  (forall S, has_registration S C (registrations d') = false) /\
  (forall S, ~ In C (Utils.student_courses S d')) /\
  (forall S C', C' <> C ->
     has_registration S C' (registrations d')
     = has_registration S C' (registrations (db w))) /\
  students d' = students (db w) /\ instructors d' = instructors (db w).
Proof.
  intros HC d'. subst d'.
  assert (Hnone : forall S,
            has_registration S C (registrations (Spec.without_course C (db w))) = false).
  { intros S.
    destruct (has_registration S C (registrations (Spec.without_course C (db w))))
      eqn:H; [|reflexivity].
    apply has_registration_In in H. simpl in H.
    apply delete_where_spec in H as [_ H]. simpl in H.
    now rewrite String.eqb_refl in H. }
  split.
  { rewrite pyqt_delete_course.
    pose proof (rowcount_of_present _ _ HC) as Hpos.
    apply Z.ltb_lt in Hpos. now rewrite Hpos. }
  split.
  { unfold Utils.delete_course, Database.run. simpl. now rewrite HC. }
  split; [apply (existsb_delete_where (fun r => String.eqb (course_id r) C))|].
  split; [exact Hnone|].
  split.
  { intros S Hin. unfold Utils.student_courses in Hin.
    apply order_by_In, in_map_iff in Hin as ([s c] & Hc & Hin). simpl in Hc. subst c.
    apply filter_In in Hin as [Hin Hs]. simpl in Hs. apply String.eqb_eq in Hs. subst s.
    apply (proj2 (has_registration_In S C _)) in Hin. rewrite Hnone in Hin.
    discriminate. }
  split; [|split; reflexivity].
  intros S C' Hneq. unfold has_registration. simpl.
  apply existsb_delete_where_other.
  intros r Hr. apply same_registration_iff in Hr. subst r. simpl.
  now apply String.eqb_neq.
Qed.

Lemma delete_course_cascade_witness :
  let w := Scenario.school_enrolled in
  let d' := Spec.without_course "C1" (db w) in
  DatabasePyqt.delete_course "C1" w = (Py.Return true, commit d' w) /\
  Utils.delete_course "C1" w = (true, commit d' w) /\
  has_course "C1" (courses d') = false /\
  (forall S, has_registration S "C1" (registrations d') = false) /\
  (forall S, ~ In "C1" (Utils.student_courses S d')) /\
  (forall S C', C' <> "C1" ->
     has_registration S C' (registrations d')
     = has_registration S C' (registrations (db w))) /\
  students d' = students (db w) /\ instructors d' = instructors (db w).
Proof.
  apply (delete_course_cascade Scenario.school_enrolled "C1"). reflexivity.
Defined.

(** Deleting a student id that is not stored. [utils.delete_student]
    answers [True] and changes nothing. [DatabaseManager.delete_student]
    answers [False], yet its first statement has run: every enrollment row
    that names the id is removed, so the store is unchanged only when no
    such row existed. *)
Theorem delete_student_not_stored (w : world) (S : string) :
  has_person S (students (db w)) = false ->
  Utils.delete_student S w = (true, w) /\
  fst (DatabasePyqt.delete_student S w) = Py.Return false /\
  students (db (snd (DatabasePyqt.delete_student S w))) = students (db w) /\
  registrations (db (snd (DatabasePyqt.delete_student S w)))
  = delete_where (fun r => String.eqb (fst r) S) (registrations (db w)) /\
  (db (snd (DatabasePyqt.delete_student S w)) = db w <->
   existsb (fun r => String.eqb (fst r) S) (registrations (db w)) = false).
Proof.
  intros HS.
  assert (Hst : delete_where (fun r => String.eqb (person_id r) S) (students (db w))
                = students (db w)) by now apply delete_where_absent.
  split.
  { unfold Utils.delete_student, Database.run. simpl.
    rewrite HS, Hst, database_eta. simpl. now rewrite commit_same. }
  rewrite pyqt_delete_student. simpl.
  rewrite (rowcount_of_absent _ _ HS). simpl.
  split; [reflexivity|]. split; [exact Hst|]. split; [reflexivity|].
  unfold Spec.without_student. rewrite Hst. split.
  - intros H. apply (f_equal registrations) in H. simpl in H.
    destruct (existsb (fun r => String.eqb (fst r) S) (registrations (db w))) eqn:E;
      [|reflexivity].
    apply existsb_exists in E as (r & Hin & Hr).
    rewrite <- H in Hin. apply delete_where_spec in Hin as [_ Hin]. congruence.
  - intros H. rewrite (delete_where_absent _ _ H). apply database_eta.
Qed.

Lemma delete_student_not_stored_witness :
  let w := mk_world (mk_database [] [] [Scenario.algo] [("S9", "C1")]) [] in
  Utils.delete_student "S9" w = (true, w) /\
  fst (DatabasePyqt.delete_student "S9" w) = Py.Return false /\
  students (db (snd (DatabasePyqt.delete_student "S9" w))) = students (db w) /\
  registrations (db (snd (DatabasePyqt.delete_student "S9" w)))
  = delete_where (fun r => String.eqb (fst r) "S9") (registrations (db w)) /\
  (db (snd (DatabasePyqt.delete_student "S9" w)) = db w <->
   existsb (fun r => String.eqb (fst r) "S9") (registrations (db w)) = false).
Proof.
  apply (delete_student_not_stored
           (mk_world (mk_database [] [] [Scenario.algo] [("S9", "C1")]) []) "S9").
  reflexivity.
Defined.

(** ** Creating and updating rows: when it succeeds and what a refusal
    leaves behind *)

Lemma insert_person_inl (sch : schema) (id nm : string) (ag : Z) (em : string)
    (t : list person_row) (e : Py.exception) :
  insert_person sch id nm ag em t = inl e ->
  fits_int64 ag = false \/ (age_check sch = true /\ ag < 0) \/
  has_person id t = true \/ has_email em t = true.
Proof.
  unfold insert_person.
  destruct (fits_int64 ag); simpl; [|auto].
  destruct (age_check sch) eqn:Ec; simpl.
  - destruct (ag <? 0) eqn:Ea; [apply Z.ltb_lt in Ea; auto|].
    destruct (has_person id t); [auto|]. destruct (has_email em t); [auto|discriminate].
  - destruct (has_person id t); [auto|]. destruct (has_email em t); [auto|discriminate].
Qed.

Lemma utils_add_student_cases (w : world) (name : string) (age : Py.value)
    (email sid : string) :
  let a := Utils.int_or_0 age in
  let r := Utils.add_student name age email sid w in
  (fst r = true <->
   0 <= a < 2 ^ 63 /\ has_person sid (students (db w)) = false /\
   has_email email (students (db w)) = false) /\
  (fst r = true ->
   snd r = commit (Spec.add_student_row (mk_person_row sid name a email) (db w)) w) /\
  (fst r = false -> db (snd r) = db w).
Proof.
  intros a r. subst a r.
  unfold Utils.add_student, Database.run. simpl.
  destruct (insert_person Database.init_db sid name (Utils.int_or_0 age) email
              (students (db w))) as [e|t'] eqn:E; simpl.
  - split; [split; [discriminate|]|split; [discriminate|reflexivity]].
    intros (Ha & Hid & Hem).
    apply insert_person_inl in E as [E | [[_ E] | [E | E]]]; try congruence; try lia.
    assert (fits_int64 (Utils.int_or_0 age) = true) by (apply fits_int64_iff; lia).
    congruence.
  - apply insert_person_inr in E as (-> & Hid & Hem & Hfit & Hage).
    apply fits_int64_iff in Hfit. specialize (Hage eq_refl).
    split; [split; [intros _; repeat split; try assumption; lia | reflexivity]|].
    split; [reflexivity | discriminate].
Qed.

(** [utils.add_student] answers [True] exactly when the age (0 if it did
    not parse) lies in [0, 2^63) and neither the id nor the email is in the
    table; it then appends exactly that row and prints nothing. Whenever it
    answers [False] the store is unchanged. *)
Theorem utils_add_student_outcome (w : world) (name : string) (age : Py.value)
    (email sid : string) :
  let a := Utils.int_or_0 age in
  let r := Utils.add_student name age email sid w in
  (fst r = true <->
   0 <= a < 2 ^ 63 /\ has_person sid (students (db w)) = false /\
   has_email email (students (db w)) = false) /\
  (fst r = true ->
   snd r = commit (Spec.add_student_row (mk_person_row sid name a email) (db w)) w) /\
  (fst r = false -> db (snd r) = db w).
Proof.
  intros a r. subst a r.
  unfold Utils.add_student, Database.run. simpl.
  destruct (insert_person Database.init_db sid name (Utils.int_or_0 age) email
              (students (db w))) as [e|t'] eqn:E; simpl.
  - split; [split; [discriminate|]|split; [discriminate|reflexivity]].
    intros (Ha & Hid & Hem).
    apply insert_person_inl in E as [E | [[_ E] | [E | E]]]; try congruence; try lia.
    assert (fits_int64 (Utils.int_or_0 age) = true) by (apply fits_int64_iff; lia).
    congruence.
  - apply insert_person_inr in E as (-> & Hid & Hem & Hfit & Hage).
    apply fits_int64_iff in Hfit. specialize (Hage eq_refl).
    split; [split; [intros _; repeat split; try assumption; lia | reflexivity]|].
    split; [reflexivity | discriminate].
Qed.

Lemma pyqt_add_student_cases (w : world) (s : Classes.Student) :
  let row := mk_person_row (Classes.student_id s) (Classes.student_name s)
                           (Classes.student_age s) (Classes.student_email s) in
  let fresh := negb (has_person (Classes.student_id s) (students (db w)))
               && negb (has_email (Classes.student_email s) (students (db w))) in
  DatabasePyqt.add_student s w
  = if negb (fits_int64 (Classes.student_age s)) then (Py.Raise Py.OverflowError, w)
    else if fresh then (Py.Return true, commit (Spec.add_student_row row (db w)) w)
    else (Py.Return false,
          print (Py.TextExc "Error adding student: " Py.IntegrityError) w).
Proof.
  intros row fresh. subst row fresh.
  unfold DatabasePyqt.add_student, DatabasePyqt.transaction. simpl.
  unfold insert_person. simpl.
  destruct (fits_int64 (Classes.student_age s)); simpl; [|reflexivity].
  destruct (has_person _ _); simpl; [reflexivity|].
  destruct (has_email _ _); reflexivity.
Qed.

(** [DatabaseManager.add_student]: a duplicate id or email is answered
    with [False], printed, and leaves the store unchanged; an age beyond 64
    bits escapes as [OverflowError]; otherwise the row is appended. The
    method never refuses a negative age (its schema has no [CHECK]). *)
Theorem pyqt_add_student_outcome (w : world) (s : Classes.Student) :
  let row := mk_person_row (Classes.student_id s) (Classes.student_name s)
                           (Classes.student_age s) (Classes.student_email s) in
  let fresh := negb (has_person (Classes.student_id s) (students (db w)))
               && negb (has_email (Classes.student_email s) (students (db w))) in
  DatabasePyqt.add_student s w
  = if negb (fits_int64 (Classes.student_age s)) then (Py.Raise Py.OverflowError, w)
    else if fresh then (Py.Return true, commit (Spec.add_student_row row (db w)) w)
    else (Py.Return false,
          print (Py.TextExc "Error adding student: " Py.IntegrityError) w).
Proof.
  intros row fresh. subst row fresh.
  unfold DatabasePyqt.add_student, DatabasePyqt.transaction. simpl.
  unfold insert_person. simpl.
  destruct (fits_int64 (Classes.student_age s)); simpl; [|reflexivity].
  destruct (has_person _ _); simpl; [reflexivity|].
  destruct (has_email _ _); reflexivity.
Qed.

(** Updating a student id that is not stored changes nothing in either
    module; [utils.update_student] nevertheless answers [True], while
    [DatabaseManager.edit_student] answers [False]. *)
Theorem update_student_not_stored (w : world) (sid name : string) (age : Py.value)
    (email : string) (s : Classes.Student) :
  -2 ^ 63 <= Utils.int_or_0 age < 2 ^ 63 ->
  -2 ^ 63 <= Classes.student_age s < 2 ^ 63 ->
  has_person sid (students (db w)) = false ->
  Classes.student_id s = sid ->
  Utils.update_student sid name age email w = (true, w) /\
  DatabasePyqt.edit_student s w = (Py.Return false, w).
Proof.
  intros Ha Hb Hid Hs.
  apply fits_int64_iff in Ha, Hb.
  unfold Utils.update_student, DatabasePyqt.edit_student, DatabasePyqt.transaction,
    Database.run. simpl. unfold update_person.
  rewrite Hs, Ha, Hb, Hid. simpl. now rewrite database_eta, commit_same.
Qed.

Lemma update_student_not_stored_witness :
  Utils.update_student "S7" "Zoe" (Py.PyStr "19") "zoe@x.com" Scenario.school
  = (true, Scenario.school) /\
  DatabasePyqt.edit_student (Classes.mk_Student "Zoe" 19 "zoe@x.com" "S7" [])
                            Scenario.school
  = (Py.Return false, Scenario.school).
Proof.
  apply (update_student_not_stored Scenario.school "S7" "Zoe" (Py.PyStr "19")
           "zoe@x.com" (Classes.mk_Student "Zoe" 19 "zoe@x.com" "S7" []));
    [split; [discriminate | reflexivity] | split; [discriminate | reflexivity]
    | reflexivity | reflexivity].
Defined.

Lemma existsb_update_where {A : Type} (p q : A -> bool) (f : A -> A) (t : list A) :
  (forall r, p (f r) = p r) -> existsb p (update_where q f t) = existsb p t.
Proof.
  intros H. unfold update_where.
  induction t as [|x t IH]; simpl; [reflexivity|].
  rewrite IH. destruct (q x); now rewrite ?H.
Qed.

Lemma In_update_where {A : Type} (q : A -> bool) (f : A -> A) (t : list A) (y : A) :
  In y (update_where q f t) ->
  exists x, In x t /\ y = (if q x then f x else x).
Proof.
  unfold update_where. rewrite in_map_iff. intros (x & <- & Hin). eauto.
Qed.

(** [DatabaseManager.edit_student] on a stored student whose new email is
    not used by another student: the row of that id now carries the new
    name, age and email; every other row, the list of ids and the
    enrollment rows are as before. An email used by another student is
    refused with [False] and the store unchanged. *)
Theorem pyqt_edit_student_stored (w : world) (s : Classes.Student) :
  -2 ^ 63 <= Classes.student_age s < 2 ^ 63 ->
  has_person (Classes.student_id s) (students (db w)) = true ->
  let taken := has_email_elsewhere (Classes.student_email s) (Classes.student_id s)
                                   (students (db w)) in
  let r := DatabasePyqt.edit_student s w in
  (taken = true -> fst r = Py.Return false /\ db (snd r) = db w) /\
  (taken = false ->
   fst r = Py.Return true /\
   find (fun x => String.eqb (person_id x) (Classes.student_id s)) (students (db (snd r)))
   = Some (mk_person_row (Classes.student_id s) (Classes.student_name s)
                         (Classes.student_age s) (Classes.student_email s)) /\
   map person_id (students (db (snd r))) = map person_id (students (db w)) /\
   (forall x, In x (students (db w)) -> person_id x <> Classes.student_id s ->
              In x (students (db (snd r)))) /\
   instructors (db (snd r)) = instructors (db w) /\
   courses (db (snd r)) = courses (db w) /\
   registrations (db (snd r)) = registrations (db w)).
Proof.
  intros Ha Hid taken r. subst taken r.
  apply fits_int64_iff in Ha.
  unfold DatabasePyqt.edit_student, DatabasePyqt.transaction. simpl.
  unfold update_person. rewrite Ha, Hid. simpl.
  destruct (has_email_elsewhere _ _ _) eqn:Hem; simpl.
  - split; [auto | discriminate].
  - split; [discriminate|]. intros _.
    pose proof (rowcount_of_present _ _ Hid) as Hpos. apply Z.ltb_lt in Hpos.
    unfold DatabasePyqt.rowcount_positive. rewrite Hpos.
    split; [reflexivity|]. split.
    { rewrite find_update_where by reflexivity.
      apply existsb_find_some in Hid as (x & -> & Hx). simpl. rewrite Hx.
      apply String.eqb_eq in Hx. now rewrite Hx. }
    split; [now apply map_update_where|].
    split; [|repeat split].
    intros x Hin Hneq. unfold update_where. apply in_map_iff. exists x.
    split; [|assumption]. apply String.eqb_neq in Hneq. now rewrite Hneq.
Qed.

Lemma pyqt_edit_student_stored_witness :
  let s := Classes.mk_Student "Anna" 21 "anna@x.com" "S1" [] in
  let w := Scenario.school_enrolled in
  let taken := has_email_elsewhere (Classes.student_email s) (Classes.student_id s)
                                   (students (db w)) in
  let r := DatabasePyqt.edit_student s w in
  (taken = true -> fst r = Py.Return false /\ db (snd r) = db w) /\
  (taken = false ->
   fst r = Py.Return true /\
   find (fun x => String.eqb (person_id x) (Classes.student_id s)) (students (db (snd r)))
   = Some (mk_person_row (Classes.student_id s) (Classes.student_name s)
                         (Classes.student_age s) (Classes.student_email s)) /\
   map person_id (students (db (snd r))) = map person_id (students (db w)) /\
   (forall x, In x (students (db w)) -> person_id x <> Classes.student_id s ->
              In x (students (db (snd r)))) /\
   instructors (db (snd r)) = instructors (db w) /\
   courses (db (snd r)) = courses (db w) /\
   registrations (db (snd r)) = registrations (db w)).
Proof.
  apply (pyqt_edit_student_stored Scenario.school_enrolled
           (Classes.mk_Student "Anna" 21 "anna@x.com" "S1" []));
    [split; [discriminate | reflexivity] | reflexivity].
Defined.

(** ** Referential integrity under [database.py] *)

Lemma existsb_snoc {A : Type} (p : A -> bool) (t : list A) (x : A) :
  existsb p t = true -> existsb p (t ++ [x]) = true.
Proof. intros H. rewrite existsb_app, H. reflexivity. Qed.

Lemma has_person_delete_other (id x : string) (t : list person_row) :
  id <> x ->
  has_person id (delete_where (fun r => String.eqb (person_id r) x) t) = has_person id t.
Proof.
  intros H. apply existsb_delete_where_other.
  intros r Hr. apply String.eqb_eq in Hr. rewrite Hr. now apply String.eqb_neq.
Qed.

Lemma has_course_delete_other (id x : string) (t : list course_row) :
  id <> x ->
  has_course id (delete_where (fun r => String.eqb (course_id r) x) t) = has_course id t.
Proof.
  intros H. apply existsb_delete_where_other.
  intros r Hr. apply String.eqb_eq in Hr. rewrite Hr. now apply String.eqb_neq.
Qed.

Lemma insert_person_has (sch : schema) (id nm : string) (ag : Z) (em : string)
    (t t' : list person_row) (x : string) :
  insert_person sch id nm ag em t = inr t' ->
  has_person x t = true -> has_person x t' = true.
Proof.
  intros H Hx. apply insert_person_inr in H as (-> & _). now apply existsb_snoc.
Qed.

Lemma update_person_has (sch : schema) (nm : string) (ag : Z) (em id : string)
    (t t' : list person_row) (n : Z) (x : string) :
  update_person sch nm ag em id t = inr (t', n) ->
  has_person x t' = has_person x t.
Proof.
  unfold update_person.
  destruct (negb (fits_int64 ag)); [discriminate|].
  destruct (negb (has_person id t)); [now intros [= <- _]|].
  destruct (age_check sch && (ag <? 0)); [discriminate|].
  destruct (has_email_elsewhere em id t); [discriminate|].
  intros [= <- _]. now apply existsb_update_where.
Qed.

Lemma has_course_set (x : string) (q : course_row -> bool) (f : course_row -> course_row)
    (t : list course_row) :
  (forall r, course_id (f r) = course_id r) ->
  has_course x (update_where q f t) = has_course x t.
Proof.
  intros H. apply existsb_update_where. intros r. now rewrite H.
Qed.

(** One statement on a connection that enforces foreign keys, under the
    schema of [init_db]. *)
Lemma execute_referential_integrity (q : statement) (d d' : database) (n : Z) :
  Spec.referential_integrity d ->
  execute Database.init_db Database._connect q d = inr (d', n) ->
  Spec.referential_integrity d'.
Proof.
  intros [R1 R2].
  destruct q as [sid nm ag em | nm ag em sid | sid | iid nm ag em | nm ag em iid | iid
                | cid cname io | cname io cid | io cid | iid | cid
                | sid cid | sid cid | sid | cid]; simpl.
  - (* INSERT student *)
    destruct (insert_person _ _ _ _ _ _) as [|t] eqn:E; [discriminate|].
    intros [= <- _]. split; simpl; [|exact R2].
    intros r Hr. destruct (R1 r Hr). eauto using insert_person_has.
  - (* UPDATE student *)
    destruct (update_person _ _ _ _ _ _) as [|[t k]] eqn:E; [discriminate|].
    intros [= <- _]. split; simpl; [|exact R2].
    intros r Hr. destruct (R1 r Hr). rewrite (update_person_has _ _ _ _ _ _ _ _ _ E). auto.
  - (* DELETE student *)
    intros [= <- _]. split; simpl; [|exact R2].
    destruct (has_person sid (students d)) eqn:Hs; simpl.
    + intros r Hr. apply delete_where_spec in Hr as [Hr Hne].
      destruct (R1 r Hr). apply String.eqb_neq in Hne.
      now rewrite has_person_delete_other.
    + intros r Hr. rewrite delete_where_absent by exact Hs. auto.
  - (* INSERT instructor *)
    destruct (insert_person _ _ _ _ _ _) as [|t] eqn:E; [discriminate|].
    intros [= <- _]. split; simpl; [exact R1|].
    intros c i Hc Hi. eauto using insert_person_has.
  - (* UPDATE instructor *)
    destruct (update_person _ _ _ _ _ _) as [|[t k]] eqn:E; [discriminate|].
    intros [= <- _]. split; simpl; [exact R1|].
    intros c i Hc Hi. rewrite (update_person_has _ _ _ _ _ _ _ _ _ E). eauto.
  - (* DELETE instructor *)
    destruct (has_person iid (instructors d)) eqn:Hp; simpl.
    + destruct (existsb (teaches iid) (courses d)) eqn:Ht; simpl;
        intros [= <- _]; split; simpl.
      * intros r Hr. destruct (R1 r Hr). split; [assumption|].
        now rewrite has_course_set.
      * intros c i Hc Hi. apply In_update_where in Hc as (c0 & Hc0 & ->).
        destruct (teaches iid c0) eqn:E0; [discriminate|].
        assert (i <> iid).
        { intros ->. apply teaches_iff in Hi. congruence. }
        rewrite has_person_delete_other by assumption. eauto.
      * exact R1.
      * intros c i Hc Hi.
        assert (i <> iid).
        { intros ->. apply teaches_iff in Hi.
          assert (existsb (teaches iid) (courses d) = true)
            by (apply existsb_exists; eauto).
          congruence. }
        rewrite has_person_delete_other by assumption. eauto.
    + intros [= <- _]. split; simpl; [exact R1|].
      intros c i Hc Hi. rewrite delete_where_absent by exact Hp. eauto.
  - (* INSERT course *)
    destruct (has_course cid (courses d)) eqn:Hc; [discriminate|].
    destruct (instructor_fk_ok _ io d) eqn:Hfk; simpl; [|discriminate].
    intros [= <- _]. split; simpl.
    + intros r Hr. destruct (R1 r Hr). split; [assumption|]. now apply existsb_snoc.
    + intros c i Hin Hi. apply in_app_or in Hin as [Hin | [<- | []]]; [eauto|].
      simpl in Hi. subst io. exact Hfk.
  - (* UPDATE course *)
    destruct (has_course cid (courses d)) eqn:Hc; simpl; [|now intros [= <- _]].
    destruct (instructor_fk_ok _ io d) eqn:Hfk; simpl; [|discriminate].
    intros [= <- _]. split; simpl.
    + intros r Hr. destruct (R1 r Hr). split; [assumption|]. now rewrite has_course_set.
    + intros c i Hin Hi. apply In_update_where in Hin as (c0 & Hc0 & ->).
      destruct (String.eqb (course_id c0) cid); [|eauto].
      simpl in Hi. subst io. exact Hfk.
  - (* UPDATE course SET instructor *)
    destruct (has_course cid (courses d)) eqn:Hc; simpl; [|now intros [= <- _]].
    destruct (instructor_fk_ok _ io d) eqn:Hfk; simpl; [|discriminate].
    intros [= <- _]. split; simpl.
    + intros r Hr. destruct (R1 r Hr). split; [assumption|]. now rewrite has_course_set.
    + intros c i Hin Hi. apply In_update_where in Hin as (c0 & Hc0 & ->).
      destruct (String.eqb (course_id c0) cid); [|eauto].
      simpl in Hi. subst io. exact Hfk.
  - (* UPDATE courses SET NULL WHERE instructor *)
    intros [= <- _]. split; simpl.
    + intros r Hr. destruct (R1 r Hr). split; [assumption|]. now rewrite has_course_set.
    + intros c i Hin Hi. apply In_update_where in Hin as (c0 & Hc0 & ->).
      destruct (teaches iid c0); [discriminate|eauto].
  - (* DELETE course *)
    intros [= <- _]. split; simpl.
    + destruct (has_course cid (courses d)) eqn:Hc; simpl.
      * intros r Hr. apply delete_where_spec in Hr as [Hr Hne].
        destruct (R1 r Hr). apply String.eqb_neq in Hne.
        now rewrite has_course_delete_other.
      * intros r Hr. rewrite delete_where_absent by exact Hc. auto.
    + intros c i Hin Hi. apply delete_where_spec in Hin as [Hin _]. eauto.
  - (* INSERT OR IGNORE registration *)
    destruct (has_registration sid cid (registrations d));
      [now intros [= <- _]|].
    destruct (has_person sid (students d)) eqn:Hs; simpl; [|discriminate].
    destruct (has_course cid (courses d)) eqn:Hc; simpl; [|discriminate].
    intros [= <- _]. split; simpl; [|exact R2].
    intros r Hr. apply in_app_or in Hr as [Hr | [<- | []]]; auto.
  - (* DELETE registration *)
    intros [= <- _]. split; simpl; [|exact R2].
    intros r Hr. apply delete_where_spec in Hr as [Hr _]. auto.
  - intros [= <- _]. split; simpl; [|exact R2].
    intros r Hr. apply delete_where_spec in Hr as [Hr _]. auto.
  - intros [= <- _]. split; simpl; [|exact R2].
    intros r Hr. apply delete_where_spec in Hr as [Hr _]. auto.
Qed.

(** Whatever [database.run] is asked to execute, committed or not, it
    never leaves a dangling reference: from a store with referential
    integrity it reaches a store with referential integrity. This covers
    every write of [utils.py]; the empty store is one such store. *)
Theorem run_keeps_referential_integrity (q : statement) (c : bool) (w : world) :
  Spec.referential_integrity (db w) ->
  Spec.referential_integrity (db (snd (Database.run q c w))).
Proof.
  intros H. unfold Database.run.
  destruct (execute _ _ q (db w)) as [e|[d' n]] eqn:E; simpl; [assumption|].
  destruct c; simpl; [|assumption].
  eapply execute_referential_integrity; eassumption.
Qed.

Lemma run_keeps_referential_integrity_witness :
  Spec.referential_integrity
    (db (snd (Database.run (DELETE_student "S1") true Scenario.school_enrolled))).
Proof.
  apply (run_keeps_referential_integrity (DELETE_student "S1") true
           Scenario.school_enrolled).
  split; simpl.
  - intros r [<- | []]. split; reflexivity.
  - intros c i [<- | [<- | []]]; simpl; [intros [= <-]; reflexivity | discriminate].
Defined.

(** ** The instructor slot as a state machine ([DatabaseManager]) *)

Lemma find_none_iff {A : Type} (p : A -> bool) (t : list A) :
  find p t = None <-> existsb p t = false.
Proof.
  induction t as [|x t IH]; simpl; [tauto|].
  destruct (p x); simpl; [split; discriminate | exact IH].
Qed.

Lemma NoDup_key_count {A : Type} (key : A -> string) (C : string) (t : list A) :
  NoDup (map key t) ->
  (List.length (filter (fun r => String.eqb (key r) C) t) <= 1)%nat.
Proof.
  induction t as [|x t IH]; simpl; intros H; [lia|].
  inversion H as [|? ? Hx Hnd]; subst.
  destruct (String.eqb (key x) C) eqn:E; simpl; [|auto].
  apply String.eqb_eq in E.
  rewrite existsb_false_filter; [simpl; lia|].
  destruct (existsb (fun r => String.eqb (key r) C) t) eqn:Ex; [|reflexivity].
  apply existsb_exists in Ex as (y & Hy & Hk). apply String.eqb_eq in Hk.
  exfalso. apply Hx. apply in_map_iff. exists y. split; [congruence | assumption].
Qed.

Lemma NoDup_key_first {A : Type} (key : A -> string) (C : string) (t : list A) (r y : A) :
  NoDup (map key t) ->
  find (fun x => String.eqb (key x) C) t = Some r ->
  In y t -> key y = C -> y = r.
Proof.
  induction t as [|x t IH]; simpl; intros H Hf Hy Hk; [contradiction|].
  inversion H as [|? ? Hx Hnd]; subst.
  destruct (String.eqb (key x) (key y)) eqn:E.
  - injection Hf as <-. destruct Hy as [-> | Hy]; [reflexivity|].
    apply String.eqb_eq in E. exfalso. apply Hx. rewrite E. now apply in_map.
  - destruct Hy as [-> | Hy]; [now rewrite String.eqb_refl in E|]. eauto.
Qed.

(** With unique course ids, an empty slot lets the second guard pass. *)
Lemma empty_slot_passes_guard (C : string) (d : database) :
  NoDup (map course_id (courses d)) ->
  Spec.instructor_slot C d = Some None ->
  DatabasePyqt.instructor_of_course C d = None.
Proof.
  intros Hnd Hslot. apply instructor_slot_row in Hslot as (r & Hfind & _ & _ & Hi).
  unfold DatabasePyqt.instructor_of_course.
  destruct (find (fun r0 => String.eqb (course_id r0) C
                            && Utils.is_not_None (instructor_id r0)) (courses d))
    as [y|] eqn:E; [|reflexivity].
  apply find_some in E as [Hy Hp]. apply andb_true_iff in Hp as [Hk Hn].
  apply String.eqb_eq in Hk.
  rewrite (NoDup_key_first course_id C (courses d) r y Hnd Hfind Hy Hk) in Hn.
  rewrite Hi in Hn. discriminate.
Qed.

Lemma pyqt_assign_update (w : world) (I C : string) :
  DatabasePyqt.course_of_instructor_other_than I C (db w) = None ->
  DatabasePyqt.instructor_of_course C (db w) = None ->
  has_course C (courses (db w)) = true ->
  DatabasePyqt.assign_instructor_to_course I C w
  = (Py.Return true,
     commit (mk_database (students (db w)) (instructors (db w))
               (update_where (fun r => String.eqb (course_id r) C)
                             (set_instructor (Some I)) (courses (db w)))
               (registrations (db w))) w).
Proof.
  intros H1 H2 HC. unfold DatabasePyqt.assign_instructor_to_course.
  rewrite H1, H2. unfold DatabasePyqt.transaction. simpl. rewrite HC. simpl.
  pose proof (rowcount_of_present _ _ HC) as Hpos. apply Z.ltb_lt in Hpos.
  unfold DatabasePyqt.rowcount_positive. now rewrite Hpos.
Qed.

Lemma filter_length_update_lost {A : Type} (p q : A -> bool) (f : A -> A) (t : list A) :
  (forall r, p (f r) = false) ->
  (List.length (filter p (update_where q f t)) <= List.length (filter p t))%nat.
Proof.
  intros H. unfold update_where.
  induction t as [|x t IH]; simpl; [lia|].
  destruct (q x); [rewrite H|]; destruct (p x); simpl; lia.
Qed.

Lemma assign_count (I C : string) (t : list course_row) :
  existsb (fun r => teaches I r && negb (String.eqb (course_id r) C)) t = false ->
  List.length (filter (teaches I)
                 (update_where (fun r => String.eqb (course_id r) C)
                               (set_instructor (Some I)) t))
  = List.length (filter (fun r => String.eqb (course_id r) C) t).
Proof.
  unfold update_where.
  induction t as [|x t IH]; simpl; intros H; [reflexivity|].
  apply orb_false_iff in H as [Hx Ht]. specialize (IH Ht).
  destruct (String.eqb (course_id x) C) eqn:Ec; simpl.
  - unfold teaches at 1. simpl. rewrite String.eqb_refl. simpl. now rewrite IH.
  - simpl in Hx. rewrite andb_true_r in Hx. now rewrite Hx.
Qed.

(** [DatabaseManager.assign_instructor_to_course] keeps the rule that
    nobody teaches more than one course: whatever its arguments and
    whichever way it ends, a store with unique course ids that satisfies
    the rule still satisfies it afterwards. *)
Theorem pyqt_assign_keeps_one_course_per_instructor (w : world) (I C : string) :
  NoDup (map course_id (courses (db w))) ->
  Spec.one_course_per_instructor (db w) ->
  Spec.one_course_per_instructor (db (snd (DatabasePyqt.assign_instructor_to_course I C w))).
Proof.
  intros Hnd Hone. unfold DatabasePyqt.assign_instructor_to_course.
  destruct (DatabasePyqt.course_of_instructor_other_than I C (db w)) eqn:G1;
    [exact Hone|].
  destruct (DatabasePyqt.instructor_of_course C (db w)) eqn:G2; [exact Hone|].
  unfold DatabasePyqt.transaction. simpl.
  destruct (has_course C (courses (db w))) eqn:HC; simpl; [|exact Hone].
  intros J. unfold Spec.courses_taught. simpl.
  destruct (String.eqb J I) eqn:EJ.
  - apply String.eqb_eq in EJ. subst J.
    unfold DatabasePyqt.course_of_instructor_other_than in G1.
    destruct (find (fun r => teaches I r && negb (String.eqb (course_id r) C))
                   (courses (db w))) eqn:Ef; [discriminate|].
    apply find_none_iff in Ef. rewrite (assign_count I C _ Ef).
    now apply NoDup_key_count.
  - etransitivity; [|apply (Hone J)]. unfold Spec.courses_taught.
    apply filter_length_update_lost. intros r. unfold teaches. simpl.
    now rewrite String.eqb_sym.
Qed.

Lemma pyqt_assign_keeps_one_course_per_instructor_witness :
  Spec.one_course_per_instructor
    (db (snd (DatabasePyqt.assign_instructor_to_course "I1" "C2" Scenario.school))).
Proof.
  apply (pyqt_assign_keeps_one_course_per_instructor Scenario.school "I1" "C2").
  - simpl. repeat constructor; simpl; intuition discriminate.
  - intros J. vm_compute. lia.
Defined.

Lemma pyqt_unassign_stored (w : world) (C : string) :
  has_course C (courses (db w)) = true ->
  DatabasePyqt.unassign_instructor_from_course C w
  = (Py.Return true,
     commit (mk_database (students (db w)) (instructors (db w))
               (update_where (fun r => String.eqb (course_id r) C)
                             (set_instructor None) (courses (db w)))
               (registrations (db w))) w).
Proof.
  intros HC. unfold DatabasePyqt.unassign_instructor_from_course,
    DatabasePyqt.transaction. simpl. rewrite HC. simpl.
  pose proof (rowcount_of_present _ _ HC) as Hpos. apply Z.ltb_lt in Hpos.
  unfold DatabasePyqt.rowcount_positive. now rewrite Hpos.
Qed.

Lemma guard1_after_unassign (J C : string) (t : list course_row) :
  existsb (fun r => teaches J r && negb (String.eqb (course_id r) C)) t = false ->
  existsb (fun r => teaches J r && negb (String.eqb (course_id r) C))
    (update_where (fun r => String.eqb (course_id r) C) (set_instructor None) t) = false.
Proof.
  unfold update_where.
  induction t as [|x t IH]; simpl; intros H; [reflexivity|].
  apply orb_false_iff in H as [Hx Ht]. rewrite (IH Ht), orb_false_r.
  destruct (String.eqb (course_id x) C) eqn:E; simpl; [reflexivity|].
  now rewrite E.
Qed.

Lemma guard2_after_unassign (C : string) (t : list course_row) :
  existsb (fun r => String.eqb (course_id r) C && Utils.is_not_None (instructor_id r))
    (update_where (fun r => String.eqb (course_id r) C) (set_instructor None) t) = false.
Proof.
  unfold update_where.
  induction t as [|x t IH]; simpl; [reflexivity|].
  rewrite IH, orb_false_r.
  destruct (String.eqb (course_id x) C) eqn:E; simpl; [now rewrite andb_false_r|].
  now rewrite E.
Qed.

(** The instructor slot of a course in [DatabaseManager]: while the slot
    of [C] holds [I], assigning another instructor [J] (who teaches nothing
    else) is refused with the message that the course already has
    instructor [I], and the store is unchanged. [unassign] empties the slot
    and answers [True]; the same assignment of [J] then succeeds and the
    slot holds [J]. *)
Theorem pyqt_slot_must_be_emptied_first (w : world) (I J C : string) :
  Spec.instructor_slot C (db w) = Some (Some I) ->
  DatabasePyqt.course_of_instructor_other_than J C (db w) = None ->
  DatabasePyqt.assign_instructor_to_course J C w
  = (Py.Return false,
     print (Py.Text ("Course " ++ C ++ " already has instructor " ++ I)) w) /\
  (let (r1, w1) := DatabasePyqt.unassign_instructor_from_course C w in
   let (r2, w2) := DatabasePyqt.assign_instructor_to_course J C w1 in
   r1 = Py.Return true /\ Spec.instructor_slot C (db w1) = Some None /\
   r2 = Py.Return true /\ Spec.instructor_slot C (db w2) = Some (Some J) /\
   students (db w2) = students (db w) /\ instructors (db w2) = instructors (db w) /\
   registrations (db w2) = registrations (db w)).
Proof.
  intros Hslot G1.
  pose proof (instructor_slot_has_course _ _ _ Hslot) as HC.
  split.
  { unfold DatabasePyqt.assign_instructor_to_course.
    now rewrite G1, (pyqt_course_has_instructor _ _ _ Hslot). }
  rewrite (pyqt_unassign_stored w C HC).
  set (w1 := commit _ w).
  assert (HC1 : has_course C (courses (db w1)) = true)
    by (subst w1; simpl; now rewrite has_course_set).
  assert (G1' : DatabasePyqt.course_of_instructor_other_than J C (db w1) = None).
  { unfold DatabasePyqt.course_of_instructor_other_than in *.
    destruct (find _ (courses (db w))) eqn:Ef in G1; [discriminate|].
    apply find_none_iff in Ef.
    apply (guard1_after_unassign J C) in Ef. apply find_none_iff in Ef.
    subst w1. simpl. now rewrite Ef. }
  assert (G2' : DatabasePyqt.instructor_of_course C (db w1) = None).
  { unfold DatabasePyqt.instructor_of_course. subst w1. simpl.
    pose proof (guard2_after_unassign C (courses (db w))) as E.
    apply find_none_iff in E. now rewrite E. }
  rewrite (pyqt_assign_update w1 J C G1' G2' HC1).
  split; [reflexivity|].
  unfold Spec.instructor_slot in *. subst w1. simpl.
  rewrite !find_update_where by reflexivity.
  destruct (find _ (courses (db w))) as [r|] eqn:Ef; [|discriminate].
  apply find_some in Ef as [_ Hr]. simpl. rewrite Hr. simpl. rewrite Hr.
  repeat split.
Qed.

Lemma pyqt_slot_must_be_emptied_first_witness :
  let w := Scenario.school_assigned in
  DatabasePyqt.assign_instructor_to_course "I2" "C1" w
  = (Py.Return false,
     print (Py.Text ("Course " ++ "C1" ++ " already has instructor " ++ "I1")) w) /\
  (let (r1, w1) := DatabasePyqt.unassign_instructor_from_course "C1" w in
   let (r2, w2) := DatabasePyqt.assign_instructor_to_course "I2" "C1" w1 in
   r1 = Py.Return true /\ Spec.instructor_slot "C1" (db w1) = Some None /\
   r2 = Py.Return true /\ Spec.instructor_slot "C1" (db w2) = Some (Some "I2") /\
   students (db w2) = students (db w) /\ instructors (db w2) = instructors (db w) /\
   registrations (db w2) = registrations (db w)).
Proof.
  apply (pyqt_slot_must_be_emptied_first Scenario.school_assigned "I1" "I2" "C1");
    reflexivity.
Defined.

(** A course whose slot names an instructor that is not stored cannot be
    read: [get_course] does not answer [None], it lets the [ValueError] of
    the [Instructor] constructor escape. [assign_instructor_to_course]
    creates exactly this situation when it is given the id of an instructor
    that does not exist: with foreign keys off it answers [True]. *)
Theorem pyqt_unknown_instructor_breaks_get_course (w : world) (I C : string) :
  Py.truthy I = true ->
  has_person I (instructors (db w)) = false ->
  NoDup (map course_id (courses (db w))) ->
  Spec.instructor_slot C (db w) = Some None ->
  DatabasePyqt.course_of_instructor_other_than I C (db w) = None ->
  let (r, w') := DatabasePyqt.assign_instructor_to_course I C w in
  r = Py.Return true /\
  Spec.instructor_slot C (db w') = Some (Some I) /\
  DatabasePyqt.get_course C (db w')
  = Py.Raise (Py.ValueError "Name must be a non-empty string").
Proof.
  intros Ht HI Hnd Hslot G1.
  pose proof (instructor_slot_has_course _ _ _ Hslot) as HC.
  rewrite (pyqt_assign_update w I C G1 (empty_slot_passes_guard C _ Hnd Hslot) HC).
  split; [reflexivity|].
  unfold Spec.instructor_slot, DatabasePyqt.get_course in *. simpl.
  rewrite find_update_where by reflexivity.
  destruct (find _ (courses (db w))) as [r|] eqn:Ef; [|discriminate].
  apply find_some in Ef as [_ Hr]. simpl. rewrite Hr. simpl.
  split; [reflexivity|].
  unfold DatabasePyqt.course_of_row. simpl. rewrite Ht.
  apply find_none_iff in HI. unfold has_person in HI. now rewrite HI.
Qed.

Lemma pyqt_unknown_instructor_breaks_get_course_witness :
  let (r, w') := DatabasePyqt.assign_instructor_to_course "I9" "C1" Scenario.school in
  r = Py.Return true /\
  Spec.instructor_slot "C1" (db w') = Some (Some "I9") /\
  DatabasePyqt.get_course "C1" (db w')
  = Py.Raise (Py.ValueError "Name must be a non-empty string").
Proof.
  apply (pyqt_unknown_instructor_breaks_get_course Scenario.school "I9" "C1");
    try reflexivity.
  simpl. repeat constructor; simpl; intuition discriminate.
Defined.

(** ** The form handlers that create and edit students *)

(** The pre-check of the tkinter form is at least as strict as the UNIQUE
    constraint of the table. *)
Lemma student_email_exists_covers_unique (email : string) (d : database) :
  Utils.student_email_exists email None d = false ->
  has_email email (students d) = false.
Proof.
  unfold Utils.student_email_exists, has_email.
  induction (students d) as [|r t IH]; simpl; [reflexivity|].
  intros H. apply orb_false_iff in H as [Hr Ht]. rewrite (IH Ht), orb_false_r.
  destruct (String.eqb (Sqlite.email r) email) eqn:E; [|reflexivity].
  apply String.eqb_eq in E. rewrite E, String.eqb_refl in Hr. discriminate.
Qed.

(** Creation through the tkinter form. With nothing selected, a form whose
    trimmed name and id are not empty, whose age passes [valid_age] and is
    below 2^63, whose email passes [valid_email] and is used by no student
    (compared without regard to ASCII case), and whose id is not stored,
    creates exactly one row (the trimmed id, name and email and the parsed
    age), prints nothing and clears the form. *)
Theorem tkinter_create_student (g : TkinterUi.gui) (w : world) (a : Z) :
  let name := Py.strip (TkinterUi.stu_name_e g) in
  let age := Py.strip (TkinterUi.stu_age_e g) in
  let email := Py.strip (TkinterUi.stu_email_e g) in
  let sid := Py.strip (TkinterUi.stu_id_e g) in
  TkinterUi.selected_student_id g = None ->
  Py.truthy name = true -> Py.truthy sid = true ->
  Py.int_of_str age = Some a -> 0 <= a < 2 ^ 63 ->
  Utils.valid_email email = true ->
  Utils.student_email_exists email None (db w) = false ->
  has_person sid (students (db w)) = false ->
  TkinterUi.add_or_save_student g w
  = (TkinterUi.clear_student_form g,
     commit (Spec.add_student_row (mk_person_row sid name a email) (db w)) w).
Proof.
  intros name age email sid Hsel Hn Hs Hint Ha Hv Hex Hid.
  subst name age email sid.
  assert (Hva : Utils.valid_age (Py.PyStr (Py.strip (TkinterUi.stu_age_e g))) = true).
  { unfold Utils.valid_age. simpl. rewrite Hint. apply Z.leb_le. lia. }
  unfold TkinterUi.add_or_save_student. cbv zeta.
  rewrite Hn, Hs, Hva, Hv, Hsel. cbn [negb orb].
  unfold TkinterUi.email_taken_in_students. rewrite Hex.
  pose proof (utils_add_student_cases w (Py.strip (TkinterUi.stu_name_e g))
                (Py.PyStr (Py.strip (TkinterUi.stu_age_e g)))
                (Py.strip (TkinterUi.stu_email_e g))
                (Py.strip (TkinterUi.stu_id_e g))) as (Hiff & Hok & _).
  assert (H0 : Utils.int_or_0 (Py.PyStr (Py.strip (TkinterUi.stu_age_e g))) = a)
    by (unfold Utils.int_or_0; simpl; now rewrite Hint).
  simpl in Hiff, Hok. rewrite H0 in Hiff, Hok.
  assert (Htrue : fst (Utils.add_student (Py.strip (TkinterUi.stu_name_e g))
                         (Py.PyStr (Py.strip (TkinterUi.stu_age_e g)))
                         (Py.strip (TkinterUi.stu_email_e g))
                         (Py.strip (TkinterUi.stu_id_e g)) w) = true).
  { apply Hiff. repeat split; try assumption; try lia.
    now apply student_email_exists_covers_unique. }
  specialize (Hok Htrue).
  destruct (Utils.add_student _ _ _ _ w) as [ok w']. simpl in *.
  now rewrite Htrue, Hok.
Qed.

Lemma tkinter_create_student_witness :
  TkinterUi.add_or_save_student
    (TkinterUi.mk_gui " Bob " "22" "bob@x.com" "S2 " "" None) Scenario.school
  = (TkinterUi.mk_gui "" "" "" "" "" None,
     commit (Spec.add_student_row (mk_person_row "S2" "Bob" 22 "bob@x.com")
               (db Scenario.school)) Scenario.school).
Proof.
  apply (tkinter_create_student
           (TkinterUi.mk_gui " Bob " "22" "bob@x.com" "S2 " "" None)
           Scenario.school 22);
    try reflexivity.
  split; [discriminate | reflexivity].
Defined.

(** What the refusal "Could not add student. maybe duplicate id?" of the
    tkinter form means: the checks of the form had passed, and the insert
    was refused because the id is already stored or because the age does
    not fit in 64 bits; never because of the email or of a negative age.
    The store is unchanged. *)
Theorem tkinter_could_not_add_student (g : TkinterUi.gui) (w : world) :
  TkinterUi.stu_msg (fst (TkinterUi.add_or_save_student g w))
  = "Could not add student. maybe duplicate id?" ->
  (has_person (Py.strip (TkinterUi.stu_id_e g)) (students (db w)) = true \/
   2 ^ 63 <= Utils.int_or_0 (Py.PyStr (Py.strip (TkinterUi.stu_age_e g)))) /\
  db (snd (TkinterUi.add_or_save_student g w)) = db w.
Proof.
  unfold TkinterUi.add_or_save_student. cbv zeta.
  set (name := Py.strip (TkinterUi.stu_name_e g)).
  set (age := Py.PyStr (Py.strip (TkinterUi.stu_age_e g))).
  set (email := Py.strip (TkinterUi.stu_email_e g)).
  set (sid := Py.strip (TkinterUi.stu_id_e g)).
  destruct (negb (Py.truthy name) || negb (Py.truthy sid));
    [cbn; discriminate|].
  destruct (Utils.valid_age age) eqn:Hva; cbn [negb]; [|cbn; discriminate].
  destruct (Utils.valid_email email); cbn [negb]; [|cbn; discriminate].
  destruct (TkinterUi.selected_student_id g) as [sel|].
  - destruct (negb (String.eqb sid sel)); [cbn; discriminate|].
    destruct (TkinterUi.email_taken_in_students email (Some sel) (db w));
      [cbn; discriminate|].
    destruct (Utils.get_student_by_id sel (db w)); [|cbn; discriminate].
    destruct (Utils.update_student sel name age email w) as [[] w']; cbn;
      discriminate.
  - destruct (TkinterUi.email_taken_in_students email None (db w)) eqn:Hex;
      [cbn; discriminate|].
    pose proof (utils_add_student_cases w name age email sid) as (Hiff & _ & Hno).
    cbv zeta in Hiff, Hno.
    destruct (Utils.add_student name age email sid w) as [[] w'] eqn:E;
      cbn [fst snd] in *; [cbn; discriminate|].
    intros _. split; [|now apply Hno].
    destruct (has_person sid (students (db w))) eqn:Hid; [now left|]. right.
    destruct (Z.lt_ge_cases (Utils.int_or_0 age) (2 ^ 63)) as [Hlt | Hge];
      [|exact Hge].
    exfalso.
    assert (Hfalse : false = true); [|discriminate].
    apply Hiff. split; [|split; [reflexivity|]].
    + split; [|exact Hlt]. unfold Utils.valid_age, Utils.int_or_0 in *.
      destruct (Py.int age); [now apply Z.leb_le | discriminate].
    + now apply student_email_exists_covers_unique.
Qed.

Lemma tkinter_could_not_add_student_witness :
  let g := TkinterUi.mk_gui "Ann" "20" "ann2@x.com" "S1"
             "Could not add student. maybe duplicate id?" None in
  (has_person (Py.strip (TkinterUi.stu_id_e g)) (students (db Scenario.school)) = true \/
   2 ^ 63 <= Utils.int_or_0 (Py.PyStr (Py.strip (TkinterUi.stu_age_e g)))) /\
  db (snd (TkinterUi.add_or_save_student g Scenario.school)) = db Scenario.school.
Proof.
  apply (tkinter_could_not_add_student
           (TkinterUi.mk_gui "Ann" "20" "ann2@x.com" "S1"
              "Could not add student. maybe duplicate id?" None) Scenario.school).
  reflexivity.
Defined.

Lemma utils_update_student_keeps (sid name : string) (age : Py.value) (email : string)
    (w : world) :
  let d' := db (snd (Utils.update_student sid name age email w)) in
  map person_id (students d') = map person_id (students (db w)) /\
  instructors d' = instructors (db w) /\ courses d' = courses (db w) /\
  registrations d' = registrations (db w).
Proof.
  unfold Utils.update_student, Database.run. simpl.
  destruct (update_person Database.init_db name (Utils.int_or_0 age) email sid
              (students (db w))) as [e|[t n]] eqn:E; simpl; [auto|].
  repeat split. revert E. unfold update_person.
  destruct (negb (fits_int64 _)); [discriminate|].
  destruct (negb (has_person sid _)); [now intros [= <- _]|].
  destruct (_ && _); [discriminate|].
  destruct (has_email_elsewhere _ _ _); [discriminate|].
  intros [= <- _]. now apply map_update_where.
Qed.

(** Editing through the tkinter form never renames anybody: with a student
    selected, whatever the form contains, the handler leaves the list of
    student ids, the instructors, the courses and the enrollment rows as
    they were; and when the id typed in the form differs from the selected
    one, the whole store is unchanged. *)
Theorem tkinter_edit_keeps_ids (g : TkinterUi.gui) (w : world) (sel : string) :
  TkinterUi.selected_student_id g = Some sel ->
  let d' := db (snd (TkinterUi.add_or_save_student g w)) in
  map person_id (students d') = map person_id (students (db w)) /\
  instructors d' = instructors (db w) /\ courses d' = courses (db w) /\
  registrations d' = registrations (db w) /\
  (Py.strip (TkinterUi.stu_id_e g) <> sel -> d' = db w).
Proof.
  intros Hsel. unfold TkinterUi.add_or_save_student. cbv zeta. rewrite Hsel.
  set (name := Py.strip (TkinterUi.stu_name_e g)).
  set (age := Py.PyStr (Py.strip (TkinterUi.stu_age_e g))).
  set (email := Py.strip (TkinterUi.stu_email_e g)).
  set (sid := Py.strip (TkinterUi.stu_id_e g)).
  destruct (negb (Py.truthy name) || negb (Py.truthy sid)); [cbn; auto 6|].
  destruct (negb (Utils.valid_age age)); [cbn; auto 6|].
  destruct (negb (Utils.valid_email email)); [cbn; auto 6|].
  destruct (String.eqb sid sel) eqn:Eid; cbn [negb]; [|cbn; auto 6].
  apply String.eqb_eq in Eid.
  destruct (TkinterUi.email_taken_in_students email (Some sel) (db w));
    [cbn; repeat split; auto; congruence|].
  destruct (Utils.get_student_by_id sel (db w));
    [|cbn; repeat split; auto; congruence].
  pose proof (utils_update_student_keeps sel name age email w) as (H1 & H2 & H3 & H4).
  destruct (Utils.update_student sel name age email w) as [[] w']; cbn in *;
    repeat split; auto; congruence.
Qed.

Lemma tkinter_edit_keeps_ids_witness :
  let g := TkinterUi.mk_gui "Anna" "21" "anna@x.com" "S1" "" (Some "S1") in
  let d' := db (snd (TkinterUi.add_or_save_student g Scenario.school_enrolled)) in
  map person_id (students d') = map person_id (students (db Scenario.school_enrolled)) /\
  instructors d' = instructors (db Scenario.school_enrolled) /\
  courses d' = courses (db Scenario.school_enrolled) /\
  registrations d' = registrations (db Scenario.school_enrolled) /\
  (Py.strip (TkinterUi.stu_id_e g) <> "S1" -> d' = db Scenario.school_enrolled).
Proof.
  apply (tkinter_edit_keeps_ids
           (TkinterUi.mk_gui "Anna" "21" "anna@x.com" "S1" "" (Some "S1"))
           Scenario.school_enrolled "S1").
  reflexivity.
Defined.

(** [StudentsTab._create] changes the store only when it ends with the box
    "Student created", and then by exactly one row: the fields of the
    [Student] that the constructor built from the trimmed texts and the
    parsed age. With any other box the store is as before. *)
Theorem pyqt_create_changes_only_on_success (s_name s_age s_email s_id : string)
    (w : world) :
  let (box, w') := PyQt.StudentsTab._create s_name s_age s_email s_id w in
  (box = PyQt.info "Student created" /\
   exists a s,
     Py.int_of_str s_age = Some a /\
     Classes.Student_init (Py.strip s_name) a (Py.strip s_email) (Py.strip s_id)
     = Py.Return s /\
     w' = commit (Spec.add_student_row
                    (mk_person_row (Classes.student_id s) (Classes.student_name s)
                                   (Classes.student_age s) (Classes.student_email s))
                    (db w)) w /\
     Classes.student_id s = Py.strip s_id /\
     Classes.student_name s = Py.strip s_name)
  \/
  (box <> PyQt.info "Student created" /\ db w' = db w).
Proof.
  unfold PyQt.StudentsTab._create.
  destruct (Py.int_of_str s_age) as [a|]; [|right; split; [discriminate|reflexivity]].
  destruct (Classes.Student_init (Py.strip s_name) a (Py.strip s_email) (Py.strip s_id))
    as [s|e] eqn:Es; [|right; split; [discriminate|reflexivity]].
  rewrite (pyqt_add_student_cases w s). cbv zeta.
  destruct (negb (fits_int64 (Classes.student_age s)));
    [right; split; [discriminate|reflexivity]|].
  destruct (negb (has_person _ _) && negb (has_email _ _));
    [|right; split; [discriminate|reflexivity]].
  left. split; [reflexivity|]. exists a, s.
  pose proof (Student_init_Return _ _ _ _ _ Es) as (-> & _).
  repeat split; try reflexivity; try exact Es; simpl; apply strip_idempotent.
Qed.

(** ** The tkinter handlers for enrollment, assignment and courses *)

Lemma find_is_Some {A : Type} (p : A -> bool) (t : list A) :
  existsb p t = true -> exists r, find p t = Some r.
Proof.
  intros H. destruct (existsb_find_some p t H) as (r & Hr & _). eauto.
Qed.

Lemma find_is_None {A : Type} (p : A -> bool) (t : list A) :
  existsb p t = false -> find p t = None.
Proof. apply find_none_iff. Qed.

Lemma registered_iff (S C : string) (d : database) :
  existsb (String.eqb C) (Utils.student_courses S d)
  = has_registration S C (registrations d).
Proof.
  apply eq_true_iff_eq. rewrite has_registration_In, existsb_exists.
  unfold Utils.student_courses. split.
  - intros (c & Hin & Hc). apply String.eqb_eq in Hc. subst c.
    apply order_by_In, in_map_iff in Hin as ([s c] & Hc & Hin). simpl in Hc. subst c.
    apply filter_In in Hin as [Hin Hs]. simpl in Hs. apply String.eqb_eq in Hs.
    now subst s.
  - intros Hin. exists C. split; [|apply String.eqb_refl].
    apply order_by_In, in_map_iff. exists (S, C). split; [reflexivity|].
    apply filter_In. split; [assumption|]. simpl. apply String.eqb_refl.
Qed.

(** The "Register" button of the tkinter front-end. Pressed for an id or a
    course that is not stored, it refuses and leaves the world unchanged.
    Pressed twice for a stored student and course, it leaves exactly one
    enrollment row; the second press answers "Already registered, chill"
    and changes nothing, and the first press answers with the check mark
    unless the student was already enrolled. *)
Theorem tkinter_register_button (stu_id_e stu_course_dd : string) (w : world) :
  NoDup (registrations (db w)) ->
  let S := Py.strip stu_id_e in
  let C := Py.strip stu_course_dd in
  (has_person S (students (db w)) = false \/ has_course C (courses (db w)) = false ->
   TkinterUi.register_student_to_course stu_id_e stu_course_dd w
   = (TkinterUi.Label "Pick a real student and course first", w)) /\
  (has_person S (students (db w)) = true -> has_course C (courses (db w)) = true ->
   let (n1, w1) := TkinterUi.register_student_to_course stu_id_e stu_course_dd w in
   let (n2, w2) := TkinterUi.register_student_to_course stu_id_e stu_course_dd w1 in
   Spec.enrollment_count S C (registrations (db w2)) = 1%nat /\
   n2 = TkinterUi.Label "Already registered, chill" /\ w2 = w1 /\
   (has_registration S C (registrations (db w)) = false ->
    n1 = TkinterUi.Registered_mark /\
    registrations (db w1) = (registrations (db w) ++ [(S, C)])%list)).
Proof.
  intros Hnd S C. subst S C.
  set (S := Py.strip stu_id_e). set (C := Py.strip stu_course_dd).
  unfold TkinterUi.register_student_to_course. cbv zeta. fold S C.
  unfold Utils.get_student_by_id, Utils.get_student, Utils.get_course.
  split.
  - intros [H | H].
    + unfold has_person in H. now rewrite (find_is_None _ _ H).
    + unfold has_course in H. rewrite (find_is_None _ _ H).
      now destruct (find _ (students (db w))).
  - intros HS HC.
    destruct (find_is_Some _ _ HS) as [rs Hrs]. destruct (find_is_Some _ _ HC) as [rc Hrc].
    rewrite Hrs, Hrc, registered_iff.
    destruct (has_registration S C (registrations (db w))) eqn:Hreg.
    + rewrite Hrs, Hrc, registered_iff, Hreg.
      repeat split; try discriminate.
      apply enrollment_count_NoDup; [assumption | now apply has_registration_In].
    + rewrite (utils_register_new S C w Hreg HS HC). simpl.
      rewrite Hrs, Hrc, registered_iff. simpl. rewrite has_registration_add.
      repeat split. now apply enrollment_count_add.
Qed.

Lemma tkinter_register_button_witness :
  let S := Py.strip " S1" in
  let C := Py.strip "C1 " in
  let w := Scenario.school in
  (has_person S (students (db w)) = false \/ has_course C (courses (db w)) = false ->
   TkinterUi.register_student_to_course " S1" "C1 " w
   = (TkinterUi.Label "Pick a real student and course first", w)) /\
  (has_person S (students (db w)) = true -> has_course C (courses (db w)) = true ->
   let (n1, w1) := TkinterUi.register_student_to_course " S1" "C1 " w in
   let (n2, w2) := TkinterUi.register_student_to_course " S1" "C1 " w1 in
   Spec.enrollment_count S C (registrations (db w2)) = 1%nat /\
   n2 = TkinterUi.Label "Already registered, chill" /\ w2 = w1 /\
   (has_registration S C (registrations (db w)) = false ->
    n1 = TkinterUi.Registered_mark /\
    registrations (db w1) = (registrations (db w) ++ [(S, C)])%list)).
Proof.
  apply (tkinter_register_button " S1" "C1 " Scenario.school). constructor.
Defined.

(** The "Assign" button of the tkinter front-end replaces whoever holds
    the slot: for a stored instructor [I] and a stored course [C] whose
    slot does not already read [I], it answers with the check mark and the
    slot of [C] holds [I] afterwards, also when another instructor held it
    before; every other slot and the rest of the store are unchanged. *)
Theorem tkinter_assign_button_replaces (ins_id_e ins_course_dd : string) (w : world)
    (old : option string) :
  let I := Py.strip ins_id_e in
  let C := Py.strip ins_course_dd in
  has_person I (instructors (db w)) = true ->
  Spec.instructor_slot C (db w) = Some old ->
  TkinterUi.or_empty old <> I ->
  let (n, w') := TkinterUi.assign_instructor_to_course ins_id_e ins_course_dd w in
  n = TkinterUi.Assigned_mark /\
  Spec.instructor_slot C (db w') = Some (Some I) /\
  (forall C', C' <> C ->
     Spec.instructor_slot C' (db w') = Spec.instructor_slot C' (db w)) /\
  students (db w') = students (db w) /\ instructors (db w') = instructors (db w) /\
  registrations (db w') = registrations (db w).
Proof.
  intros I C HI Hslot Hold. subst I C.
  set (I := Py.strip ins_id_e) in *. set (C := Py.strip ins_course_dd) in *.
  unfold TkinterUi.assign_instructor_to_course. cbv zeta. fold I C.
  unfold Utils.get_instructor, Utils.get_course.
  destruct (find_is_Some _ _ HI) as [ri ->].
  pose proof (instructor_slot_has_course _ _ _ Hslot) as HC.
  pose proof Hslot as Hrow.
  apply instructor_slot_row in Hrow as (rc & Hfind & _ & Hid & Hi).
  rewrite Hfind, Hi.
  apply String.eqb_neq in Hold. rewrite Hold.
  rewrite (utils_assign_updates w I C HI HC).
  split; [reflexivity|]. unfold Spec.instructor_slot. simpl.
  split.
  { rewrite find_update_where by reflexivity. rewrite Hfind. simpl.
    now rewrite Hid, String.eqb_refl. }
  split; [|repeat split].
  intros C' Hneq. rewrite find_update_where by reflexivity.
  destruct (find (fun r => String.eqb (course_id r) C') (courses (db w))) as [r|] eqn:E;
    [|reflexivity].
  apply find_some in E as [_ Hr]. apply String.eqb_eq in Hr. simpl.
  assert (E2 : String.eqb (course_id r) C = false)
    by (apply String.eqb_neq; congruence).
  now rewrite E2.
Qed.

Lemma tkinter_assign_button_replaces_witness :
  let w := mk_world (mk_database [] [Scenario.ira; mk_person_row "I2" "Joe" 50 "joe@x.com"]
                       [set_instructor (Some "I1") Scenario.algo] []) [] in
  let (n, w') := TkinterUi.assign_instructor_to_course "I2" "C1" w in
  n = TkinterUi.Assigned_mark /\
  Spec.instructor_slot "C1" (db w') = Some (Some "I2") /\
  (forall C', C' <> "C1" ->
     Spec.instructor_slot C' (db w') = Spec.instructor_slot C' (db w)) /\
  students (db w') = students (db w) /\ instructors (db w') = instructors (db w) /\
  registrations (db w') = registrations (db w).
Proof.
  apply (tkinter_assign_button_replaces "I2" "C1"
           (mk_world (mk_database [] [Scenario.ira; mk_person_row "I2" "Joe" 50 "joe@x.com"]
                        [set_instructor (Some "I1") Scenario.algo] []) [])
           (Some "I1"));
    [reflexivity | reflexivity | discriminate].
Defined.

(** The course form of the tkinter front-end never stores a dangling
    instructor id. Creating a course with a fresh id and a non-empty name
    always succeeds; the stored slot holds the chosen instructor when that
    instructor is stored, and is empty otherwise (nothing chosen, or an id
    that is not in the table). *)
Theorem tkinter_course_form_instructor (crs_name_e crs_id_e crs_inst_dd : string)
    (w : world) :
  let name := Py.strip crs_name_e in
  let cid := Py.strip crs_id_e in
  let inst := Py.strip crs_inst_dd in
  Py.truthy name = true -> Py.truthy cid = true ->
  has_course cid (courses (db w)) = false ->
  let slot := if Py.truthy inst && has_person inst (instructors (db w))
              then Some inst else None in
  TkinterUi.add_or_save_course crs_name_e crs_id_e crs_inst_dd None w
  = (TkinterUi.Form_cleared,
     commit (mk_database (students (db w)) (instructors (db w))
               (courses (db w) ++ [mk_course_row cid name slot])%list
               (registrations (db w))) w).
Proof.
  intros name cid inst Hn Hc Hfresh slot. subst name cid inst slot.
  unfold TkinterUi.add_or_save_course. cbv zeta. rewrite Hn, Hc. cbn [negb orb].
  set (inst := Py.strip crs_inst_dd).
  assert (E : (match (if Py.truthy inst then Utils.get_instructor inst (db w) else None)
               with Some _ => Some inst | None => None end)
              = (if Py.truthy inst && has_person inst (instructors (db w))
                 then Some inst else None)).
  { destruct (Py.truthy inst); simpl; [|reflexivity].
    unfold Utils.get_instructor.
    destruct (has_person inst (instructors (db w))) eqn:H.
    - now destruct (find_is_Some _ _ H) as [r ->].
    - unfold has_person in H. now rewrite (find_is_None _ _ H). }
  rewrite E. unfold Utils.add_course, Database.run. simpl. rewrite Hfresh. simpl.
  destruct (Py.truthy inst); simpl; [|reflexivity].
  destruct (has_person inst (instructors (db w))) eqn:H; simpl; [|reflexivity].
  now rewrite H.
Qed.

Lemma tkinter_course_form_instructor_witness :
  TkinterUi.add_or_save_course "Logic" "C3" "I9" None Scenario.school
  = (TkinterUi.Form_cleared,
     commit (mk_database (students (db Scenario.school)) (instructors (db Scenario.school))
               (courses (db Scenario.school) ++ [mk_course_row "C3" "Logic" None])%list
               (registrations (db Scenario.school))) Scenario.school).
Proof.
  apply (tkinter_course_form_instructor "Logic" "C3" "I9" Scenario.school);
    reflexivity.
Defined.

(** ** The object graph of classes.py *)

Lemma contains_In (x : Objects.ref) (l : list Objects.ref) :
  Objects.contains x l = true <-> In x l.
Proof.
  unfold Objects.contains. rewrite existsb_exists. split.
  - intros (y & Hin & Hy). apply Nat.eqb_eq in Hy. now subst y.
  - intros H. exists x. split; [assumption | apply Nat.eqb_refl].
Qed.

Lemma contains_not_In (x : Objects.ref) (l : list Objects.ref) :
  Objects.contains x l = false <-> ~ In x l.
Proof.
  rewrite <- contains_In. destruct (Objects.contains x l); split; congruence.
Qed.

Lemma remove_In (x : Objects.ref) (l : list Objects.ref) :
  In x l -> exists l', Objects.remove x l = Some l'.
Proof.
  induction l as [|y t IH]; simpl; [tauto|]. intros H.
  destruct (Nat.eqb y x) eqn:E; [eauto|].
  apply Nat.eqb_neq in E. destruct H as [H | H]; [congruence|].
  destruct (IH H) as [l' ->]. simpl. eauto.
Qed.

Lemma remove_not_In (x : Objects.ref) (l : list Objects.ref) :
  ~ In x l -> Objects.remove x l = None.
Proof.
  induction l as [|y t IH]; simpl; [reflexivity|]. intros H.
  destruct (Nat.eqb y x) eqn:E.
  - apply Nat.eqb_eq in E. tauto.
  - rewrite IH by tauto. reflexivity.
Qed.

Lemma remove_NoDup (x : Objects.ref) (l l' : list Objects.ref) :
  NoDup l -> Objects.remove x l = Some l' ->
  NoDup l' /\ forall y, In y l' <-> In y l /\ y <> x.
Proof.
  revert l'. induction l as [|y t IH]; simpl; intros l' Hnd H; [discriminate|].
  inversion Hnd as [|? ? Hy Ht]; subst.
  destruct (Nat.eqb y x) eqn:E.
  - apply Nat.eqb_eq in E. subst y. injection H as <-. split; [assumption|].
    intros z. split.
    + intros Hz. split; [now right|]. intros ->. contradiction.
    + intros [[Hz | Hz] Hne]; [congruence | assumption].
  - apply Nat.eqb_neq in E. destruct (Objects.remove x t) as [t'|]; [|discriminate].
    injection H as <-. destruct (IH t' Ht eq_refl) as [Hnd' Hin]. split.
    + constructor; [|assumption]. rewrite Hin. tauto.
    + intros z. simpl. rewrite Hin. split.
      * intros [-> | [Hz Hne]]; auto.
      * intros [[-> | Hz] Hne]; auto.
Qed.

Lemma remove_length (x : Objects.ref) (l l' : list Objects.ref) :
  Objects.remove x l = Some l' -> length l = S (length l').
Proof.
  revert l'. induction l as [|y t IH]; simpl; intros l' H; [discriminate|].
  destruct (Nat.eqb y x).
  - now injection H as <-.
  - destruct (Objects.remove x t) as [t'|]; [|discriminate].
    injection H as <-. simpl. now rewrite (IH t' eq_refl).
Qed.

Lemma remove_snoc (x : Objects.ref) (l : list Objects.ref) :
  ~ In x l -> Objects.remove x (l ++ [x]) = Some l.
Proof.
  induction l as [|y t IH]; simpl; intros H.
  - now rewrite Nat.eqb_refl.
  - destruct (Nat.eqb y x) eqn:E.
    + apply Nat.eqb_eq in E. tauto.
    + rewrite IH by tauto. reflexivity.
Qed.

Lemma upd_same {A : Type} (f : Objects.ref -> A) (k : Objects.ref) (v : A) :
  Objects.upd f k v k = v.
Proof. unfold Objects.upd. now rewrite Nat.eqb_refl. Qed.

Lemma upd_other {A : Type} (f : Objects.ref -> A) (k x : Objects.ref) (v : A) :
  x <> k -> Objects.upd f k v x = f x.
Proof. unfold Objects.upd. intros H. apply Nat.eqb_neq in H. now rewrite H. Qed.

Ltac upd_cases x k :=
  unfold Objects.upd; cbv beta;
  let E := fresh "E" in
  destruct (Nat.eqb x k) eqn:E;
  [apply Nat.eqb_eq in E; subst x | apply Nat.eqb_neq in E].

(** [Student.register_course] and [Student.unregister_course] keep the two
    sides of the enrollments linked, and on linked objects
    [unregister_course] never raises. *)
Theorem objects_enrollments_stay_linked (s c : Objects.ref) (h : Objects.heap) :
  Objects.enrollments_linked h ->
  Objects.enrollments_linked (Objects.register_course s c h) /\
  exists h', Objects.unregister_course s c h = (Py.Return tt, h') /\
             Objects.enrollments_linked h'.
Proof.
  intros (Hr & He & Hl). split.
  - unfold Objects.register_course.
    destruct (Objects.contains c (Objects.registered_courses h s)) eqn:E; simpl;
      [now repeat split; try apply Hl|].
    apply contains_not_In in E. assert (E' := E). rewrite Hl in E'.
    repeat split; simpl.
    + intros x. upd_cases x s; [now apply NoDup_snoc | apply Hr].
    + intros x. upd_cases x c; [now apply NoDup_snoc | apply He].
    + upd_cases s0 s; upd_cases c0 c; rewrite ?in_app_iff; simpl;
        rewrite ?Hl; try tauto.
      all: intros [H | [H | []]]; [first [assumption | now apply Hl] | congruence].
    + upd_cases s0 s; upd_cases c0 c; rewrite ?in_app_iff; simpl;
        rewrite <- ?Hl; try tauto.
      all: intros [H | [H | []]]; [first [assumption | now apply Hl] | congruence].
  - unfold Objects.unregister_course.
    destruct (Objects.contains c (Objects.registered_courses h s)) eqn:E;
      [|eexists; split; [reflexivity | now repeat split; try apply Hl]].
    apply contains_In in E. assert (E' := E). rewrite Hl in E'.
    destruct (remove_In _ _ E) as [l Hrem]. rewrite Hrem. simpl.
    destruct (remove_In _ _ E') as [m Hrem']. rewrite Hrem'.
    destruct (remove_NoDup _ _ _ (Hr s) Hrem) as [Hndl Hinl].
    destruct (remove_NoDup _ _ _ (He c) Hrem') as [Hndm Hinm].
    eexists. split; [reflexivity|]. repeat split; simpl.
    + intros x. upd_cases x s; [assumption | apply Hr].
    + intros x. upd_cases x c; [assumption | apply He].
    + upd_cases s0 s; upd_cases c0 c; rewrite ?Hinl, ?Hinm, ?Hl; tauto.
    + upd_cases s0 s; upd_cases c0 c; rewrite ?Hinl, ?Hinm, <- ?Hl; tauto.
Qed.

Lemma fresh_enrollments_linked (f : Objects.ref -> option Objects.ref) :
  Objects.enrollments_linked (Objects.fresh f).
Proof. repeat split; simpl; try constructor; tauto. Qed.

Lemma objects_enrollments_stay_linked_witness :
  Objects.enrollments_linked
    (Objects.register_course 1%nat 2%nat (Objects.fresh (fun _ => None))) /\
  exists h', Objects.unregister_course 1%nat 2%nat (Objects.fresh (fun _ => None))
             = (Py.Return tt, h') /\
             Objects.enrollments_linked h'.
Proof.
  apply (objects_enrollments_stay_linked 1%nat 2%nat (Objects.fresh (fun _ => None))).
  apply fresh_enrollments_linked.
Defined.

Lemma contains_snoc (x : Objects.ref) (l : list Objects.ref) :
  Objects.contains x (l ++ [x])%list = true.
Proof. apply contains_In, in_or_app. right. now left. Qed.

Lemma remove_incl (x y : Objects.ref) (l l' : list Objects.ref) :
  Objects.remove x l = Some l' -> In y l' -> In y l.
Proof.
  revert l'. induction l as [|z t IH]; simpl; intros l' H; [discriminate|].
  destruct (Nat.eqb z x).
  - injection H as <-. now right.
  - destruct (Objects.remove x t) as [t'|]; [|discriminate].
    injection H as <-. intros [-> | Hy]; [now left | right; now apply (IH t')].
Qed.

(** Registering for a course and unregistering again restores both lists:
    for a student and a course that do not list each other,
    [unregister_course] after [register_course] returns normally and every
    attribute of every object is what it was before. *)
Theorem objects_register_unregister_round_trip (s c : Objects.ref) (h : Objects.heap) :
  Objects.contains c (Objects.registered_courses h s) = false ->
  Objects.contains s (Objects.enrolled_students h c) = false ->
  exists h',
    Objects.unregister_course s c (Objects.register_course s c h) = (Py.Return tt, h') /\
    (forall x, Objects.registered_courses h' x = Objects.registered_courses h x) /\
    (forall x, Objects.enrolled_students h' x = Objects.enrolled_students h x) /\
    Objects.instructor h' = Objects.instructor h /\
    Objects.assigned_courses h' = Objects.assigned_courses h.
Proof.
  intros Hc Hs. unfold Objects.register_course. rewrite Hc. simpl.
  unfold Objects.unregister_course. simpl.
  rewrite !upd_same, contains_snoc, !remove_snoc by now apply contains_not_In.
  eexists. split; [reflexivity|]. simpl. repeat split.
  - intros x. upd_cases x s; reflexivity.
  - intros x. upd_cases x c; reflexivity.
Qed.

Lemma objects_register_unregister_round_trip_witness :
  exists h',
    Objects.unregister_course 1%nat 2%nat
      (Objects.register_course 1%nat 2%nat
         (Objects.register_course 1%nat 3%nat (Objects.fresh (fun _ => None))))
    = (Py.Return tt, h') /\
    (forall x, Objects.registered_courses h' x
               = Objects.registered_courses
                   (Objects.register_course 1%nat 3%nat (Objects.fresh (fun _ => None))) x) /\
    (forall x, Objects.enrolled_students h' x
               = Objects.enrolled_students
                   (Objects.register_course 1%nat 3%nat (Objects.fresh (fun _ => None))) x) /\
    Objects.instructor h'
    = Objects.instructor (Objects.register_course 1%nat 3%nat (Objects.fresh (fun _ => None))) /\
    Objects.assigned_courses h'
    = Objects.assigned_courses
        (Objects.register_course 1%nat 3%nat (Objects.fresh (fun _ => None))).
Proof.
  apply (objects_register_unregister_round_trip 1%nat 2%nat
           (Objects.register_course 1%nat 3%nat (Objects.fresh (fun _ => None))));
    reflexivity.
Defined.

(** [Course.add_student] changes the course only: the student's own list
    does not learn of the enrollment, so the two sides are no longer
    linked, and a later [register_course] for the same course enrolls
    the student a second time. *)
Theorem objects_add_student_is_one_sided (s c : Objects.ref) (h : Objects.heap) :
  Objects.contains s (Objects.enrolled_students h c) = false ->
  Objects.contains c (Objects.registered_courses h s) = false ->
  let h1 := Objects.add_student c s h in
  Objects.registered_courses h1 s = Objects.registered_courses h s /\
  ~ Objects.enrollments_linked h1 /\
  Objects.enrolled_students (Objects.register_course s c h1) c
  = (Objects.enrolled_students h c ++ [s; s])%list.
Proof.
  intros Hs Hc. unfold Objects.add_student. rewrite Hs. simpl.
  split; [reflexivity|]. split.
  - intros (_ & _ & Hl). simpl in Hl. apply contains_not_In in Hc. apply Hc.
    apply Hl. rewrite upd_same. apply in_or_app. right. now left.
  - unfold Objects.register_course. simpl. rewrite Hc. simpl.
    rewrite !upd_same, <- app_assoc. reflexivity.
Qed.

Lemma objects_add_student_is_one_sided_witness :
  let h := Objects.fresh (fun _ => None) in
  let h1 := Objects.add_student 2%nat 1%nat h in
  Objects.registered_courses h1 1%nat = Objects.registered_courses h 1%nat /\
  ~ Objects.enrollments_linked h1 /\
  Objects.enrolled_students (Objects.register_course 1%nat 2%nat h1) 2%nat
  = (Objects.enrolled_students h 2%nat ++ [1%nat; 1%nat])%list.
Proof.
  apply (objects_add_student_is_one_sided 1%nat 2%nat (Objects.fresh (fun _ => None)));
    reflexivity.
Defined.

(** [Student.unregister_course] removes the course from the student's list
    before it touches the course. When the course does not list the
    student, the second [remove] raises [ValueError] and the first change
    stays: the student has one course fewer, the course is unchanged and
    nothing is printed. *)
Theorem objects_unregister_raises_half_done (s c : Objects.ref) (h : Objects.heap) :
  In c (Objects.registered_courses h s) ->
  ~ In s (Objects.enrolled_students h c) ->
  exists h',
    Objects.unregister_course s c h = (Py.Raise Objects.not_in_list, h') /\
    length (Objects.registered_courses h s) = S (length (Objects.registered_courses h' s)) /\
    (forall x, x <> s ->
       Objects.registered_courses h' x = Objects.registered_courses h x) /\
    Objects.enrolled_students h' = Objects.enrolled_students h /\
    Objects.stdout h' = Objects.stdout h.
Proof.
  intros Hc Hs. unfold Objects.unregister_course.
  rewrite (proj2 (contains_In _ _) Hc).
  destruct (remove_In _ _ Hc) as [l Hrem]. rewrite Hrem. simpl.
  rewrite (remove_not_In _ _ Hs).
  eexists. split; [reflexivity|]. simpl. rewrite upd_same. repeat split.
  - now apply remove_length in Hrem.
  - intros x Hx. now apply upd_other.
Qed.

Lemma objects_unregister_raises_half_done_witness :
  let h := Objects.mk_heap (fun _ => [2%nat]) (fun _ => []) (fun _ => None) (fun _ => []) [] in
  exists h',
    Objects.unregister_course 1%nat 2%nat h = (Py.Raise Objects.not_in_list, h') /\
    length (Objects.registered_courses h 1%nat)
    = S (length (Objects.registered_courses h' 1%nat)) /\
    (forall x, x <> 1%nat ->
       Objects.registered_courses h' x = Objects.registered_courses h x) /\
    Objects.enrolled_students h' = Objects.enrolled_students h /\
    Objects.stdout h' = Objects.stdout h.
Proof.
  apply (objects_unregister_raises_half_done 1%nat 2%nat
           (Objects.mk_heap (fun _ => [2%nat]) (fun _ => []) (fun _ => None)
              (fun _ => []) [])).
  - simpl. now left.
  - simpl. tauto.
Defined.

(** [Instructor.assign_course] and [Instructor.unassign_course] keep the
    two sides of the assignments linked: afterwards the courses in an
    instructor's list are still exactly the courses whose instructor it
    is, so no course is ever in the lists of two instructors. *)
Theorem objects_assignments_stay_linked (i c : Objects.ref) (h : Objects.heap) :
  Objects.assignments_linked h ->
  Objects.assignments_linked (Objects.assign_course i c h) /\
  exists h', Objects.unassign_course i c h = (Py.Return tt, h') /\
             Objects.assignments_linked h'.
Proof.
  intros (Hnd & Hl). split.
  - unfold Objects.assign_course.
    destruct (Objects.instructor h c) as [j|] eqn:Ej; [now split|].
    assert (Hc : ~ In c (Objects.assigned_courses h i))
      by (rewrite Hl; congruence).
    rewrite (proj2 (contains_not_In _ _) Hc). simpl. split; simpl.
    + intros x. upd_cases x i; [now apply NoDup_snoc | apply Hnd].
    + intros x y. upd_cases x i; upd_cases y c; rewrite ?in_app_iff; simpl;
        rewrite ?Hl, ?Ej; split; try tauto; try congruence.
      all: try (intros [H | [H | []]]; congruence).
  - unfold Objects.unassign_course.
    destruct (Objects.contains c (Objects.assigned_courses h i)) eqn:E;
      [|eexists; split; [reflexivity | now split]].
    apply contains_In in E. destruct (remove_In _ _ E) as [l Hrem]. rewrite Hrem.
    destruct (remove_NoDup _ _ _ (Hnd i) Hrem) as [Hndl Hinl].
    eexists. split; [reflexivity|]. split; simpl.
    + intros x. upd_cases x i; [assumption | apply Hnd].
    + apply Hl in E.
      intros x y. upd_cases x i; upd_cases y c; rewrite ?Hinl, ?Hl; split;
        try tauto; try congruence.
Qed.

Lemma objects_assignments_stay_linked_witness :
  Objects.assignments_linked
    (Objects.assign_course 1%nat 2%nat (Objects.fresh (fun _ => None))) /\
  exists h', Objects.unassign_course 1%nat 2%nat (Objects.fresh (fun _ => None))
             = (Py.Return tt, h') /\
             Objects.assignments_linked h'.
Proof.
  apply (objects_assignments_stay_linked 1%nat 2%nat (Objects.fresh (fun _ => None))).
  split; simpl; [constructor|]. intros i c. split; [tauto | discriminate].
Defined.

(** An instructor passed to the constructor of [Course] is not in any
    list of assigned courses, and from then on neither method can change
    that course's instructor: [assign_course] refuses because the course
    is taken, [unassign_course] because the course is in nobody's list.
    The condition is preserved by every call, for any instructor and any
    course, so it holds after any sequence of calls. *)
Theorem objects_constructor_instructor_is_permanent
    (i c j c' : Objects.ref) (h : Objects.heap) :
  Objects.instructor h c = Some i ->
  (forall k, ~ In c (Objects.assigned_courses h k)) ->
  let h1 := Objects.assign_course j c' h in
  let h2 := snd (Objects.unassign_course j c' h) in
  (Objects.instructor h1 c = Some i /\
   forall k, ~ In c (Objects.assigned_courses h1 k)) /\
  (Objects.instructor h2 c = Some i /\
   forall k, ~ In c (Objects.assigned_courses h2 k)).
Proof.
  intros Hi Hno. split.
  - unfold Objects.assign_course.
    destruct (Objects.instructor h c') as [x|] eqn:Ex; [now split|].
    assert (Hne : c <> c') by congruence.
    destruct (Objects.contains c' (Objects.assigned_courses h j)); simpl;
      [now split|]. split.
    + now rewrite upd_other.
    + intros k. upd_cases k j; [|apply Hno].
      rewrite in_app_iff. simpl. intros [H | [H | []]]; [now apply (Hno j) | congruence].
  - unfold Objects.unassign_course.
    destruct (Objects.contains c' (Objects.assigned_courses h j)) eqn:E; [|now split].
    apply contains_In in E.
    assert (Hne : c <> c') by (intros ->; now apply (Hno j)).
    destruct (remove_In _ _ E) as [l Hrem]. rewrite Hrem. simpl. split.
    + now rewrite upd_other.
    + intros k. upd_cases k j; [|apply Hno].
      intros H. apply (Hno j). now apply (remove_incl _ _ _ _ Hrem).
Qed.

Lemma objects_constructor_instructor_is_permanent_witness :
  let h := Objects.fresh (fun c => if Nat.eqb c 2 then Some 1%nat else None) in
  let h1 := Objects.assign_course 5%nat 2%nat h in
  let h2 := snd (Objects.unassign_course 1%nat 2%nat h) in
  (Objects.instructor h1 2%nat = Some 1%nat /\
   forall k, ~ In 2%nat (Objects.assigned_courses h1 k)) /\
  (Objects.instructor h2 2%nat = Some 1%nat /\
   forall k, ~ In 2%nat (Objects.assigned_courses h2 k)).
Proof.
  apply (objects_constructor_instructor_is_permanent 1%nat 2%nat 5%nat 2%nat
           (Objects.fresh (fun c => if Nat.eqb c 2 then Some 1%nat else None))).
  - reflexivity.
  - simpl. tauto.
Defined.

(** ** Objects loaded by DatabaseManager *)

Lemma for_each_Forall {A B : Type} (f : A -> Py.result B) (P : B -> Prop)
    (l : list A) (ys : list B) :
  (forall x y, f x = Py.Return y -> P y) ->
  DatabasePyqt.for_each f l = Py.Return ys -> Forall P ys.
Proof.
  intros Hf. revert ys. induction l as [|x l IH]; simpl; intros ys H.
  - injection H as <-. constructor.
  - destruct (f x) as [y|e] eqn:Ey; simpl in H; [|discriminate].
    destruct (DatabasePyqt.for_each f l) as [zs|e]; simpl in H; [|discriminate].
    injection H as <-. constructor; eauto.
Qed.

Lemma course_of_row_shallow (d : database) (r : course_row) (c : Classes.Course) :
  DatabasePyqt.course_of_row d r = Py.Return c ->
  Classes.enrolled_students c = [] /\
  forall j, Classes.instructor c = Some j -> Classes.assigned_courses j = [].
Proof.
  unfold DatabasePyqt.course_of_row. intros H.
  match type of H with Py.bind ?m _ = _ => destruct m as [io|e] eqn:Eio end;
    simpl in H; [|discriminate].
  apply Course_init_Return in H as (-> & _). simpl. split; [reflexivity|].
  intros j ->.
  destruct (instructor_id r) as [x|]; [|discriminate].
  destruct (Py.truthy x); [|discriminate].
  destruct (find _ (instructors d)) as [row|]; [|discriminate].
  unfold DatabasePyqt.instructor_of_row in Eio.
  destruct (Classes.Instructor_init _ _ _ _) as [o|e] eqn:Eo; simpl in Eio;
    [|discriminate].
  injection Eio as <-. now apply Instructor_init_Return in Eo as (-> & _).
Qed.

(** The objects that [DatabaseManager] loads are one level deep and do not
    refer back. A loaded student lists courses that have no enrolled
    students; a loaded instructor lists courses that have no instructor;
    a loaded course lists students that have no courses; and an instructor
    found inside a course has no assigned courses. *)
Theorem pyqt_loaded_objects_do_not_refer_back
    (sid iid cid : string) (d : database)
    (s : Classes.Student) (i : Classes.Instructor) (c : Classes.Course) :
  DatabasePyqt.get_student sid d = Py.Return (Some s) ->
  DatabasePyqt.get_instructor iid d = Py.Return (Some i) ->
  DatabasePyqt.get_course cid d = Py.Return (Some c) ->
  Forall (fun c' => Classes.enrolled_students c' = [] /\
                    forall j, Classes.instructor c' = Some j ->
                              Classes.assigned_courses j = [])
         (Classes.registered_courses s) /\
  Forall (fun c' => Classes.instructor c' = None /\ Classes.enrolled_students c' = [])
         (Classes.assigned_courses i) /\
  Forall (fun s' => Classes.registered_courses s' = []) (Classes.enrolled_students c) /\
  (forall j, Classes.instructor c = Some j -> Classes.assigned_courses j = []).
Proof.
  intros Hs Hi Hc. repeat split.
  - unfold DatabasePyqt.get_student in Hs.
    destruct (find _ (students d)) as [row|]; [|discriminate].
    destruct (DatabasePyqt.student_of_row row) as [s0|e]; simpl in Hs; [|discriminate].
    destruct (DatabasePyqt.get_student_courses sid d) as [cs|e] eqn:Ecs; simpl in Hs;
      [|discriminate].
    injection Hs as <-. simpl.
    refine (for_each_Forall _ _ _ _ _ Ecs). apply course_of_row_shallow.
  - unfold DatabasePyqt.get_instructor in Hi.
    destruct (find _ (instructors d)) as [row|]; [|discriminate].
    destruct (DatabasePyqt.instructor_of_row row) as [i0|e]; simpl in Hi; [|discriminate].
    destruct (DatabasePyqt.get_instructor_courses iid d) as [cs|e] eqn:Ecs; simpl in Hi;
      [|discriminate].
    injection Hi as <-. simpl.
    refine (for_each_Forall _ _ _ _ _ Ecs). intros r c' H.
    now apply Course_init_Return in H as (-> & _).
  - unfold DatabasePyqt.get_course in Hc.
    destruct (find _ (courses d)) as [row|]; [|discriminate].
    destruct (DatabasePyqt.course_of_row d row) as [c0|e]; simpl in Hc; [|discriminate].
    destruct (DatabasePyqt.get_course_students cid d) as [ss|e] eqn:Ess; simpl in Hc;
      [|discriminate].
    injection Hc as <-. simpl.
    refine (for_each_Forall _ _ _ _ _ Ess). intros r s' H.
    unfold DatabasePyqt.student_of_row in H.
    now apply Student_init_Return in H as (-> & _).
  - unfold DatabasePyqt.get_course in Hc.
    destruct (find _ (courses d)) as [row|]; [|discriminate].
    destruct (DatabasePyqt.course_of_row d row) as [c0|e] eqn:Ec0; simpl in Hc;
      [|discriminate].
    destruct (DatabasePyqt.get_course_students cid d) as [ss|e]; simpl in Hc;
      [|discriminate].
    injection Hc as <-. simpl.
    destruct (course_of_row_shallow _ _ _ Ec0) as [_ H]. exact H.
Qed.

Lemma pyqt_loaded_objects_do_not_refer_back_witness :
  let ira := Classes.mk_Instructor "Ira" 41 "ira@x.com" "I1" [] in
  let s := Classes.mk_Student "Ann" 20 "ann@x.com" "S1"
             [Classes.mk_Course "C1" "Algo" (Some ira) []] in
  let i := Classes.mk_Instructor "Ira" 41 "ira@x.com" "I1"
             [Classes.mk_Course "C1" "Algo" None []] in
  let c := Classes.mk_Course "C1" "Algo" (Some ira)
             [Classes.mk_Student "Ann" 20 "ann@x.com" "S1" []] in
  Forall (fun c' => Classes.enrolled_students c' = [] /\
                    forall j, Classes.instructor c' = Some j ->
                              Classes.assigned_courses j = [])
         (Classes.registered_courses s) /\
  Forall (fun c' => Classes.instructor c' = None /\ Classes.enrolled_students c' = [])
         (Classes.assigned_courses i) /\
  Forall (fun s' => Classes.registered_courses s' = []) (Classes.enrolled_students c) /\
  (forall j, Classes.instructor c = Some j -> Classes.assigned_courses j = []).
Proof.
  apply (pyqt_loaded_objects_do_not_refer_back "S1" "I1" "C1"
           (db Scenario.school_enrolled)); reflexivity.
Defined.

(** ** JSON export and import *)

Lemma NoDup_key_inj {A : Type} (key : A -> string) (t : list A) (x y : A) :
  NoDup (map key t) -> In x t -> In y t -> key x = key y -> x = y.
Proof.
  induction t as [|z t IH]; simpl; intros H Hx Hy Hk; [contradiction|].
  inversion H as [|? ? Hz Hnd]; subst.
  destruct Hx as [-> | Hx], Hy as [-> | Hy]; auto.
  - exfalso. apply Hz. rewrite Hk. now apply in_map.
  - exfalso. apply Hz. rewrite <- Hk. now apply in_map.
Qed.

Lemma update_where_fixed {A : Type} (p : A -> bool) (f : A -> A) (t : list A) :
  (forall x, In x t -> p x = true -> f x = x) -> update_where p f t = t.
Proof.
  unfold update_where. induction t as [|x t IH]; simpl; intros H; [reflexivity|].
  rewrite IH by auto. destruct (p x) eqn:E; [|reflexivity].
  now rewrite H by auto.
Qed.

Lemma insert_person_present (sch : schema) (id nm : string) (ag : Z) (em : string)
    (t : list person_row) :
  has_person id t = true -> exists e, insert_person sch id nm ag em t = inl e.
Proof.
  intros H. unfold insert_person. rewrite H.
  destruct (negb (fits_int64 ag)); [eauto|].
  destruct (age_check sch && (ag <? 0)); eauto.
Qed.

Lemma update_person_same_row (sch : schema) (t t' : list person_row) (r : person_row)
    (n : Z) :
  NoDup (map person_id t) -> In r t ->
  update_person sch (name r) (age r) (email r) (person_id r) t = inr (t', n) ->
  t' = t.
Proof.
  intros Hnd Hr. unfold update_person.
  destruct (negb (fits_int64 (age r))); [discriminate|].
  destruct (negb (has_person (person_id r) t)); [now intros [= <- _]|].
  destruct (age_check sch && (age r <? 0)); [discriminate|].
  destruct (has_email_elsewhere _ _ t); [discriminate|].
  intros [= <- _]. apply update_where_fixed. intros x Hx Hp.
  apply String.eqb_eq in Hp.
  rewrite <- (NoDup_key_inj person_id t x r Hnd Hx Hr Hp). now destruct x.
Qed.

Lemma in_has_person (r : person_row) (t : list person_row) :
  In r t -> has_person (person_id r) t = true.
Proof. intros H. apply has_person_In. now apply in_map. Qed.

Lemma in_has_course (c : course_row) (t : list course_row) :
  In c t -> has_course (course_id c) t = true.
Proof. intros H. apply has_course_In. now apply in_map. Qed.

Lemma import_student_own (w : world) (r : person_row) (cs : list string) :
  NoDup (map person_id (students (db w))) -> In r (students (db w)) ->
  db (Json.import_student
        (Json.mk_student_entry (person_id r) (name r) (age r) (email r) cs) w)
  = db w.
Proof.
  intros Hnd Hr.
  unfold Json.import_student, Utils.add_student, Utils.update_student, Database.run.
  cbn [Json.s_name Json.s_age Json.s_email Json.s_student_id Utils.int_or_0 Py.int execute].
  destruct (insert_person_present Database.init_db (person_id r) (name r) (age r)
              (email r) _ (in_has_person _ _ Hr)) as [e ->].
  cbn [Utils.is_not_None negb db print].
  destruct (update_person _ _ _ _ _ (students (db w))) as [e'|[t n]] eqn:E;
    [reflexivity|].
  apply update_person_same_row in E; [|assumption..]. subst t.
  cbn. apply database_eta.
Qed.

Lemma import_instructor_own (w : world) (r : person_row) (cs : list string) :
  NoDup (map person_id (instructors (db w))) -> In r (instructors (db w)) ->
  db (Json.import_instructor
        (Json.mk_instructor_entry (person_id r) (name r) (age r) (email r) cs) w)
  = db w.
Proof.
  intros Hnd Hr.
  unfold Json.import_instructor, Utils.add_instructor, Utils.update_instructor,
    Database.run.
  cbn [Json.i_name Json.i_age Json.i_email Json.i_instructor_id Utils.int_or_0 Py.int
       execute].
  destruct (insert_person_present Database.init_db (person_id r) (name r) (age r)
              (email r) _ (in_has_person _ _ Hr)) as [e ->].
  cbn [Utils.is_not_None negb db print].
  destruct (update_person _ _ _ _ _ (instructors (db w))) as [e'|[t n]] eqn:E;
    [reflexivity|].
  apply update_person_same_row in E; [|assumption..]. subst t.
  cbn. apply database_eta.
Qed.

Lemma import_course_own (w : world) (c : course_row) (ss : list string) :
  NoDup (map course_id (courses (db w))) -> In c (courses (db w)) ->
  db (Json.import_course
        (Json.mk_course_entry (course_id c) (course_name c) (instructor_id c) ss) w)
  = db w.
Proof.
  intros Hnd Hc.
  unfold Json.import_course, Utils.add_course, Utils.update_course, Database.run.
  cbn [Json.c_course_id Json.c_course_name Json.c_instructor_id execute].
  rewrite (in_has_course _ _ Hc).
  cbn [Utils.is_not_None negb db print].
  rewrite (in_has_course _ _ Hc). cbn [negb].
  destruct (negb (instructor_fk_ok _ _ _)); [reflexivity|].
  cbn. rewrite update_where_fixed; [apply database_eta|].
  intros x Hx Hp. apply String.eqb_eq in Hp.
  rewrite <- (NoDup_key_inj course_id _ x c Hnd Hx Hc Hp). now destruct x.
Qed.

Lemma for_loop_invariant {A : Type} (P : world -> Prop) (body : A -> world -> world)
    (l : list A) (w : world) :
  (forall x w', In x l -> P w' -> P (body x w')) -> P w -> P (Json.for_loop body l w).
Proof.
  unfold Json.for_loop. revert w.
  induction l as [|x l IH]; simpl; intros w H Hw; [assumption|].
  apply IH; auto.
Qed.

Lemma student_courses_In (S C : string) (d : database) :
  In C (Utils.student_courses S d) <-> In (S, C) (registrations d).
Proof.
  rewrite <- has_registration_In, <- registered_iff.
  rewrite existsb_exists. split.
  - intros H. exists C. split; [assumption | apply String.eqb_refl].
  - intros (x & Hx & E). apply String.eqb_eq in E. now subst.
Qed.

Lemma course_student_ids_In (S C : string) (d : database) :
  In S (Utils.course_student_ids C d) ->
  In (S, C) (registrations d) /\ has_person S (students d) = true.
Proof.
  unfold Utils.course_student_ids, Utils.course_students.
  rewrite in_map_iff. intros ([s n] & Hs & Hin). simpl in Hs. subst s.
  apply order_by_In, in_flat_map in Hin as ([s c] & Hr & Hin). simpl in Hin.
  destruct (String.eqb c C) eqn:Ec; [|contradiction].
  apply String.eqb_eq in Ec. subst c.
  apply in_map_iff in Hin as (row & Hrow & Hin).
  apply filter_In in Hin as [Hin Hid]. apply String.eqb_eq in Hid.
  injection Hrow as Hrow _. subst. split; [assumption|]. now apply in_has_person.
Qed.

Lemma register_present_db (S C : string) (w : world) :
  In (S, C) (registrations (db w)) ->
  db (snd (Utils.register_student_to_course S C w)) = db w.
Proof.
  intros H. apply has_registration_In in H.
  now rewrite (utils_register_present S C w H).
Qed.

(** Importing the export of a database into that same database changes no
    table: every insertion is refused because the key is taken, every
    update writes the values that are already there, and every enrollment
    is already present. [import_from_json] answers [True]. *)
Theorem import_of_own_export_changes_nothing (w : world) :
  Spec.keys_unique (db w) ->
  let (ok, w') := Json.import_from_json (Json.export_to_json (db w)) w in
  ok = true /\ db w' = db w.
Proof.
  intros (Hs & Hi & Hc & Hr). unfold Json.import_from_json.
  split; [reflexivity|].
  repeat match goal with
         | |- db (Json.for_loop ?b ?l ?w0) = _ =>
             apply (for_loop_invariant (fun w' => db w' = db w) b l w0)
         end; [..|reflexivity]; cbn [Json.export_to_json Json.doc_students
           Json.doc_instructors Json.doc_courses].
  - intros x w' Hx Hw'. apply in_map_iff in Hx as (c & <- & Hin).
    apply order_by_In in Hin. cbn [Json.student_ids Json.c_course_id].
    apply for_loop_invariant; [|assumption].
    intros S w'' HS Hw''. apply course_student_ids_In in HS as [HS _].
    rewrite register_present_db; [assumption | now rewrite Hw''].
  - intros x w' Hx Hw'. apply in_map_iff in Hx as (r & <- & Hin).
    cbn [Json.registered_course_ids Json.s_student_id].
    apply for_loop_invariant; [|assumption].
    intros C w'' HC Hw''. apply student_courses_In in HC.
    rewrite register_present_db; [assumption | now rewrite Hw''].
  - intros x w' Hx Hw'. apply in_map_iff in Hx as (c & <- & Hin).
    apply order_by_In in Hin.
    rewrite import_course_own; [assumption | rewrite Hw'; assumption..].
  - intros x w' Hx Hw'. apply in_map_iff in Hx as (r & <- & Hin).
    apply order_by_In in Hin.
    rewrite import_student_own; [assumption | rewrite Hw'; assumption..].
  - intros x w' Hx Hw'. apply in_map_iff in Hx as (r & <- & Hin).
    apply order_by_In in Hin.
    rewrite import_instructor_own; [assumption | rewrite Hw'; assumption..].
Qed.

Lemma import_of_own_export_changes_nothing_witness :
  let (ok, w') := Json.import_from_json
                    (Json.export_to_json (db Scenario.school_enrolled))
                    Scenario.school_enrolled in
  ok = true /\ db w' = db Scenario.school_enrolled.
Proof.
  apply (import_of_own_export_changes_nothing Scenario.school_enrolled).
  repeat split; simpl; repeat constructor; simpl; intuition discriminate.
Defined.

Lemma insert_by_Permutation {A : Type} (key : A -> string) (x : A) (l : list A) :
  Permutation (insert_by key x l) (x :: l).
Proof.
  induction l as [|y l IH]; simpl; [reflexivity|].
  destruct (String.ltb (key y) (key x)); [|reflexivity].
  rewrite IH. apply perm_swap.
Qed.

Lemma order_by_Permutation {A : Type} (key : A -> string) (l : list A) :
  Permutation (order_by key l) l.
Proof.
  induction l as [|x l IH]; simpl; [reflexivity|].
  rewrite insert_by_Permutation. now constructor.
Qed.

Lemma order_by_NoDup_map {A B : Type} (key : A -> string) (f : A -> B) (l : list A) :
  NoDup (map f l) -> NoDup (map f (order_by key l)).
Proof.
  apply Permutation_NoDup, Permutation_map, Permutation_sym, order_by_Permutation.
Qed.

Lemma has_email_In (e : string) (t : list person_row) :
  has_email e t = true <-> In e (map email t).
Proof.
  unfold has_email. rewrite existsb_exists, in_map_iff.
  split; intros (r & H1 & H2).
  - apply String.eqb_eq in H2. eauto.
  - exists r. split; [assumption|]. now apply String.eqb_eq.
Qed.

Lemma not_true_false (b : bool) : ~ b = true -> b = false.
Proof. now destruct b. Qed.

Lemma NoDup_app_cons_fresh {A B : Type} (f : A -> B) (acc l : list A) (r : A) :
  NoDup (map f (acc ++ r :: l)) -> ~ In (f r) (map f acc).
Proof.
  rewrite map_app. simpl. intros H Hin. apply NoDup_remove_2 in H. apply H.
  apply in_or_app. now left.
Qed.

Lemma insert_person_in_range (id nm : string) (ag : Z) (em : string) (t : list person_row) :
  0 <= ag < 2 ^ 63 -> has_person id t = false -> has_email em t = false ->
  insert_person Database.init_db id nm ag em t
  = inr (t ++ [mk_person_row id nm ag em])%list.
Proof.
  intros Ha Hp He. unfold insert_person. rewrite Hp, He.
  rewrite (proj2 (fits_int64_iff ag)) by lia.
  assert (E : (ag <? 0) = false) by (apply Z.ltb_ge; lia).
  rewrite E. reflexivity.
Qed.

Lemma person_row_eta (r : person_row) :
  mk_person_row (person_id r) (name r) (age r) (email r) = r.
Proof. now destruct r. Qed.

Lemma course_row_eta (c : course_row) :
  mk_course_row (course_id c) (course_name c) (instructor_id c) = c.
Proof. now destruct c. Qed.

Lemma for_loop_cons {A : Type} (body : A -> world -> world) (x : A) (l : list A)
    (w : world) :
  Json.for_loop body (x :: l) w = Json.for_loop body l (body x w).
Proof. reflexivity. Qed.

Lemma for_loop_app {A : Type} (body : A -> world -> world) (l l' : list A) (w : world) :
  Json.for_loop body (l ++ l') w = Json.for_loop body l' (Json.for_loop body l w).
Proof. unfold Json.for_loop. apply fold_left_app. Qed.

Lemma for_loop_map {A B : Type} (f : A -> B) (body : B -> world -> world) (l : list A)
    (w : world) :
  Json.for_loop (fun x => body (f x)) l w = Json.for_loop body (map f l) w.
Proof.
  revert w. induction l as [|x l IH]; intros w; [reflexivity|].
  simpl map. rewrite !for_loop_cons. apply IH.
Qed.

Lemma for_loop_flat_map {A B : Type} (g : A -> list B) (body : B -> world -> world)
    (l : list A) (w : world) :
  Json.for_loop (fun x => Json.for_loop body (g x)) l w
  = Json.for_loop body (flat_map g l) w.
Proof.
  revert w. induction l as [|x l IH]; intros w; [reflexivity|].
  simpl flat_map. rewrite for_loop_cons, for_loop_app. apply IH.
Qed.

(** Importing rows whose keys and emails are new appends them in order. *)
Lemma import_students_fresh (f : person_row -> list string) (l : list person_row) :
  forall w,
  NoDup (map person_id (students (db w) ++ l)) ->
  NoDup (map email (students (db w) ++ l)) ->
  Forall (fun r => 0 <= age r < 2 ^ 63) l ->
  db (Json.for_loop Json.import_student
        (map (fun r => Json.mk_student_entry (person_id r) (name r) (age r) (email r) (f r))
             l) w)
  = mk_database (students (db w) ++ l)%list (instructors (db w)) (courses (db w))
                (registrations (db w)).
Proof.
  induction l as [|r l IH]; intros w Hid Hem Hage.
  - simpl. rewrite app_nil_r. symmetry. apply database_eta.
  - simpl map. rewrite for_loop_cons. inversion Hage as [|? ? Hr Hl]; subst.
    assert (E : Json.import_student
                  (Json.mk_student_entry (person_id r) (name r) (age r) (email r) (f r)) w
                = commit (Spec.add_student_row r (db w)) w).
    { unfold Json.import_student, Utils.add_student, Database.run.
      cbn [Json.s_name Json.s_age Json.s_email Json.s_student_id Utils.int_or_0 Py.int
           execute].
      rewrite insert_person_in_range, person_row_eta; [reflexivity | assumption | |].
      - apply not_true_false. rewrite has_person_In.
        apply (NoDup_app_cons_fresh person_id _ l r Hid).
      - apply not_true_false. rewrite has_email_In.
        apply (NoDup_app_cons_fresh email _ l r Hem). }
    rewrite E, IH; simpl; rewrite <- ?app_assoc; auto.
Qed.

Lemma import_instructors_fresh (f : person_row -> list string) (l : list person_row) :
  forall w,
  NoDup (map person_id (instructors (db w) ++ l)) ->
  NoDup (map email (instructors (db w) ++ l)) ->
  Forall (fun r => 0 <= age r < 2 ^ 63) l ->
  db (Json.for_loop Json.import_instructor
        (map (fun r => Json.mk_instructor_entry (person_id r) (name r) (age r) (email r)
                         (f r)) l) w)
  = mk_database (students (db w)) (instructors (db w) ++ l)%list (courses (db w))
                (registrations (db w)).
Proof.
  induction l as [|r l IH]; intros w Hid Hem Hage.
  - simpl. rewrite app_nil_r. symmetry. apply database_eta.
  - simpl map. rewrite for_loop_cons. inversion Hage as [|? ? Hr Hl]; subst.
    assert (E : Json.import_instructor
                  (Json.mk_instructor_entry (person_id r) (name r) (age r) (email r) (f r))
                  w
                = commit (mk_database (students (db w)) (instructors (db w) ++ [r])%list
                            (courses (db w)) (registrations (db w))) w).
    { unfold Json.import_instructor, Utils.add_instructor, Database.run.
      cbn [Json.i_name Json.i_age Json.i_email Json.i_instructor_id Utils.int_or_0 Py.int
           execute].
      rewrite insert_person_in_range, person_row_eta; [reflexivity | assumption | |].
      - apply not_true_false. rewrite has_person_In.
        apply (NoDup_app_cons_fresh person_id _ l r Hid).
      - apply not_true_false. rewrite has_email_In.
        apply (NoDup_app_cons_fresh email _ l r Hem). }
    rewrite E, IH; simpl; rewrite <- ?app_assoc; auto.
Qed.

Lemma import_courses_fresh (f : course_row -> list string) (l : list course_row) :
  forall w,
  NoDup (map course_id (courses (db w) ++ l)) ->
  (forall c i, In c l -> instructor_id c = Some i ->
               has_person i (instructors (db w)) = true) ->
  db (Json.for_loop Json.import_course
        (map (fun c => Json.mk_course_entry (course_id c) (course_name c)
                         (instructor_id c) (f c)) l) w)
  = mk_database (students (db w)) (instructors (db w)) (courses (db w) ++ l)%list
                (registrations (db w)).
Proof.
  induction l as [|c l IH]; intros w Hid Hfk.
  - simpl. rewrite app_nil_r. symmetry. apply database_eta.
  - simpl map. rewrite for_loop_cons.
    assert (E : Json.import_course
                  (Json.mk_course_entry (course_id c) (course_name c) (instructor_id c)
                     (f c)) w
                = commit (mk_database (students (db w)) (instructors (db w))
                            (courses (db w) ++ [c])%list (registrations (db w))) w).
    { unfold Json.import_course, Utils.add_course, Database.run.
      cbn [Json.c_course_id Json.c_course_name Json.c_instructor_id execute].
      assert (Hc : has_course (course_id c) (courses (db w)) = false).
      { apply not_true_false. rewrite has_course_In.
        apply (NoDup_app_cons_fresh course_id _ l c Hid). }
      assert (Hi : instructor_fk_ok Database._connect (instructor_id c) (db w) = true).
      { unfold instructor_fk_ok. destruct (instructor_id c) as [i|] eqn:Ei;
          [|reflexivity].
        simpl. apply (Hfk c i); [now left | assumption]. }
      rewrite Hc, Hi, course_row_eta. reflexivity. }
    rewrite E, IH; simpl; rewrite <- ?app_assoc; auto.
    intros c' i Hin. apply Hfk. now right.
Qed.

(** A loop of [register_student_to_course] calls over pairs that name
    stored students and courses adds exactly the pairs that are missing. *)
Lemma register_loop (ps : list registration) :
  forall w,
  (forall p, In p ps -> has_person (fst p) (students (db w)) = true /\
                        has_course (snd p) (courses (db w)) = true) ->
  NoDup (registrations (db w)) ->
  let w' := Json.for_loop
              (fun p w => snd (Utils.register_student_to_course (fst p) (snd p) w))
              ps w in
  students (db w') = students (db w) /\ instructors (db w') = instructors (db w) /\
  courses (db w') = courses (db w) /\ NoDup (registrations (db w')) /\
  forall r, In r (registrations (db w')) <-> In r (registrations (db w)) \/ In r ps.
Proof.
  induction ps as [|[S C] ps IH]; intros w Hfk Hnd; cbv zeta.
  - simpl. repeat split; auto. tauto.
  - rewrite for_loop_cons. cbn [fst snd].
    destruct (Hfk (S, C) (or_introl eq_refl)) as [HS HC]. cbn [fst snd] in HS, HC.
    destruct (has_registration S C (registrations (db w))) eqn:E.
    + rewrite (utils_register_present S C w E). cbn [snd].
      destruct (IH w) as (H1 & H2 & H3 & H4 & H5); [intros; apply Hfk; now right | assumption |].
      repeat split; auto.
      * intros H. apply H5 in H. simpl. tauto.
      * intros [H | [<- | H]]; apply H5; auto.
        left. now apply has_registration_In.
    + rewrite (utils_register_new S C w E HS HC). cbn [snd].
      set (w1 := commit (Spec.add_registration S C (db w)) w).
      destruct (IH w1) as (H1 & H2 & H3 & H4 & H5).
      * intros p Hp. simpl. apply Hfk. now right.
      * simpl. apply NoDup_snoc; [assumption|].
        rewrite <- has_registration_In. congruence.
      * simpl in H1, H2, H3, H5. repeat split; auto.
        -- intros H. apply H5 in H. rewrite in_app_iff in H. simpl in *. tauto.
        -- intros H. apply H5. rewrite in_app_iff. simpl in *. tauto.
Qed.

Lemma has_person_order_by (i : string) (t : list person_row) :
  has_person i (order_by person_id t) = has_person i t.
Proof.
  apply eq_true_iff_eq. rewrite !has_person_In, !in_map_iff.
  split; intros (r & Hr & Hin); exists r; split; auto;
    first [now apply order_by_In in Hin | now apply order_by_In].
Qed.

Lemma has_course_order_by (i : string) (t : list course_row) :
  has_course i (order_by course_id t) = has_course i t.
Proof.
  apply eq_true_iff_eq. rewrite !has_course_In, !in_map_iff.
  split; intros (r & Hr & Hin); exists r; split; auto;
    first [now apply order_by_In in Hin | now apply order_by_In].
Qed.

Lemma students_register_loop {A : Type} (key : A -> string) (ids : A -> list string)
    (l : list A) (w : world) :
  Json.for_loop
    (fun s => Json.for_loop
                (fun cid w => snd (Utils.register_student_to_course (key s) cid w))
                (ids s)) l w
  = Json.for_loop (fun p w => snd (Utils.register_student_to_course (fst p) (snd p) w)) (flat_map (fun s => map (pair (key s)) (ids s)) l) w.
Proof.
  revert w. induction l as [|x l IH]; intros w; [reflexivity|].
  rewrite for_loop_cons. simpl flat_map. rewrite for_loop_app, IH. f_equal.
  apply (for_loop_map (pair (key x)) (fun p w => snd (Utils.register_student_to_course (fst p) (snd p) w)) (ids x) w).
Qed.

Lemma courses_register_loop {A : Type} (key : A -> string) (ids : A -> list string)
    (l : list A) (w : world) :
  Json.for_loop
    (fun c => Json.for_loop
                (fun sid w => snd (Utils.register_student_to_course sid (key c) w))
                (ids c)) l w
  = Json.for_loop (fun p w => snd (Utils.register_student_to_course (fst p) (snd p) w))
      (flat_map (fun c => map (fun sid => (sid, key c)) (ids c)) l) w.
Proof.
  revert w. induction l as [|x l IH]; intros w; [reflexivity|].
  rewrite for_loop_cons. simpl flat_map. rewrite for_loop_app, IH. f_equal.
  apply (for_loop_map (fun sid => (sid, key x)) (fun p w => snd (Utils.register_student_to_course (fst p) (snd p) w)) (ids x) w).
Qed.

(** Export followed by import into an empty database restores the
    database up to the order of the rows: each of the three entity tables
    comes back in the order of its identifiers, and the enrollment table
    comes back with the same rows. The conditions are those that the
    schema of [init_db] enforces (primary keys, unique emails, ages that
    are non-negative 64-bit integers, foreign keys). *)
Theorem export_import_round_trip (d : database) (w : world) :
  db w = empty ->
  Spec.keys_unique d ->
  NoDup (map email (students d)) ->
  NoDup (map email (instructors d)) ->
  Forall (fun r => 0 <= age r < 2 ^ 63) (students d) ->
  Forall (fun r => 0 <= age r < 2 ^ 63) (instructors d) ->
  Spec.referential_integrity d ->
  let (ok, w') := Json.import_from_json (Json.export_to_json d) w in
  ok = true /\
  students (db w') = order_by person_id (students d) /\
  instructors (db w') = order_by person_id (instructors d) /\
  courses (db w') = order_by course_id (courses d) /\
  Permutation (registrations (db w')) (registrations d).
Proof.
  intros Hw (Ks & Ki & Kc & Kr) Es Ei As Ai (Rr & Rc).
  unfold Json.import_from_json.
  cbn [Json.export_to_json Json.doc_students Json.doc_instructors Json.doc_courses].
  split; [reflexivity|].
  set (w1 := Json.for_loop Json.import_instructor _ w).
  assert (H1 : db w1 = mk_database [] (order_by person_id (instructors d)) [] []).
  { subst w1. rewrite import_instructors_fresh; rewrite ?Hw; simpl.
    - reflexivity.
    - now apply order_by_NoDup_map.
    - now apply order_by_NoDup_map.
    - apply Forall_forall. intros r Hr. apply order_by_In in Hr.
      revert r Hr. now apply Forall_forall. }
  set (w2 := Json.for_loop Json.import_student _ w1).
  assert (H2 : db w2 = mk_database (order_by person_id (students d))
                         (order_by person_id (instructors d)) [] []).
  { subst w2. rewrite import_students_fresh; rewrite ?H1; simpl.
    - reflexivity.
    - now apply order_by_NoDup_map.
    - now apply order_by_NoDup_map.
    - apply Forall_forall. intros r Hr. apply order_by_In in Hr.
      revert r Hr. now apply Forall_forall. }
  set (w3 := Json.for_loop Json.import_course _ w2).
  assert (H3 : db w3 = mk_database (order_by person_id (students d))
                         (order_by person_id (instructors d))
                         (order_by course_id (courses d)) []).
  { subst w3. rewrite import_courses_fresh; rewrite ?H2; simpl.
    - reflexivity.
    - now apply order_by_NoDup_map.
    - intros c i Hc Hi. apply order_by_In in Hc.
      rewrite has_person_order_by. now apply (Rc c i). }
  rewrite students_register_loop, courses_register_loop.
  set (ps1 := flat_map _ (map _ (order_by person_id (students d)))).
  set (ps2 := flat_map _ (map _ (order_by course_id (courses d)))).
  assert (P1 : forall p, In p ps1 <-> In p (registrations d)).
  { intros [S C]. subst ps1. rewrite in_flat_map. split.
    - intros (e & He & Hp). apply in_map_iff in He as (r & <- & Hr).
      cbn [Json.s_student_id Json.registered_course_ids] in Hp.
      apply in_map_iff in Hp as (c & [= <- <-] & Hc). now apply student_courses_In.
    - intros Hp. destruct (Rr _ Hp) as [HS _]. cbn [fst] in HS.
      apply has_person_In, in_map_iff in HS as (r & <- & Hr).
      eexists. split.
      + apply in_map. apply order_by_In. exact Hr.
      + cbn [Json.s_student_id Json.registered_course_ids].
        apply in_map. now apply student_courses_In. }
  assert (P2 : forall p, In p ps2 -> In p (registrations d)).
  { intros [S C]. subst ps2. rewrite in_flat_map.
    intros (e & He & Hp). apply in_map_iff in He as (c & <- & Hc).
    cbn [Json.c_course_id Json.student_ids] in Hp.
    apply in_map_iff in Hp as (s & [= <- <-] & Hs).
    now apply course_student_ids_In in Hs as [Hs _]. }
  assert (FK : forall w', students (db w') = order_by person_id (students d) ->
                          courses (db w') = order_by course_id (courses d) ->
                          forall p, In p (registrations d) ->
                            has_person (fst p) (students (db w')) = true /\
                            has_course (snd p) (courses (db w')) = true).
  { intros w' -> -> p Hp. rewrite has_person_order_by, has_course_order_by. auto. }
  destruct (register_loop ps1 w3) as (A1 & A2 & A3 & A4 & A5).
  { intros p Hp. apply FK; rewrite ?H3; auto. now apply P1. }
  { rewrite H3. constructor. }
  set (w4 := Json.for_loop _ ps1 w3) in *.
  rewrite H3 in A1, A2, A3, A5. simpl in A1, A2, A3, A5.
  destruct (register_loop ps2 w4) as (B1 & B2 & B3 & B4 & B5).
  { intros p Hp. apply FK; auto. }
  { assumption. }
  rewrite B1, B2, B3, A1, A2, A3. repeat split.
  apply NoDup_Permutation; [assumption..|].
  intros p. rewrite B5, A5, P1. split; [|tauto].
  intros [[[] | H] | H]; auto.
Qed.

Lemma export_import_round_trip_witness :
  let (ok, w') := Json.import_from_json
                    (Json.export_to_json (db Scenario.school_enrolled)) Scenario.blank in
  ok = true /\
  students (db w') = order_by person_id (students (db Scenario.school_enrolled)) /\
  instructors (db w') = order_by person_id (instructors (db Scenario.school_enrolled)) /\
  courses (db w') = order_by course_id (courses (db Scenario.school_enrolled)) /\
  Permutation (registrations (db w')) (registrations (db Scenario.school_enrolled)).
Proof.
  apply (export_import_round_trip (db Scenario.school_enrolled) Scenario.blank).
  - reflexivity.
  - repeat split; simpl; repeat constructor; simpl; intuition discriminate.
  - simpl. repeat constructor. simpl. tauto.
  - simpl. repeat constructor. simpl. tauto.
  - simpl. repeat constructor; simpl; lia.
  - simpl. repeat constructor; simpl; lia.
  - split; simpl.
    + intros r [<- | []]. split; reflexivity.
    + intros c i [<- | [<- | []]]; simpl; [intros [= <-]; reflexivity | discriminate].
Defined.

(** ** The language of the email patterns *)

Lemma append_nil_r (s : string) : (s ++ "")%string = s.
Proof. induction s as [|c s IH]; simpl; congruence. Qed.

Lemma append_assoc (s t u : string) : ((s ++ t) ++ u = s ++ (t ++ u))%string.
Proof. induction s as [|c s IH]; simpl; congruence. Qed.

Lemma append_is_nil (s t : string) : (s ++ t)%string = "" -> s = "" /\ t = "".
Proof. destruct s; simpl; [auto | discriminate]. Qed.

Lemma nullable_language (r : Re.regex) :
  Re.nullable r = true <-> Re.language r "".
Proof.
  split.
  - induction r; simpl; intros H; try discriminate.
    + constructor.
    + apply andb_true_iff in H as [H1 H2].
      change "" with ("" ++ "")%string. constructor; auto.
    + apply orb_true_iff in H as [H | H]; [apply Re.language_Alt_l | apply Re.language_Alt_r];
        auto.
    + constructor.
  - intros H. remember "" as s eqn:Es. induction H; simpl; try discriminate; auto.
    + apply append_is_nil in Es as [-> ->]. now rewrite IHlanguage1, IHlanguage2.
    + now rewrite IHlanguage.
    + rewrite IHlanguage by assumption. apply orb_true_r.
Qed.

Lemma language_Star_cons (r : Re.regex) (c : ascii) (s : string) :
  Re.language (Re.Star r) (String c s) ->
  exists s1 s2, s = (s1 ++ s2)%string /\ Re.language r (String c s1) /\
                Re.language (Re.Star r) s2.
Proof.
  intros H. remember (Re.Star r) as q eqn:Eq. remember (String c s) as t eqn:Et.
  revert s Et. induction H as [| | | | | |q s1 s2 H1 _ H2 IH2]; intros u Et;
    try discriminate.
  injection Eq as ->. destruct s1 as [|a s1]; simpl in Et.
  - now apply IH2.
  - injection Et as -> <-. eauto.
Qed.

Lemma derive_language (r : Re.regex) :
  forall c s, Re.language (Re.derive c r) s <-> Re.language r (String c s).
Proof.
  induction r as [| |cls|r1 IH1 r2 IH2|r1 IH1 r2 IH2|r IH]; intros c s; simpl.
  - split; intros H; inversion H.
  - split; intros H; inversion H.
  - destruct (cls c) eqn:E; split; intros H; inversion H; subst.
    + now constructor.
    + constructor.
    + congruence.
  - split; intros H.
    + inversion H as [| |? ? ? ? Ha Hb| ? ? ? Ha | ? ? ? Ha | |]; subst.
      * inversion Ha as [| |? ? s1 s2 Hc Hd| | | |]; subst.
        apply IH1 in Hc.
        change (String c (s1 ++ s2)) with (String c s1 ++ s2)%string.
        now constructor.
      * destruct (Re.nullable r1) eqn:En; [|inversion Ha].
        apply nullable_language in En. apply IH2 in Ha.
        change (String c s) with ("" ++ String c s)%string. now constructor.
    + inversion H as [| |? ? s1 s2 Ha Hb Er Es| | | |]; subst.
      destruct s1 as [|a s1]; simpl in Es.
      * subst s2. apply Re.language_Alt_r.
        apply nullable_language in Ha. rewrite Ha. now apply IH2.
      * injection Es as -> <-. apply Re.language_Alt_l. constructor; [|assumption].
        now apply IH1.
  - split; intros H; inversion H; subst.
    + apply Re.language_Alt_l. now apply IH1.
    + apply Re.language_Alt_r. now apply IH2.
    + apply Re.language_Alt_l. now apply IH1.
    + apply Re.language_Alt_r. now apply IH2.
  - split; intros H.
    + inversion H as [| |? ? s1 s2 Ha Hb| | | |]; subst.
      apply IH in Ha.
      change (String c (s1 ++ s2)) with (String c s1 ++ s2)%string.
      now constructor.
    + apply language_Star_cons in H as (s1 & s2 & -> & Ha & Hb).
      constructor; [|assumption]. now apply IH.
Qed.

(** The matcher by derivatives decides the language. *)
Lemma matches_language (s : string) :
  forall r, Re.matches r s = true <-> Re.language r s.
Proof.
  induction s as [|c s IH]; intros r; simpl.
  - apply nullable_language.
  - rewrite IH. apply derive_language.
Qed.

Lemma language_lit (c : ascii) (s : string) :
  Re.language (Re.lit c) s <-> s = String c "".
Proof.
  unfold Re.lit. split.
  - intros H. inversion H as [|? a Ha| | | | |]; subst.
    apply Ascii.eqb_eq in Ha. now subst.
  - intros ->. constructor. apply Ascii.eqb_refl.
Qed.

Lemma language_Star_Chars (cls : ascii -> bool) (s : string) :
  Re.language (Re.Star (Re.Chars cls)) s <-> Re.all_chars cls s = true.
Proof.
  split.
  - intros H. remember (Re.Star (Re.Chars cls)) as q eqn:Eq.
    induction H as [| | | | | |q s1 s2 H1 _ H2 IH2]; try discriminate; [reflexivity|].
    injection Eq as ->. inversion H1 as [|? c Hc| | | | |]; subst. simpl.
    rewrite IH2 by reflexivity. now rewrite Hc.
  - induction s as [|c s IH]; simpl; intros H; [constructor|].
    apply andb_true_iff in H as [Hc Hs].
    change (String c s) with (String c "" ++ s)%string.
    constructor; [now constructor | auto].
Qed.

Lemma language_plus_Chars (cls : ascii -> bool) (s : string) :
  Re.language (Re.plus (Re.Chars cls)) s <-> Re.word cls s.
Proof.
  unfold Re.plus, Re.word. split.
  - intros H. inversion H as [| |? ? s1 s2 Ha Hb| | | |]; subst.
    inversion Ha as [|? c Hc| | | | |]; subst. apply language_Star_Chars in Hb. simpl.
    split; [discriminate|]. now rewrite Hc, Hb.
  - intros [Hne H]. destruct s as [|c s]; [congruence|]. simpl in H.
    apply andb_true_iff in H as [Hc Hs].
    change (String c s) with (String c "" ++ s)%string.
    constructor; [now constructor | now apply language_Star_Chars].
Qed.

(** The texts matched by a pattern of the form [L+@D+\.T]. *)
Lemma language_address (l d : ascii -> bool) (tld : Re.regex) (s : string) :
  Re.language
    (Re.Seq (Re.plus (Re.Chars l))
       (Re.Seq (Re.lit "@") (Re.Seq (Re.plus (Re.Chars d)) (Re.Seq (Re.lit ".") tld)))) s
  <-> exists a b t, s = (a ++ "@" ++ b ++ "." ++ t)%string /\
                    Re.word l a /\ Re.word d b /\ Re.language tld t.
Proof.
  split.
  - intros H.
    inversion H as [| |? ? a s1 Ha H1| | | |]; subst.
    inversion H1 as [| |? ? x s2 Hx H2| | | |]; subst.
    inversion H2 as [| |? ? b s3 Hb H3| | | |]; subst.
    inversion H3 as [| |? ? y t Hy Ht| | | |]; subst.
    apply language_lit in Hx, Hy. subst x y.
    apply language_plus_Chars in Ha, Hb.
    exists a, b, t. auto.
  - intros (a & b & t & -> & Ha & Hb & Ht).
    apply language_plus_Chars in Ha, Hb.
    constructor; [assumption|].
    constructor; [now apply language_lit|].
    constructor; [assumption|].
    constructor; [now apply language_lit | assumption].
Qed.

Lemma all_chars_app (p : ascii -> bool) (s t : string) :
  Re.all_chars p (s ++ t)%string = Re.all_chars p s && Re.all_chars p t.
Proof.
  induction s as [|c s IH]; simpl; [reflexivity|]. now rewrite IH, andb_assoc.
Qed.

Lemma all_chars_impl (p q : ascii -> bool) (s : string) :
  (forall c, p c = true -> q c = true) ->
  Re.all_chars p s = true -> Re.all_chars q s = true.
Proof.
  intros Hpq. induction s as [|c s IH]; simpl; [reflexivity|].
  rewrite !andb_true_iff. intros [Hc Hs]. auto.
Qed.

Lemma word_impl (p q : ascii -> bool) (s : string) :
  (forall c, p c = true -> q c = true) -> Re.word p s -> Re.word q s.
Proof. intros Hpq [Hne H]. split; [assumption | now apply (all_chars_impl p q)]. Qed.

Lemma utils_pattern_language (s : string) :
  Re.matches Utils.email_pattern s = true <->
  exists a b t, s = (a ++ "@" ++ b ++ "." ++ t)%string /\
                Re.word Re.not_at_not_space a /\ Re.word Re.not_at_not_space b /\
                Re.word Re.not_at_not_space t.
Proof.
  rewrite matches_language. unfold Utils.email_pattern. rewrite language_address.
  split; intros (a & b & t & Hs & Ha & Hb & Ht); exists a, b, t;
    (split; [assumption|]; split; [assumption|]; split; [assumption|]);
    now apply language_plus_Chars.
Qed.

Lemma trimmed_address_is_valid (x a b t : string) :
  Py.strip x = (a ++ "@" ++ b ++ "." ++ t)%string ->
  Re.word Re.not_at_not_space a -> Re.word Re.not_at_not_space b ->
  Re.word Re.not_at_not_space t ->
  Utils.valid_email x = true.
Proof.
  intros Hx Ha Hb Ht. unfold Utils.valid_email. rewrite match_strip.
  apply utils_pattern_language. exists a, b, t. auto.
Qed.

(** [valid_email] of [utils.py] accepts exactly the texts that, once
    trimmed, read [a@b.t] where [a], [b] and [t] are non-empty and contain
    neither [@] nor white space. *)
Theorem utils_valid_email_characterised (x : string) :
  Utils.valid_email x = true <->
  exists a b t, Py.strip x = (a ++ "@" ++ b ++ "." ++ t)%string /\
                Re.word Re.not_at_not_space a /\ Re.word Re.not_at_not_space b /\
                Re.word Re.not_at_not_space t.
Proof.
  unfold Utils.valid_email. rewrite match_strip. apply utils_pattern_language.
Qed.

Lemma language_at_least_2_Chars (cls : ascii -> bool) (s : string) :
  Re.language (Re.at_least_2 (Re.Chars cls)) s -> Re.word cls s.
Proof.
  unfold Re.at_least_2. intros H.
  inversion H as [| |? ? s1 s2 Ha Hb| | | |]; subst.
  inversion Ha as [|? c Hc| | | | |]; subst.
  apply (language_plus_Chars cls s2) in Hb. destruct Hb as [_ Hb].
  split; [discriminate|]. simpl. now rewrite Hc, Hb.
Qed.

Lemma classes_pattern_language (s : string) :
  Re.matches Classes.email_pattern s = true ->
  exists a b t, s = (a ++ "@" ++ b ++ "." ++ t)%string /\
                Re.word Re.local_char a /\ Re.word Re.domain_char b /\
                Re.word Re.letter t.
Proof.
  rewrite matches_language. unfold Classes.email_pattern. rewrite language_address.
  intros (a & b & t & Hs & Ha & Hb & Ht). exists a, b, t.
  split; [assumption|]. split; [assumption|]. split; [assumption|].
  now apply language_at_least_2_Chars.
Qed.

Lemma letter_ok (c : ascii) : Re.letter c = true -> Re.not_at_not_space c = true.
Proof.
  destruct c as [[] [] [] [] [] [] [] []]; vm_compute; congruence.
Qed.

Lemma not_at_not_space_isspace (c : ascii) :
  Re.not_at_not_space c = true -> negb (Py.isspace c) = true.
Proof.
  unfold Re.not_at_not_space. rewrite negb_orb, andb_true_iff. tauto.
Qed.

Lemma rstrip_no_space (s : string) :
  Re.all_chars (fun c => negb (Py.isspace c)) s = true -> Py.rstrip s = s.
Proof.
  induction s as [|c s IH]; simpl; [reflexivity|].
  rewrite andb_true_iff, negb_true_iff. intros [Hc Hs]. rewrite (IH Hs).
  destruct s; [now rewrite Hc | reflexivity].
Qed.

Lemma rstrip_app_space (s : string) (c : ascii) :
  Py.isspace c = true -> Py.rstrip (s ++ String c "") = Py.rstrip s.
Proof.
  intros Hc. induction s as [|a s IH].
  - simpl. now rewrite Hc.
  - change (Py.rstrip (String a s ++ String c ""))
      with (match Py.rstrip (s ++ String c "") with
            | EmptyString => if Py.isspace a then EmptyString else String a EmptyString
            | u => String a u
            end).
    rewrite IH. reflexivity.
Qed.

Lemma lstrip_no_space_head (c : ascii) (s : string) :
  Py.isspace c = false -> Py.lstrip (String c s) = String c s.
Proof. intros H. simpl. now rewrite H. Qed.

Lemma without_final_newline_Some (s s' : string) :
  Re.without_final_newline s = Some s' -> s = (s' ++ String Re.newline "")%string.
Proof.
  revert s'. induction s as [|c s IH]; intros s' H; [discriminate|].
  destruct s as [|a s].
  - simpl in H. destruct (Ascii.eqb c Re.newline) eqn:E; [|discriminate].
    apply Ascii.eqb_eq in E. injection H as <-. now subst.
  - change (Re.without_final_newline (String c (String a s)))
      with (option_map (String c) (Re.without_final_newline (String a s))) in H.
    destruct (Re.without_final_newline (String a s)) as [u|]; [|discriminate].
    injection H as <-. simpl. f_equal. now apply IH.
Qed.

(** An address made of words without white space is its own trimmed form,
    also when a newline follows it. *)
Lemma strip_address (a b t : string) :
  Re.word Re.not_at_not_space a -> Re.word Re.not_at_not_space b ->
  Re.word Re.not_at_not_space t ->
  let s := (a ++ "@" ++ b ++ "." ++ t)%string in
  Py.strip s = s /\ Py.strip (s ++ String Re.newline "") = s.
Proof.
  intros [Hane Ha] [_ Hb] [_ Ht] s.
  assert (Hs : Re.all_chars (fun c => negb (Py.isspace c)) s = true).
  { subst s. rewrite !all_chars_app, !andb_true_iff. repeat split;
      try reflexivity;
      eapply all_chars_impl; try eassumption; apply not_at_not_space_isspace. }
  assert (Hhead : exists c u, s = String c u /\ Py.isspace c = false).
  { subst s. destruct a as [|c a]; [congruence|]. simpl in Hs.
    apply andb_true_iff in Hs as [Hc _]. apply negb_true_iff in Hc.
    exists c. eexists. split; [reflexivity | assumption]. }
  destruct Hhead as (c & u & Es & Hc). unfold Py.strip. split.
  - rewrite Es, lstrip_no_space_head, <- Es by assumption. now apply rstrip_no_space.
  - rewrite Es. change (String c u ++ String Re.newline "")%string
      with (String c (u ++ String Re.newline "")).
    rewrite lstrip_no_space_head by assumption.
    change (String c (u ++ String Re.newline ""))
      with (String c u ++ String Re.newline "")%string.
    rewrite rstrip_app_space by reflexivity. rewrite <- Es. now apply rstrip_no_space.
Qed.

(** Every email that the constructors of [classes.py] accept is accepted
    by [valid_email] of [utils.py]: the two validators differ only in that
    the second one is wider. *)
Theorem classes_email_accepted_by_utils (e e' : string) :
  Classes.valid_email e = Py.Return e' ->
  e' = e /\ Utils.valid_email e = true.
Proof.
  unfold Classes.valid_email.
  destruct (Re.match_ Classes.email_pattern e) eqn:M; [|discriminate].
  intros [= <-]. split; [reflexivity|].
  assert (H : exists s, Re.matches Classes.email_pattern s = true /\
                        (e = s \/ e = (s ++ String Re.newline "")%string)).
  { unfold Re.match_ in M. apply orb_true_iff in M as [M | M]; [eauto|].
    destruct (Re.without_final_newline e) as [s|] eqn:E; [|discriminate].
    apply without_final_newline_Some in E. eauto. }
  destruct H as (s & Hs & He).
  apply classes_pattern_language in Hs as (a & b & t & -> & Ha & Hb & Ht).
  apply (word_impl _ _ _ local_char_ok) in Ha.
  apply (word_impl _ _ _ domain_char_ok) in Hb.
  apply (word_impl _ _ _ letter_ok) in Ht.
  destruct (strip_address a b t Ha Hb Ht) as [S1 S2].
  apply trimmed_address_is_valid with (a := a) (b := b) (t := t);
    [destruct He as [-> | ->]; assumption | assumption..].
Qed.

Lemma classes_email_accepted_by_utils_witness :
  let e := ("ann@x.com" ++ String Re.newline "")%string in
  e = e /\ Utils.valid_email e = true.
Proof.
  apply (classes_email_accepted_by_utils ("ann@x.com" ++ String Re.newline "")
           ("ann@x.com" ++ String Re.newline "")).
  reflexivity.
Defined.

(** ** Import of any well-typed document *)

Lemma run_sound (q : statement) (w : world) :
  Spec.keys_unique (db w) /\ Spec.referential_integrity (db w) ->
  Spec.keys_unique (db (snd (Database.run q true w))) /\
  Spec.referential_integrity (db (snd (Database.run q true w))).
Proof.
  intros [Hk Hr]. split; [now apply run_keys_unique|].
  unfold Database.run.
  destruct (execute _ _ q (db w)) as [e|[d' n]] eqn:E; simpl; [assumption|].
  eapply execute_referential_integrity; eassumption.
Qed.

Ltac run_step :=
  match goal with
  | |- context [Database.run ?q true ?w] =>
      let H := fresh "H" in
      let o := fresh "o" in
      let w' := fresh "w" in
      assert (H := run_sound q w);
      destruct (Database.run q true w) as [o w']; simpl in H |- *;
      try destruct o; simpl
  end.

(** Importing a well-typed document (string ids, names and emails,
    integer ages, lists of strings) never breaks the store, whatever the
    values in it: duplicate ids, emails already taken, negative or huge
    ages, enrollments and instructor ids that name nothing. Afterwards the
    primary keys are still unique and no reference dangles: rows that
    would break a constraint are refused one by one. *)
Theorem import_keeps_keys_and_references (data : Json.document) (w : world) :
  Spec.keys_unique (db w) -> Spec.referential_integrity (db w) ->
  let w' := snd (Json.import_from_json data w) in
  Spec.keys_unique (db w') /\ Spec.referential_integrity (db w').
Proof.
  intros Hk Hr. unfold Json.import_from_json. cbn [snd].
  repeat match goal with
         | |- _ /\ _ =>
             apply (for_loop_invariant
                      (fun w' => Spec.keys_unique (db w') /\
                                 Spec.referential_integrity (db w')))
         end; [..|now split].
  - intros c w1 _ H1. apply for_loop_invariant; [|assumption].
    intros sid w2 _ H2. unfold Utils.register_student_to_course. run_step; auto.
  - intros s w1 _ H1. apply for_loop_invariant; [|assumption].
    intros cid w2 _ H2. unfold Utils.register_student_to_course. run_step; auto.
  - intros c w1 _ H1. unfold Json.import_course, Utils.add_course, Utils.update_course.
    run_step; auto. run_step; auto.
  - intros s w1 _ H1. unfold Json.import_student, Utils.add_student, Utils.update_student.
    run_step; auto. run_step; auto.
  - intros i w1 _ H1. unfold Json.import_instructor, Utils.add_instructor,
      Utils.update_instructor.
    run_step; auto. run_step; auto.
Qed.

Lemma import_keeps_keys_and_references_witness :
  let data := Json.mk_document
                [Json.mk_student_entry "S1" "Bob" (-3) "ann@x.com" ["C9"]]
                [Json.mk_instructor_entry "I7" "Eve" 30 "ira@x.com" []]
                [Json.mk_course_entry "C1" "Logic" (Some "I9") ["S8"]] in
  let w' := snd (Json.import_from_json data Scenario.school_enrolled) in
  Spec.keys_unique (db w') /\ Spec.referential_integrity (db w').
Proof.
  apply (import_keeps_keys_and_references
           (Json.mk_document
              [Json.mk_student_entry "S1" "Bob" (-3) "ann@x.com" ["C9"]]
              [Json.mk_instructor_entry "I7" "Eve" 30 "ira@x.com" []]
              [Json.mk_course_entry "C1" "Logic" (Some "I9") ["S8"]])
           Scenario.school_enrolled).
  - repeat split; simpl; repeat constructor; simpl; intuition discriminate.
  - split; simpl.
    + intros r [<- | []]. split; reflexivity.
    + intros c i [<- | [<- | []]]; simpl; [intros [= <-]; reflexivity | discriminate].
Defined.
